(** * figstats: the Figshare statistics client ([figstats/stats.py])

    A shallow embedding of the [Figshare] class: URL construction with
    [os.path.join], the three-counter loops of [get_totals] and
    [get_timeline], the per-row loops of [get_figshare_id] and
    [get_institution_totals], and the single accounts listing of
    [retrieve_institution_users].

    Python exceptions are an error monad; the HTTP collaborator
    ([commons.issue_request]) is an oracle whose every call is recorded in a
    log; [print] appends to a list of lines; DataFrames live in a store so
    that the in-place column assignment of [get_figshare_id] is visible. *)

From Stdlib Require Import ZArith Lia Bool Ascii String List.
From Stdlib Require Import DecimalString.
From Stdlib Require DecimalPos DecimalZ SpecFloat.
From stdpp Require Import base list strings.

Import ListNotations.
Local Open Scope string_scope.
Local Open Scope list_scope.

(** ** Python values

    The values that travel through the client are parsed JSON bodies and
    table cells.  A number is an integer (identifiers and counts) or a
    64-bit float, which is also what pandas makes of the integers of a
    column that has missing cells. *)

#[local] Unset Elimination Schemes.
Inductive value : Type :=
  | VNone
  | VBool (b : bool)
  | VInt (z : Z)
  | VFloat (f : SpecFloat.spec_float)
  | VStr (s : string)
  | VList (l : list value)
  | VDict (d : list (string * value)).
#[local] Set Elimination Schemes.

(** A Python [dict] with string keys: insertion ordered, one entry per key. *)
Definition dict (V : Type) : Type := list (string * V).

Fixpoint dict_get {V} (d : dict V) (k : string) : option V :=
  match d with
  | [] => None
  | (k', v) :: d' => if String.eqb k' k then Some v else dict_get d' k
  end.

(** [d[k] = v]: an existing key keeps its position, a new key goes last. *)
Fixpoint dict_set {V} (d : dict V) (k : string) (v : V) : dict V :=
  match d with
  | [] => [(k, v)]
  | (k', v') :: d' =>
      if String.eqb k' k then (k', v) :: d' else (k', v') :: dict_set d' k v
  end.

Definition dict_keys {V} (d : dict V) : list string := map fst d.

(** ** Exceptions

    [KeyError] carries the argument of the exception: the missing key, by
    its string form when it is a number, or the message pandas composes. *)

Inductive exn : Type :=
  | ValueError (msg : string)
  | AttributeError (attr : string)
  | KeyError (key : string)
  | TypeError
  | RequestFailure (reason : string)   (* raised inside [issue_request] *)
  | PandasError.                       (* raised inside pandas, kind not tracked *)

Inductive outcome (A : Type) : Type :=
  | Ok (a : A)
  | Raise (e : exn).
Arguments Ok {A} a.
Arguments Raise {A} e.

(** ** [os.path.join] (posixpath) *)

Definition starts_with_sep (s : string) : bool :=
  match s with
  | String c _ => Ascii.eqb c "/"
  | EmptyString => false
  end.

Fixpoint ends_with_sep (s : string) : bool :=
  match s with
  | EmptyString => false
  | String c EmptyString => Ascii.eqb c "/"
  | String _ s' => ends_with_sep s'
  end.

Definition join_step (path b : string) : string :=
  if starts_with_sep b then b
  else if (String.eqb path "" || ends_with_sep path)%bool then path +:+ b
  else path +:+ "/" +:+ b.

Definition join (a : string) (p : list string) : string :=
  fold_left join_step p a.

(** ** [str()] *)

Definition str_int (z : Z) : string := NilZero.string_of_int (Z.to_int z).

(** ** Requests, responses and the world *)

Record Request : Type := mkRequest {
  req_method : string;
  req_url : string;
  req_headers : dict string;
  req_params : option (dict Z)
}.

Inductive Response : Type :=
  | Body (body : value)          (* parsed JSON body *)
  | Failed (reason : string).    (* non-success status or transport error *)

Record Exchange : Type := mkExchange {
  ex_request : Request;
  ex_response : Response
}.

(** ** Tables

    A pandas DataFrame: row labels and named columns of cells.  The accounts
    tables carry integer labels, the totals table string labels. *)

Record DataFrame (L : Type) : Type := mkDataFrame {
  index : list L;
  columns : dict (list value)
}.
Arguments mkDataFrame {L} index columns.
Arguments index {L} d.
Arguments columns {L} d.

Definition ref : Type := nat.

Record World : Type := mkWorld {
  log : list Exchange;             (* every request issued, oldest first *)
  stdout : list string;            (* lines printed, oldest first *)
  frames : list (DataFrame Z)      (* the DataFrame objects alive *)
}.

(** ** The monad of client code *)

Definition M (A : Type) : Type := World -> outcome A * World.

Definition ret {A} (a : A) : M A := fun w => (Ok a, w).

Definition raise {A} (e : exn) : M A := fun w => (Raise e, w).

Definition bind {A B} (m : M A) (k : A -> M B) : M B :=
  fun w =>
    match m w with
    | (Ok a, w') => k a w'
    | (Raise e, w') => (Raise e, w')
    end.

Definition lift {A} (o : outcome A) : M A := fun w => (o, w).

Declare Scope py_scope.
Delimit Scope py_scope with py.
Notation "x <- m ;; k" := (bind m (fun x => k))
  (at level 100, m at next level, right associativity) : py_scope.
Notation "m ;;; k" := (bind m (fun _ => k))
  (at level 100, right associativity) : py_scope.
Local Open Scope py_scope.

(** [for x in xs: acc = body x acc] *)
Fixpoint for_each {A S} (xs : list A) (body : A -> S -> M S) (acc : S) : M S :=
  match xs with
  | [] => ret acc
  | x :: xs' => acc' <- body x acc ;; for_each xs' body acc'
  end.

Definition print (line : string) : M unit :=
  fun w => (Ok tt, mkWorld (log w) (stdout w ++ [line]) (frames w)).

(** [obj[key]] for a string key. *)
Definition getitem (obj : value) (key : string) : outcome value :=
  match obj with
  | VDict d =>
      match dict_get d key with
      | Some v => Ok v
      | None => Raise (KeyError key)
      end
  | _ => Raise TypeError
  end.

(** ** The client object *)

Record Figshare : Type := mkFigshare {
  stats_baseurl : string;
  institution : bool;
  institute : option string;
  stats_baseurl_institute : option string;
  basic_headers : dict string;
  basic_token : string;
  main_baseurl : string;
  main_baseurl_institute : option string;
  api_headers : dict string;
  api_token : string
}.

Definition truthy (s : string) : bool := negb (String.eqb s "").

(** [Figshare.__init__]: an attribute assigned under an [if] is [None] here
    when the branch is not taken (the attribute does not exist). *)
Definition __init__ (api_token basic_token : string) (institution : bool)
    (institute : string) : Figshare :=
  let stats_baseurl := "https://stats.figshare.com" in
  let basic_headers := [("Content-Type", "application/json")] in
  let main_baseurl := "https://api.figshare.com/v2/account/" in
  let api_headers := [("Content-Type", "application/json")] in
  {| stats_baseurl := stats_baseurl;
     institution := institution;
     institute := if truthy institute then Some institute else None;
     stats_baseurl_institute :=
       if truthy institute then Some (join stats_baseurl [institute]) else None;
     basic_headers :=
       if truthy basic_token
       then dict_set basic_headers "Authorization" ("Basic " +:+ basic_token)
       else basic_headers;
     basic_token := basic_token;
     main_baseurl := main_baseurl;
     main_baseurl_institute :=
       if institution then Some (join main_baseurl ["institution"]) else None;
     api_headers :=
       if truthy api_token
       then dict_set api_headers "Authorization" ("token " +:+ api_token)
       else api_headers;
     api_token := api_token |}.

(** [self.<attr>] for an attribute that may not exist. *)
Definition getattr {A} (attr : string) (o : option A) : outcome A :=
  match o with
  | Some a => Ok a
  | None => Raise (AttributeError attr)
  end.

Definition stats_endpoint (self : Figshare) (link : string) (institution : bool)
    : outcome string :=
  if institution then
    match getattr "stats_baseurl_institute" (stats_baseurl_institute self) with
    | Ok base => Ok (join base [link])
    | Raise e => Raise e
    end
  else Ok (join (stats_baseurl self) [link]).

(** ** Table operations (pandas) *)

(** [df[name]]: the cells of a column. *)
Definition column {L} (df : DataFrame L) (name : string) : outcome (list value) :=
  match dict_get (columns df) name with
  | Some cells => Ok cells
  | None => Raise (KeyError name)
  end.

(** The message of [DataFrame.drop] for a label that the axis lacks. *)
Definition not_found_in_axis (name : string) : string :=
  "['" +:+ name +:+ "'] not found in axis".

(** [df.drop(columns=name)] *)
Definition drop_columns {L} (name : string) (df : DataFrame L)
    : outcome (DataFrame L) :=
  match dict_get (columns df) name with
  | Some _ =>
      Ok (mkDataFrame (index df)
            (List.filter (fun kv => negb (String.eqb (fst kv) name)) (columns df)))
  | None => Raise (KeyError (not_found_in_axis name))
  end.

(** The default index of a table of [n] rows: labels [0 .. n-1]. *)
Definition RangeIndex (n : nat) : list Z := map Z.of_nat (seq 0 n).

(** Keep the cells whose flag is set. *)
Fixpoint select {A} (mask : list bool) (cells : list A) : list A :=
  match mask, cells with
  | b :: mask', c :: cells' =>
      if b then c :: select mask' cells' else select mask' cells'
  | _, _ => []
  end.

(** Label based slicing, [Index.get_slice_bound]: the position where the
    slice [start:stop] of [.loc] begins ([Left]) or ends ([Right]). *)
Inductive side : Type := Left | Right.

Fixpoint is_monotonic_increasing (idx : list Z) : bool :=
  match idx with
  | a :: (b :: _) as rest => (a <=? b)%Z && is_monotonic_increasing rest
  | _ => true
  end.

Fixpoint is_monotonic_decreasing (idx : list Z) : bool :=
  match idx with
  | a :: (b :: _) as rest => (b <=? a)%Z && is_monotonic_decreasing rest
  | _ => true
  end.

Definition count_if (p : Z -> bool) (idx : list Z) : nat :=
  length (List.filter p idx).

(** Position of the first label satisfying [p]. *)
Fixpoint first_pos (p : Z -> bool) (idx : list Z) : nat :=
  match idx with
  | [] => 0
  | a :: rest => if p a then 0 else S (first_pos p rest)
  end.

Definition last_pos (p : Z -> bool) (idx : list Z) : nat :=
  length idx - 1 - first_pos p (rev idx).

(** The message for a label whose occurrences are scattered. *)
Definition non_unique_label (label : Z) (sd : side) : string :=
  "Cannot get " +:+ match sd with Left => "left" | Right => "right" end +:+
  " slice bound for non-unique label: " +:+ str_int label.

Definition get_slice_bound (idx : list Z) (label : Z) (sd : side) : outcome nat :=
  if existsb (Z.eqb label) idx then
    (* the label occurs: its occurrences must form one run *)
    let first := first_pos (Z.eqb label) idx in
    let last := last_pos (Z.eqb label) idx in
    if Nat.eqb (S last - first) (count_if (Z.eqb label) idx) then
      Ok (match sd with Left => first | Right => S last end)
    else Raise (KeyError (non_unique_label label sd))
  else if is_monotonic_increasing idx then
    Ok (count_if (fun a => (a <? label)%Z) idx)
  else if is_monotonic_decreasing idx then
    Ok (count_if (fun a => (label <? a)%Z) idx)
  else Raise (KeyError (str_int label)).

(** [seq[start:stop]] *)
Definition py_slice {A} (start stop : nat) (l : list A) : list A :=
  firstn (stop - start) (skipn start l).

(** [df.loc[start:stop, name]]: both ends are labels and both are included. *)
Definition loc_slice (start stop : Z) (name : string) (df : DataFrame Z)
    : outcome (list value) :=
  match column df name with
  | Raise e => Raise e
  | Ok cells =>
      match get_slice_bound (index df) start Left with
      | Raise e => Raise e
      | Ok i =>
          match get_slice_bound (index df) stop Right with
          | Raise e => Raise e
          | Ok j => Ok (py_slice i j cells)
          end
      end
  end.

(** *** The type of a column

    A column built from a list of Python objects holds cells of one type.
    pandas settles on it in one pass over the list
    ([lib.maybe_convert_objects]): booleans alone stay booleans and integers
    alone stay integers; integers and floats, or numbers and missing cells,
    all become 64-bit floats, a missing cell becoming NaN; anything else
    keeps the objects as they are.  The pass stops at the first cell that
    decides for objects.  Every integer it meets is first converted to a
    float, which fails when the integer is too large for one. *)

Definition int64_min : Z := - 2 ^ 63.
Definition int64_max : Z := 2 ^ 63 - 1.
Definition uint64_max : Z := 2 ^ 64 - 1.

(** [float(z)]: the nearest 64-bit float, ties to even. *)
Definition float_of_int (z : Z) : SpecFloat.spec_float :=
  SpecFloat.binary_normalize 53 1024 z 0 false.

(** [float(z)] raises [OverflowError]: [z] rounds beyond the largest float. *)
Definition too_large_for_float (z : Z) : bool :=
  (2 ^ 1024 - 2 ^ 970 <=? Z.abs z)%Z.

(** What the pass has seen so far. *)
Record Seen : Type := mkSeen {
  null_ : bool;
  bool_ : bool;
  int_ : bool;
  float_ : bool;
  sint_ : bool;     (* a negative integer *)
  uint_ : bool      (* an integer above the signed 64-bit range *)
}.

(** The pass over the cells: [Ok None] when it stopped at a cell that makes
    the column one of objects. *)
Fixpoint scan_objects (cells : list value) (seen : Seen)
    : outcome (option Seen) :=
  match cells with
  | [] => Ok (Some seen)
  | VNone :: rest =>
      scan_objects rest
        (mkSeen true (bool_ seen) (int_ seen) (float_ seen)
           (sint_ seen) (uint_ seen))
  | VBool _ :: rest =>
      scan_objects rest
        (mkSeen (null_ seen) true (int_ seen) (float_ seen)
           (sint_ seen) (uint_ seen))
  | VFloat _ :: rest =>
      scan_objects rest
        (mkSeen (null_ seen) (bool_ seen) (int_ seen) true
           (sint_ seen) (uint_ seen))
  | VInt z :: rest =>
      if too_large_for_float z then Raise PandasError
      else if null_ seen then
        (* after a missing cell the range is no longer looked at *)
        scan_objects rest
          (mkSeen true (bool_ seen) true (float_ seen)
             (sint_ seen) (uint_ seen))
      else
        let sint := (sint_ seen || ((int64_min <=? z) && (z <? 0)))%Z in
        let uint := (uint_ seen || ((int64_max <? z) && (z <=? uint64_max)))%Z in
        if ((uint && sint) || (uint64_max <? z) || (z <? int64_min))%Z
        then Ok None
        else
          scan_objects rest
            (mkSeen false (bool_ seen) true (float_ seen) sint uint)
  | (VStr _ | VList _ | VDict _) :: _ => Ok None
  end.

(** The cell as a float: a missing cell is NaN. *)
Definition as_float (v : value) : value :=
  match v with
  | VNone => VFloat SpecFloat.S754_nan
  | VInt z => VFloat (float_of_int z)
  | _ => v
  end.

Definition maybe_convert_objects (cells : list value) : outcome (list value) :=
  match scan_objects cells (mkSeen false false false false false false) with
  | Raise e => Raise e
  | Ok None => Ok cells
  | Ok (Some seen) =>
      if bool_ seen then Ok cells                 (* booleans, or objects *)
      else if float_ seen || (null_ seen && int_ seen)
      then Ok (map as_float cells)                (* floats *)
      else Ok cells                               (* integers, or all missing *)
  end.

(** [df[name] = cells] for a list with one cell per row. *)
Definition set_column {L} (df : DataFrame L) (name : string) (cells : list value)
    : outcome (DataFrame L) :=
  match maybe_convert_objects cells with
  | Ok cells' => Ok (mkDataFrame (index df) (dict_set (columns df) name cells'))
  | Raise e => Raise e
  end.

(** All the results, or the first exception. *)
Fixpoint all_ok {A} (l : list (outcome A)) : outcome (list A) :=
  match l with
  | [] => Ok []
  | Ok a :: l' =>
      match all_ok l' with
      | Ok r => Ok (a :: r)
      | Raise e => Raise e
      end
  | Raise e :: _ => Raise e
  end.

(** The cell is an integer of the signed 64-bit range. *)
Definition is_int64 (v : value) : bool :=
  match v with
  | VInt z => ((int64_min <=? z) && (z <=? int64_max))%Z
  | _ => false
  end.

Definition is_none (v : value) : bool :=
  match v with VNone => true | _ => false end.

Definition int64_or_none (v : value) : bool := is_int64 v || is_none v.

(** The cell is no integer beyond the range of a float. *)
Definition fits_float (v : value) : bool :=
  match v with VInt z => negb (too_large_for_float z) | _ => true end.

(** Keys of the inner dicts in order of first appearance. *)
Fixpoint union_keys (rows : list (dict value)) (seen : list string) : list string :=
  match rows with
  | [] => seen
  | r :: rows' =>
      union_keys rows'
        (fold_left
           (fun acc k => if existsb (String.eqb k) acc then acc else acc ++ [k])
           (dict_keys r) seen)
  end.

(** [pd.DataFrame.from_dict(d, orient='index')] for a dict of dicts: one row
    per outer key, labelled by it, and one column per inner key, built from
    the cells of the rows; a cell absent from a row is NaN. *)
Definition from_dict_index (d : dict (dict value)) : outcome (DataFrame string) :=
  let rows := map snd d in
  match
    all_ok
      (map (fun c =>
              match
                maybe_convert_objects
                  (map (fun r => match dict_get r c with
                                 | Some v => v
                                 | None => VFloat SpecFloat.S754_nan
                                 end) rows)
              with
              | Ok cells => Ok (c, cells)
              | Raise e => Raise e
              end)
           (union_keys rows []))
  with
  | Ok cols => Ok (mkDataFrame (dict_keys d) cols)
  | Raise e => Raise e
  end.

(** The regular expression of the test accounts, [-test@email.arizona.edu]:
    a dot matches any character but a newline. *)
Inductive pat : Type := Lit (c : ascii) | Dot.

Definition pat_of_ascii (c : ascii) : pat :=
  if Ascii.eqb c "." then Dot else Lit c.

Definition test_account_pattern : list pat :=
  map pat_of_ascii (list_ascii_of_string "-test@email.arizona.edu").

Fixpoint match_here (p : list pat) (s : string) : bool :=
  match p with
  | [] => true
  | x :: p' =>
      match s with
      | EmptyString => false
      | String c s' =>
          (match x with
           | Lit a => Ascii.eqb a c
           | Dot => negb (Ascii.eqb c "010")
           end) && match_here p' s'
      end
  end.

(** [re.search]: a match anywhere in the string. *)
Fixpoint re_search (p : list pat) (s : string) : bool :=
  match_here p s ||
  match s with
  | EmptyString => false
  | String _ s' => re_search p s'
  end.

Definition is_str (v : value) : bool :=
  match v with VStr _ => true | _ => false end.

Definition admin_address : string := "data-management@email.arizona.edu".

(** Lines 133-137 of [retrieve_institution_users]: the labels of the rows
    whose email is the administrative address or matches the test pattern
    are dropped and the index is reset.  [.str.contains] on a cell that is
    not a string fails inside pandas. *)
Definition drop_admin_and_test (df : DataFrame Z) : outcome (DataFrame Z) :=
  match column df "email" with
  | Raise e => Raise e
  | Ok emails =>
      let is_admin v :=
        match v with VStr s => String.eqb s admin_address | _ => false end in
      let is_test v :=
        match v with VStr s => re_search test_account_pattern s | _ => false end in
      if forallb is_str emails then
        let drop_index :=
          select (map is_admin emails) (index df) ++
          select (map is_test emails) (index df) in
        let keep := map (fun l => negb (existsb (Z.eqb l) drop_index)) (index df) in
        Ok (mkDataFrame (RangeIndex (length (select keep (index df))))
              (map (fun kv => (fst kv, select keep (snd kv))) (columns df)))
      else Raise PandasError
  end.

(** ** Mock collaborators and sample data *)

(** Every response is [{"totals": 42}]. *)
Definition mock_totals_42 : list Exchange -> Request -> Response :=
  fun _ _ => Body (VDict [("totals", VInt 42)]).

(** Every response carries a timeline. *)
Definition mock_timeline : list Exchange -> Request -> Response :=
  fun _ _ => Body (VDict [("timeline", VDict [("2021-03-01", VInt 7)])]).

(** The second request of a session fails. *)
Definition mock_second_fails : list Exchange -> Request -> Response :=
  fun history _ =>
    match history with
    | [_] => Failed "503"
    | _ => Body (VDict [("totals", VInt 42)])
    end.

(** An institution with two accounts, the second one a test account. *)
Definition mock_institution : list Exchange -> Request -> Response :=
  fun _ rq =>
    let api := "https://api.figshare.com/v2/account/institution/" in
    if String.eqb (req_url rq) (api +:+ "accounts") then
      Body (VList
              [VDict [("id", VInt 11); ("institution_id", VInt 3);
                      ("email", VStr "ana@email.arizona.edu")];
               VDict [("id", VInt 12); ("institution_id", VInt 3);
                      ("email", VStr "ana-test@email.arizona.edu")]])
    else if String.eqb (req_url rq) (api +:+ "users/11") then
      Body (VDict [("id", VInt 501)])
    else if String.eqb (req_url rq) (api +:+ "users/12") then
      Body (VDict [("id", VInt 502)])
    else Body (VDict [("totals", VInt 42)]).

Definition repr_opaque : value -> string := fun _ => "<object>".

(** A table constructor for an array of records that all carry the keys of
    the first one. *)
Definition frame_of_records (accounts : value) : outcome (DataFrame Z) :=
  match accounts with
  | VList ((VDict first :: _) as records) =>
      Ok (mkDataFrame (RangeIndex (length records))
            (map (fun key =>
                    (key,
                     map (fun r =>
                            match r with
                            | VDict d =>
                                match dict_get d key with
                                | Some v => v
                                | None => VNone
                                end
                            | _ => VNone
                            end)
                         records))
                 (dict_keys first)))
  | _ => Raise PandasError
  end.

Definition empty_world : World := mkWorld [] [] [].

Definition default_client : Figshare := __init__ "" "" false "".

Definition institute_client : Figshare := __init__ "" "" false "abc".

Definition institution_client : Figshare := __init__ "key" "" true "".

Definition seven_author_ids : list value :=
  [VInt 100; VInt 101; VInt 102; VInt 103; VInt 104; VInt 105; VInt 106].

(** Seven accounts under the row labels [idx]. *)
Definition seven_accounts (idx : list Z) : DataFrame Z :=
  mkDataFrame idx
    [("id", [VInt 1; VInt 2; VInt 3; VInt 4; VInt 5; VInt 6; VInt 7]);
     ("author_id", seven_author_ids)].

Definition world_with (df : DataFrame Z) : World := mkWorld [] [] [df].

(** ** Path segments *)

(** A segment that [join] puts after a separator and that lets the next
    segment follow after a separator: not empty, no separator at either end. *)
Definition plain_segment (s : string) : Prop :=
  s <> "" /\ starts_with_sep s = false /\ ends_with_sep s = false.

(** ** Administrative and test accounts *)

(** The email is the administrative address. *)
Definition is_admin_email (v : value) : bool :=
  match v with VStr s => String.eqb s admin_address | _ => false end.

(** The email matches the pattern of the test accounts. *)
Definition is_test_email (v : value) : bool :=
  match v with VStr s => re_search test_account_pattern s | _ => false end.

(** The row stays when [ignore_admin] is set. *)
Definition kept_account (v : value) : bool :=
  negb (is_admin_email v || is_test_email v).

(** ** Row labels *)

(** The label lies in the slice [0:5] of [.loc], both ends included. *)
Definition in_slice (l : Z) : bool := ((0 <=? l) && (l <=? 5))%Z.

(** ** More sample data *)

(** Every response is [{"id": 900}]. *)
Definition mock_ids : list Exchange -> Request -> Response :=
  fun _ _ => Body (VDict [("id", VInt 900)]).

(** Three accounts: a researcher, the administrative account and a test
    account. *)
Definition three_accounts : DataFrame Z :=
  mkDataFrame (RangeIndex 3)
    [("id", [VInt 11; VInt 12; VInt 13]);
     ("email",
      [VStr "ana@email.arizona.edu";
       VStr "data-management@email.arizona.edu";
       VStr "ana-test@email.arizona.edu"]);
     ("author_id", [VInt 501; VInt 502; VInt 503])].

(** A table constructor that yields the seven accounts whatever the body. *)
Definition frame_of_seven (accounts : value) : outcome (DataFrame Z) :=
  Ok (seven_accounts (RangeIndex 7)).

(** ** The client's methods *)

Section Client.

(** [commons.issue_request] is the HTTP collaborator: what it answers to a
    request may depend on everything that was exchanged before. *)
Variable respond : list Exchange -> Request -> Response.

(** [str()] of a float, of a list or of a dict (their [repr]) is left open. *)
Variable py_repr : value -> string.

(** [pd.DataFrame(accounts)]: the table pandas builds from a parsed body. *)
Variable pd_DataFrame : value -> outcome (DataFrame Z).

Definition py_str (v : value) : string :=
  match v with
  | VNone => "None"
  | VBool true => "True"
  | VBool false => "False"
  | VInt z => str_int z
  | VStr s => s
  | VFloat _ | VList _ | VDict _ => py_repr v
  end.

(** Modelled from the spec: [commons.issue_request] is not among the
    sources.  By the contract of the HTTP collaborator it returns the parsed
    JSON body and raises on a non-success status or a transport error; each
    call is recorded in the log together with what came back. *)
Definition issue_request (method url : string) (headers : dict string)
    (params : option (dict Z)) : M value :=
  fun w =>
    let rq := mkRequest method url headers params in
    let rs := respond (log w) rq in
    let w' := mkWorld (log w ++ [mkExchange rq rs]) (stdout w) (frames w) in
    match rs with
    | Body b => (Ok b, w')
    | Failed reason => (Raise (RequestFailure reason), w')
    end.

Definition item_kinds : list string :=
  ["article"; "author"; "collection"; "group"; "project"].

Definition counters : list string := ["views"; "downloads"; "shares"].

Definition get_totals (self : Figshare) (item_id : value) (item : string)
    (institution : bool) : M (dict value) :=
  if negb (existsb (String.eqb item) item_kinds) then
    raise (ValueError "Incorrect item type")
  else
    for_each counters
      (fun counter total_dict =>
         url <- lift (stats_endpoint self
                        (join "total" [counter; item; py_str item_id])
                        institution) ;;
         result <- issue_request "GET" url (basic_headers self) None ;;
         totals <- lift (getitem result "totals") ;;
         ret (dict_set total_dict counter totals))
      [].

Definition get_user_totals (self : Figshare) (author_id : value)
    : M (dict value) :=
  get_totals self author_id "author" false.

Definition get_timeline (self : Figshare) (item_id : value) (item : string)
    (granularity : string) (institution : bool) : M (dict value) :=
  for_each counters
    (fun counter total_dict =>
       url <- lift (stats_endpoint self
                      (join "timeline"
                         [granularity; counter; item; py_str item_id])
                      institution) ;;
       result <- issue_request "GET" url (basic_headers self) None ;;
       timeline <- lift (getitem result "timeline") ;;
       ret (dict_set total_dict counter timeline))
    [].

(** The store of DataFrame objects.  The table arguments of the client are
    references into it.  A reference that holds no frame stands for an
    argument that is no table and no container either, such as [None] or a
    number: it cannot be subscripted ([TypeError]) and has no [loc]
    ([AttributeError]).  Other arguments (a dict that holds an [id] list,
    say, which the loop of [get_figshare_id] would accept) are not
    represented. *)
Definition load (r : ref) (e : exn) : M (DataFrame Z) :=
  fun w =>
    match frames w !! r with
    | Some df => (Ok df, w)
    | None => (Raise e, w)
    end.

Definition store (r : ref) (df : DataFrame Z) : M unit :=
  fun w => (Ok tt, mkWorld (log w) (stdout w) (<[r := df]> (frames w))).

Definition alloc (df : DataFrame Z) : M ref :=
  fun w =>
    (Ok (length (frames w)), mkWorld (log w) (stdout w) (frames w ++ [df])).

(** [get_figshare_id] assigns the new column on the object it was given and
    returns that same object. *)
Definition get_figshare_id (self : Figshare) (accounts_df : ref) : M ref :=
  base <- lift (getattr "main_baseurl_institute" (main_baseurl_institute self)) ;;
  let endpoint := join base ["users"] in
  df <- load accounts_df TypeError ;;
  ids <- lift (column df "id") ;;
  author_id <-
    for_each ids
      (fun institute_id author_id =>
         let url := endpoint +:+ "/" +:+ py_str institute_id in
         response <- issue_request "GET" url (api_headers self) None ;;
         id <- lift (getitem response "id") ;;
         ret (author_id ++ [id]))
      [] ;;
  df <- lift (set_column df "author_id" author_id) ;;
  store accounts_df df ;;;
  ret accounts_df.

Definition retrieve_institution_users (self : Figshare) (ignore_admin : bool)
    : M ref :=
  base <- lift (getattr "main_baseurl_institute" (main_baseurl_institute self)) ;;
  let url := join base ["accounts"] in
  (* Figshare API is limited to a maximum of 1000 per page *)
  let params := [("page", 1%Z); ("page_size", 1000%Z)] in
  accounts <- issue_request "GET" url (api_headers self) (Some params) ;;
  accounts_df <- lift (pd_DataFrame accounts) ;;
  accounts_df <- lift (drop_columns "institution_id" accounts_df) ;;
  accounts_df <-
    (if ignore_admin then
       print "Excluding administrative and test accounts" ;;;
       lift (drop_admin_and_test accounts_df)
     else ret accounts_df) ;;
  r <- alloc accounts_df ;;
  get_figshare_id self r.

Definition get_institution_totals (self : Figshare) (df : option ref)
    (by_method : string) : M (DataFrame string) :=
  df <-
    match df with
    | None =>
        df <-
          (if String.eqb by_method "author" then
             r <- retrieve_institution_users self false ;; ret (Some r)
           else ret None) ;;
        (if String.eqb by_method "article" then
           print "Need to retrieve articles"
         else ret tt) ;;;
        ret df
    | Some r => ret (Some r)
    end ;;
  author_ids <-
    match df with
    | None => raise (AttributeError "loc")
    | Some r =>
        frame <- load r (AttributeError "loc") ;;
        lift (loc_slice 0 5 "author_id" frame)
    end ;;
  total_dict <-
    for_each author_ids
      (fun author_id total_dict =>
         totals <- get_user_totals self author_id ;;
         ret (dict_set total_dict (py_str author_id) totals))
      [] ;;
  (* Construct pandas DataFrame *)
  lift (from_dict_index total_dict).

(** ** What a call emits

    [emits m P]: from every world, running [m] only appends exchanges to the
    log, and the appended exchanges [new] and the outcome satisfy [P]. *)

Definition emits {A} (m : M A) (P : list Exchange -> outcome A -> Prop) : Prop :=
  forall w, exists new, log (m w).2 = log w ++ new /\ P new (m w).1.

(** The three requests of a counter loop, as the loop bodies of [get_totals]
    and [get_timeline] build them. *)
Definition counter_body (url_of : string -> outcome string)
    (headers : dict string) (field : string)
    (counter : string) (total_dict : dict value) : M (dict value) :=
  url <- lift (url_of counter) ;;
  result <- issue_request "GET" url headers None ;;
  x <- lift (getitem result field) ;;
  ret (dict_set total_dict counter x).

Definition totals_url (self : Figshare) (item_id : value) (item : string)
    (institution : bool) (counter : string) : outcome string :=
  stats_endpoint self (join "total" [counter; item; py_str item_id]) institution.

Definition timeline_url (self : Figshare) (item_id : value) (item : string)
    (granularity : string) (institution : bool) (counter : string)
    : outcome string :=
  stats_endpoint self
    (join "timeline" [granularity; counter; item; py_str item_id]) institution.

Definition get_request (url : string) (headers : dict string) : Request :=
  mkRequest "GET" url headers None.

(** The response carries [x] under [field]. *)
Definition carries (field : string) (ex : Exchange) (x : value) : Prop :=
  exists body, ex_response ex = Body body /\ getitem body field = Ok x.

(** The exchanges of a counter loop that ran to its end. *)
Definition three_counters (url_of : string -> outcome string)
    (headers : dict string) (field : string)
    (new : list Exchange) (result : dict value) : Prop :=
  exists u1 u2 u3 e1 e2 e3 x1 x2 x3,
    url_of "views" = Ok u1 /\ url_of "downloads" = Ok u2 /\
    url_of "shares" = Ok u3 /\
    new = [e1; e2; e3] /\
    map ex_request new =
      [get_request u1 headers; get_request u2 headers; get_request u3 headers] /\
    carries field e1 x1 /\ carries field e2 x2 /\ carries field e3 x3 /\
    result = [("views", x1); ("downloads", x2); ("shares", x3)].

Definition supported (item : string) : Prop := In item item_kinds.

(** A request failed within the exchanges [new]. *)
Definition failed_in (new : list Exchange) (reason : string) : Prop :=
  exists rq, In (mkExchange rq (Failed reason)) new.

(** No partial result: a failed request makes the call raise that failure. *)
Definition fail_fast {A} (new : list Exchange) (out : outcome A) : Prop :=
  forall reason, failed_in new reason -> out = Raise (RequestFailure reason).

Definition aborts_on_failure {A} (m : M A) : Prop := emits m fail_fast.

Definition accounts_page : dict Z := [("page", 1%Z); ("page_size", 1000%Z)].

(** The requests issued are an initial segment of [expected], and all of
    [expected] when the call returns. *)
Definition tracks {A} (expected : list Request) (new : list Exchange)
    (out : outcome A) : Prop :=
  map ex_request new `prefix_of` expected /\
  (forall a, out = Ok a -> map ex_request new = expected).

(** The three requests of [get_user_totals] for one author. *)
Definition user_totals_requests (self : Figshare) (author_id : value)
    : list Request :=
  map (fun counter =>
         get_request
           (join (stats_baseurl self)
              [join "total" [counter; "author"; py_str author_id]])
           (basic_headers self))
      counters.

(** The world after the exchanges [new]. *)
Definition log_append (w : World) (new : list Exchange) : World :=
  mkWorld (log w ++ new) (stdout w) (frames w).

(** The call does not raise [ValueError]. *)
Definition never_value_error {A} (new : list Exchange) (out : outcome A) : Prop :=
  forall msg, out <> Raise (ValueError msg).

(** The request of the accounts listing. *)
Definition accounts_request (self : Figshare) (base : string) : Request :=
  mkRequest "GET" (join base ["accounts"]) (api_headers self)
    (Some accounts_page).

(** The loop body of [get_institution_totals]. *)
Definition totals_body (self : Figshare) (author_id : value)
    (total_dict : dict (dict value)) : M (dict (dict value)) :=
  totals <- get_user_totals self author_id ;;
  ret (dict_set total_dict (py_str author_id) totals).

(** The requests of a counter loop: one per counter whose URL can be built. *)
Definition counter_requests (url_of : string -> outcome string)
    (headers : dict string) : list Request :=
  flat_map (fun counter =>
              match url_of counter with
              | Ok url => [get_request url headers]
              | Raise _ => []
              end)
           counters.

(** A property of the exchanges of a call and of its outcome composes when it
    holds of a call that issues nothing, passes through a raised exception,
    and holds of a sequence whenever it holds of both halves. *)
Class Compositional (P : forall A, list Exchange -> outcome A -> Prop) : Prop := {
  comp_nil : forall A (o : outcome A), P A [] o;
  comp_raise : forall A B n e, P A n (Raise e) -> P B n (Raise e);
  comp_app : forall A B n1 (a : A) n2 (o : outcome B),
      P A n1 (Ok a) -> P B n2 o -> P B (n1 ++ n2) o
}.

(** Every request among [new] satisfies [R]. *)
Definition only (R : Request -> Prop) {A} (new : list Exchange)
    (out : outcome A) : Prop :=
  Forall (fun ex => R (ex_request ex)) new.

(** The call raises no exception outside [C]. *)
Definition raises_only (C : exn -> Prop) {A} (new : list Exchange)
    (out : outcome A) : Prop :=
  forall e, out = Raise e -> C e.

(** [m] leaves the component [proj] of the world as it was. *)
Definition preserves {A X} (proj : World -> X) (m : M A) : Prop :=
  forall w, proj (m w).2 = proj w.

(** The exceptions of a counter loop that reads [field]. *)
Definition stats_error (field : string) (e : exn) : Prop :=
  e = AttributeError "stats_baseurl_institute" \/
  e = KeyError field \/ e = TypeError \/
  exists reason, e = RequestFailure reason.

(** The exceptions of [get_figshare_id]: the missing institution base, a
    missing [id], a response or an argument that cannot be subscripted, a
    failed request, and the failure of pandas on an identifier too large for
    a column of floats. *)
Definition lookup_error (e : exn) : Prop :=
  e = AttributeError "main_baseurl_institute" \/
  e = KeyError "id" \/ e = TypeError \/
  (exists reason, e = RequestFailure reason) \/
  e = PandasError.

(** A response body that lacks [field] makes the call raise what the
    subscript raises. *)
Definition field_checked (field : string) {A} (new : list Exchange)
    (out : outcome A) : Prop :=
  forall ex body e,
    In ex new -> ex_response ex = Body body ->
    getitem body field = Raise e -> out = Raise e.

(** The request of [get_figshare_id] for one institutional user id. *)
Definition user_request (self : Figshare) (base : string) (institute_id : value)
    : Request :=
  get_request (join base ["users"] +:+ "/" +:+ py_str institute_id)
    (api_headers self).

(** A lookup of one institutional user. *)
Definition user_lookup (self : Figshare) (base : string) (rq : Request) : Prop :=
  exists institute_id, rq = user_request self base institute_id.

(** The loop body of [get_figshare_id]. *)
Definition lookup_body (self : Figshare) (endpoint : string)
    (institute_id : value) (author_id : list value) : M (list value) :=
  let url := endpoint +:+ "/" +:+ py_str institute_id in
  response <- issue_request "GET" url (api_headers self) None ;;
  id <- lift (getitem response "id") ;;
  ret (author_id ++ [id]).

(** [m] leaves the tables that exist untouched and adds at most one. *)
Definition adds_at_most_one_table {A} (m : M A) : Prop :=
  forall w,
    frames (m w).2 = frames w \/ exists df, frames (m w).2 = frames w ++ [df].

(** A GET request that carries the headers of the statistics endpoint. *)
Definition stats_request (self : Figshare) (rq : Request) : Prop :=
  req_method rq = "GET" /\ req_headers rq = basic_headers self.

(** A GET request that carries the headers of the account API. *)
Definition api_request (self : Figshare) (rq : Request) : Prop :=
  req_method rq = "GET" /\ req_headers rq = api_headers self.

(** Every row of the totals dict holds the three counters. *)
Definition rows_of_counters (total_dict : dict (dict value)) : Prop :=
  Forall (fun kv => dict_keys (snd kv) = counters) total_dict.

(** The exceptions of [retrieve_institution_users]: those of the lookup,
    those of the table operations, and whatever the table constructor
    raises. *)
Definition listing_error (e : exn) : Prop :=
  lookup_error e \/
  e = KeyError "['institution_id'] not found in axis" \/
  e = KeyError "email" \/ e = PandasError \/
  exists accounts, pd_DataFrame accounts = Raise e.

(** Every counter of every row of the totals dict is a 64-bit integer. *)
Definition rows_of_ints (total_dict : dict (dict value)) : Prop :=
  Forall (fun kv => forallb (fun c => is_int64 (snd c)) (snd kv) = true)
    total_dict.

(** Every response carries a 64-bit integer under [field], as the counts
    and the identifiers of the API are. *)
Definition answers_with_int (field : string) : Prop :=
  forall h rq, exists body x,
    respond h rq = Body body /\ getitem body field = Ok x /\
    is_int64 x = true.

(** ** Basic facts about the monad *)

Lemma bind_ok {A B} (m : M A) (k : A -> M B) w a w' :
  m w = (Ok a, w') -> bind m k w = k a w'.
Proof. intros H. unfold bind. now rewrite H. Qed.

Lemma bind_inv_ok {A B} (m : M A) (k : A -> M B) w b w2 :
  bind m k w = (Ok b, w2) ->
  exists a w1, m w = (Ok a, w1) /\ k a w1 = (Ok b, w2).
Proof.
  unfold bind. destruct (m w) as [[a|e] w1]; intros H.
  - now exists a, w1.
  - discriminate.
Qed.

Lemma emits_ret {A} (a : A) (P : list Exchange -> outcome A -> Prop) :
  P [] (Ok a) -> emits (ret a) P.
Proof. intros H w. exists []. simpl. now rewrite app_nil_r. Qed.

Lemma emits_lift {A} (o : outcome A) (P : list Exchange -> outcome A -> Prop) :
  P [] o -> emits (lift o) P.
Proof. intros H w. exists []. simpl. now rewrite app_nil_r. Qed.

Lemma emits_issue_request method url headers params
    (P : list Exchange -> outcome value -> Prop) :
  (forall body,
      P [mkExchange (mkRequest method url headers params) (Body body)]
        (Ok body)) ->
  (forall reason,
      P [mkExchange (mkRequest method url headers params) (Failed reason)]
        (Raise (RequestFailure reason))) ->
  emits (issue_request method url headers params) P.
Proof.
  intros Hb Hf w. unfold issue_request.
  destruct (respond (log w) (mkRequest method url headers params)) eqn:E;
    eexists; (split; [reflexivity|]); simpl; auto.
Qed.

Lemma emits_bind {A B} (m : M A) (k : A -> M B)
    (P : list Exchange -> outcome A -> Prop)
    (Q : A -> list Exchange -> outcome B -> Prop)
    (R : list Exchange -> outcome B -> Prop) :
  emits m P ->
  (forall a, emits (k a) (Q a)) ->
  (forall n e, P n (Raise e) -> R n (Raise e)) ->
  (forall n1 a n2 o, P n1 (Ok a) -> Q a n2 o -> R (n1 ++ n2) o) ->
  emits (bind m k) R.
Proof.
  intros Hm Hk Hr Ho w. destruct (Hm w) as (n1 & L1 & P1).
  unfold bind. destruct (m w) as [[a|e] w1]; simpl in *.
  - destruct (Hk a w1) as (n2 & L2 & Q2).
    exists (n1 ++ n2). split.
    + now rewrite L2, L1, app_assoc.
    + eauto.
  - exists n1. auto.
Qed.

Lemma emits_for_each {A S} (xs : list A) (body : A -> S -> M S)
    (P : list Exchange -> outcome S -> Prop) :
  (forall s, P [] (Ok s)) ->
  (forall x s, emits (body x s) P) ->
  (forall n1 s n2 o, P n1 (Ok s) -> P n2 o -> P (n1 ++ n2) o) ->
  forall acc, emits (for_each xs body acc) P.
Proof.
  intros Hnil Hbody Happ. induction xs as [|x xs IH]; intros acc; simpl.
  - now apply emits_ret.
  - eapply emits_bind; [apply Hbody | intros; apply IH | auto | eauto].
Qed.

Lemma emits_bind_lift_ok {A B} (a : A) (k : A -> M B)
    (P : list Exchange -> outcome B -> Prop) :
  emits (k a) P -> emits (bind (lift (Ok a)) k) P.
Proof. intros H w. exact (H w). Qed.

(** ** Requests in a known order *)

Lemma tracks_silent {A} (m : M A) :
  (forall w, log (m w).2 = log w) -> emits m (tracks []).
Proof.
  intros H w. exists []. rewrite H, app_nil_r.
  split; [reflexivity|]. split; [apply prefix_nil | reflexivity].
Qed.

Lemma tracks_issue_request method url headers params :
  emits (issue_request method url headers params)
        (tracks [mkRequest method url headers params]).
Proof.
  apply emits_issue_request; intros; (split; [reflexivity|]); simpl;
    [reflexivity | discriminate].
Qed.

Lemma tracks_bind {A B} (m : M A) (k : A -> M B) e1 e2 :
  emits m (tracks e1) -> (forall a, emits (k a) (tracks e2)) ->
  emits (bind m k) (tracks (e1 ++ e2)).
Proof.
  intros Hm Hk.
  apply emits_bind with (P := tracks e1) (Q := fun _ => tracks e2);
    [exact Hm | exact Hk | |].
  - intros n e [Hp _]. split; [|discriminate].
    now apply prefix_app_r.
  - intros n1 a n2 o [_ H1] [Hp H2]. unfold tracks.
    rewrite List.map_app, (H1 a eq_refl). split.
    + now apply prefix_app.
    + intros b Hb. now rewrite (H2 b Hb).
Qed.

Lemma tracks_for_each {A S} (xs : list A) (body : A -> S -> M S)
    (expected : A -> list Request) :
  (forall x s, emits (body x s) (tracks (expected x))) ->
  forall acc, emits (for_each xs body acc) (tracks (flat_map expected xs)).
Proof.
  intros Hbody. induction xs as [|x xs IH]; intros acc; simpl.
  - now apply tracks_silent.
  - apply tracks_bind; [apply Hbody | apply IH].
Qed.

Lemma tracks_counter_loop url_of headers field acc :
  emits (for_each counters (counter_body url_of headers field) acc)
        (tracks (counter_requests url_of headers)).
Proof.
  unfold counter_requests. apply tracks_for_each. intros c s.
  unfold counter_body. destruct (url_of c) as [u|e].
  - apply emits_bind_lift_ok.
    change [get_request u headers] with ([get_request u headers] ++ ([] ++ [])).
    apply tracks_bind; [apply tracks_issue_request|].
    intros result. apply tracks_bind; [|intros x]; now apply tracks_silent.
  - now apply tracks_silent.
Qed.

(** ** Validation of the item kind *)

Lemma supported_existsb item :
  supported item <-> existsb (String.eqb item) item_kinds = true.
Proof.
  unfold supported. rewrite existsb_exists. split.
  - intros H. exists item. split; [exact H | apply String.eqb_refl].
  - intros (x & Hin & Heq). apply String.eqb_eq in Heq. now subst.
Qed.

Lemma get_totals_supported self item_id item inst :
  supported item ->
  get_totals self item_id item inst =
  for_each counters
    (counter_body (totals_url self item_id item inst) (basic_headers self)
       "totals") [].
Proof.
  intros H. apply supported_existsb in H. unfold get_totals. now rewrite H.
Qed.

(** C5: an item kind outside the five supported ones makes [get_totals]
    raise [ValueError] at once: the world is left as it was, so no request
    has been issued. *)
Theorem get_totals_rejects_unsupported_item :
  forall self item_id item inst w,
    ~ supported item ->
    get_totals self item_id item inst w =
      (Raise (ValueError "Incorrect item type"), w).
Proof.
  intros self item_id item inst w H. unfold get_totals.
  destruct (existsb (String.eqb item) item_kinds) eqn:E.
  - exfalso. apply H. now apply supported_existsb.
  - reflexivity.
Qed.

(** ** Institution scope without an institute *)

(** C9: on a client constructed without an institute, [stats_endpoint] with
    the institution flag set raises [AttributeError] instead of producing a
    URL, and the two callers that build their URL through it, [get_totals]
    and [get_timeline], raise it with the world untouched: no request is
    constructed or issued. *)
Theorem stats_endpoint_needs_institute :
  forall api_token basic_token institution link item_id item granularity w,
    let self := __init__ api_token basic_token institution "" in
    stats_endpoint self link true =
      Raise (AttributeError "stats_baseurl_institute") /\
    (supported item ->
     get_totals self item_id item true w =
       (Raise (AttributeError "stats_baseurl_institute"), w)) /\
    get_timeline self item_id item granularity true w =
      (Raise (AttributeError "stats_baseurl_institute"), w).
Proof.
  intros api_token basic_token institution link item_id item granularity w self.
  split; [reflexivity | split].
  - intros H. now rewrite get_totals_supported.
  - reflexivity.
Qed.

(** ** Institution totals *)

(** C10: with a table supplied, [by_method] is never looked at: any two
    values of it give the same outcome and the same final world, hence the
    same requests. *)
Theorem get_institution_totals_ignores_by_method :
  forall self r by_method1 by_method2 w,
    get_institution_totals self (Some r) by_method1 w =
    get_institution_totals self (Some r) by_method2 w.
Proof. reflexivity. Qed.

(** C3 (as the code has it): with no table and [by_method = "article"] the
    diagnostic line is printed, no request is issued, and the call then
    raises [AttributeError] because the table is still [None]. *)
Theorem get_institution_totals_article_raises :
  forall self w,
    get_institution_totals self None "article" w =
      (Raise (AttributeError "loc"),
       mkWorld (log w) (stdout w ++ ["Need to retrieve articles"]) (frames w)).
Proof. reflexivity. Qed.

(** ** The counter loops of [get_totals] and [get_timeline] *)

Lemma counter_body_inv url_of headers field counter acc w acc' w' :
  counter_body url_of headers field counter acc w = (Ok acc', w') ->
  exists u ex x,
    url_of counter = Ok u /\
    ex_request ex = get_request u headers /\
    carries field ex x /\
    acc' = dict_set acc counter x /\
    w' = log_append w [ex].
Proof.
  unfold counter_body, bind, lift, issue_request, ret.
  destruct (url_of counter) as [u|e]; [|discriminate].
  destruct (respond (log w) (mkRequest "GET" u headers None)) as [body|reason] eqn:E;
    [|discriminate].
  destruct (getitem body field) as [x|e] eqn:G; [|discriminate].
  intros H. injection H as <- <-.
  exists u, (mkExchange (mkRequest "GET" u headers None) (Body body)), x.
  repeat split; try reflexivity. now exists body.
Qed.

Lemma counter_body_ok url_of headers field counter acc w u body x :
  url_of counter = Ok u ->
  respond (log w) (get_request u headers) = Body body ->
  getitem body field = Ok x ->
  counter_body url_of headers field counter acc w =
    (Ok (dict_set acc counter x),
     log_append w [mkExchange (get_request u headers) (Body body)]).
Proof.
  intros U R G. unfold counter_body, bind, lift, issue_request, ret.
  rewrite U. unfold get_request in R. rewrite R, G. reflexivity.
Qed.

Lemma counter_loop_inv url_of headers field w d w' :
  for_each counters (counter_body url_of headers field) [] w = (Ok d, w') ->
  exists new,
    log w' = log w ++ new /\ three_counters url_of headers field new d.
Proof.
  simpl. intros H.
  apply bind_inv_ok in H as (d1 & w1 & H1 & H).
  apply bind_inv_ok in H as (d2 & w2 & H2 & H).
  apply bind_inv_ok in H as (d3 & w3 & H3 & H).
  injection H as <- <-.
  apply counter_body_inv in H1 as (u1 & e1 & x1 & U1 & R1 & C1 & -> & ->).
  apply counter_body_inv in H2 as (u2 & e2 & x2 & U2 & R2 & C2 & -> & ->).
  apply counter_body_inv in H3 as (u3 & e3 & x3 & U3 & R3 & C3 & -> & ->).
  exists [e1; e2; e3]. split.
  - simpl. now rewrite <- !app_assoc.
  - exists u1, u2, u3, e1, e2, e3, x1, x2, x3.
    repeat split; try assumption. simpl. now rewrite R1, R2, R3.
Qed.

Lemma counter_loop_ok url_of headers field cs :
  (forall c, In c cs -> exists u, url_of c = Ok u) ->
  (forall h rq, exists body x,
      respond h rq = Body body /\ getitem body field = Ok x) ->
  forall acc w,
  exists d, (for_each cs (counter_body url_of headers field) acc w).1 = Ok d.
Proof.
  intros HU HR. induction cs as [|c cs IH]; intros acc w; simpl.
  - now exists acc.
  - destruct (HU c) as (u & U); [now left|].
    destruct (HR (log w) (get_request u headers)) as (body & x & R & G).
    erewrite bind_ok by (eapply counter_body_ok; eauto).
    apply IH. intros c' Hc'. apply HU. now right.
Qed.

Lemma stats_endpoint_ok self link inst :
  (inst = true -> is_Some (stats_baseurl_institute self)) ->
  exists u, stats_endpoint self link inst = Ok u.
Proof.
  intros H. unfold stats_endpoint. destruct inst.
  - destruct (H eq_refl) as (base & ->). simpl. eauto.
  - eauto.
Qed.

Lemma stats_endpoint_not_value_error self link inst msg :
  stats_endpoint self link inst <> Raise (ValueError msg).
Proof.
  unfold stats_endpoint.
  destruct inst; [destruct (stats_baseurl_institute self)|]; simpl; discriminate.
Qed.

Lemma getitem_not_value_error obj key msg :
  getitem obj key <> Raise (ValueError msg).
Proof.
  destruct obj; simpl; try discriminate.
  destruct (dict_get d key); discriminate.
Qed.

Lemma counter_body_never_value_error self link_of inst headers field counter acc :
  emits (counter_body (fun c => stats_endpoint self (link_of c) inst)
           headers field counter acc)
        never_value_error.
Proof.
  unfold counter_body.
  eapply emits_bind with (P := never_value_error)
                         (Q := fun _ => never_value_error).
  - apply emits_lift. intros msg. apply stats_endpoint_not_value_error.
  - intros url.
    eapply emits_bind with (P := never_value_error)
                           (Q := fun _ => never_value_error).
    + apply emits_issue_request; intros; intros msg; discriminate.
    + intros result.
      eapply emits_bind with (P := never_value_error)
                             (Q := fun _ => never_value_error).
      * apply emits_lift. intros msg. apply getitem_not_value_error.
      * intros x. apply emits_ret. intros msg. discriminate.
      * intros n e H msg. discriminate || (intros E; injection E as ->; now apply (H msg)).
      * intros; assumption.
    + intros n e H msg E. injection E as ->. now apply (H msg).
    + intros; assumption.
  - intros n e H msg E. injection E as ->. now apply (H msg).
  - intros; assumption.
Qed.

Lemma get_timeline_never_value_error self item_id item granularity inst :
  emits (get_timeline self item_id item granularity inst) never_value_error.
Proof.
  unfold get_timeline. apply emits_for_each.
  - intros s msg. discriminate.
  - intros counter total_dict.
    apply (counter_body_never_value_error self
             (fun c => join "timeline" [granularity; c; item; py_str item_id])).
  - intros n1 s n2 o _ Ho. exact Ho.
Qed.

(** C6: for a supported item kind, the requests of [get_totals] are the
    GET requests for views, downloads and shares, in this order: an initial
    segment of them in any run, and exactly the three when the call returns;
    the result then maps each of the three counters to the [totals] field of
    the matching response; the call does return whenever the URL can be built
    and every response carries a [totals] field; and with every response
    [{"totals": 42}], article 99 gives 42 for the three counters. *)
Theorem get_totals_three_requests :
  forall self item_id item inst w,
    supported item ->
    (exists new,
        log (get_totals self item_id item inst w).2 = log w ++ new /\
        tracks (counter_requests (totals_url self item_id item inst)
                  (basic_headers self))
          new (get_totals self item_id item inst w).1) /\
    (forall d w',
        get_totals self item_id item inst w = (Ok d, w') ->
        exists new,
          log w' = log w ++ new /\
          three_counters (totals_url self item_id item inst)
            (basic_headers self) "totals" new d) /\
    ((inst = true -> is_Some (stats_baseurl_institute self)) ->
     (forall h rq, exists body x,
         respond h rq = Body body /\ getitem body "totals" = Ok x) ->
     exists d, (get_totals self item_id item inst w).1 = Ok d) /\
    ((forall h rq, respond h rq = Body (VDict [("totals", VInt 42)])) ->
     (get_totals self (VInt 99) "article" false w).1 =
       Ok [("views", VInt 42); ("downloads", VInt 42); ("shares", VInt 42)]).
Proof.
  intros self item_id item inst w Hs. split; [|split; [|split]].
  - rewrite get_totals_supported by assumption. apply tracks_counter_loop.
  - intros d w' H. rewrite get_totals_supported in H by assumption.
    now apply counter_loop_inv.
  - intros HU HR. rewrite get_totals_supported by assumption.
    apply counter_loop_ok; [|assumption].
    intros c _. now apply stats_endpoint_ok.
  - intros HR. unfold get_totals. simpl.
    unfold bind, lift, issue_request, ret. simpl.
    repeat (rewrite HR; simpl). reflexivity.
Qed.

(** C7: [get_timeline] accepts any item kind.  Whatever the item string, it
    never raises [ValueError] and goes on to its requests, the timeline
    requests for views, downloads and shares; a call that returns has issued
    the three of them and maps views, downloads and shares to the [timeline]
    field of the matching response; and it returns whenever the URL can be
    built and every response carries a [timeline] field. *)
Theorem get_timeline_no_validation :
  forall self item_id item granularity inst w,
    (forall msg,
        (get_timeline self item_id item granularity inst w).1 <>
          Raise (ValueError msg)) /\
    (exists new,
        log (get_timeline self item_id item granularity inst w).2 =
          log w ++ new /\
        tracks (counter_requests
                  (timeline_url self item_id item granularity inst)
                  (basic_headers self))
          new (get_timeline self item_id item granularity inst w).1) /\
    (forall d w',
        get_timeline self item_id item granularity inst w = (Ok d, w') ->
        exists new,
          log w' = log w ++ new /\
          three_counters (timeline_url self item_id item granularity inst)
            (basic_headers self) "timeline" new d) /\
    ((inst = true -> is_Some (stats_baseurl_institute self)) ->
     (forall h rq, exists body x,
         respond h rq = Body body /\ getitem body "timeline" = Ok x) ->
     exists d, (get_timeline self item_id item granularity inst w).1 = Ok d).
Proof.
  intros self item_id item granularity inst w. split; [|split; [|split]].
  - destruct (get_timeline_never_value_error self item_id item granularity
                inst w) as (new & _ & H).
    exact H.
  - apply (tracks_counter_loop
             (timeline_url self item_id item granularity inst)).
  - intros d w' H. now apply counter_loop_inv.
  - intros HU HR.
    apply (counter_loop_ok (timeline_url self item_id item granularity inst));
      [|assumption].
    intros c _. now apply stats_endpoint_ok.
Qed.

(** ** Properties of the log that compose *)

Section Composition.

Context (P : forall A, list Exchange -> outcome A -> Prop) `{!Compositional P}.

Lemma comp_silent {A} (m : M A) :
  (forall w, log (m w).2 = log w) -> emits m (P A).
Proof.
  intros H w. exists []. rewrite H, app_nil_r. split; [reflexivity|].
  apply comp_nil.
Qed.

Lemma comp_load r e : emits (load r e) (P (DataFrame Z)).
Proof.
  apply comp_silent. intros w. unfold load. now destruct (frames w !! r).
Qed.

Lemma comp_bind {A B} (m : M A) (k : A -> M B) :
  emits m (P A) -> (forall a, emits (k a) (P B)) -> emits (bind m k) (P B).
Proof.
  intros Hm Hk.
  apply emits_bind with (P := P A) (Q := fun _ => P B); [exact Hm | exact Hk | |].
  - intros n e. apply comp_raise.
  - intros n1 a n2 o. apply comp_app.
Qed.

Lemma comp_for_each {A S} (xs : list A) (body : A -> S -> M S) :
  (forall x s, emits (body x s) (P S)) ->
  forall acc, emits (for_each xs body acc) (P S).
Proof.
  intros Hbody. induction xs as [|x xs IH]; intros acc; simpl.
  - now apply comp_silent.
  - apply comp_bind; [apply Hbody | apply IH].
Qed.

End Composition.

(** Walks through a method body: binds, loops and branches are split, the
    calls that issue nothing are closed, and [leaf] is tried on what is
    left (the requests). *)
Ltac compositional P leaf :=
  repeat first
    [ apply (comp_bind P)
    | apply (comp_for_each P)
    | apply (comp_load P)
    | match goal with
      | |- forall _, _ => intro
      | |- emits (if ?b then _ else _) _ => destruct b
      | |- emits (match ?o with Some _ => _ | None => _ end) _ => destruct o
      end
    | solve [apply (comp_silent P); intro; reflexivity]
    | leaf ].

(** ** Failures abort *)

Lemma no_failure_in_nil reason : ~ failed_in [] reason.
Proof. intros (rq & []). Qed.

Lemma failed_in_app n1 n2 reason :
  failed_in (n1 ++ n2) reason -> failed_in n1 reason \/ failed_in n2 reason.
Proof.
  intros (rq & H). apply in_app_or in H as [H|H]; [left|right]; now exists rq.
Qed.

#[local] Instance fail_fast_compositional : Compositional (@fail_fast).
Proof.
  split.
  - intros A o reason F. now apply no_failure_in_nil in F.
  - intros A B n e H reason F. specialize (H reason F). now injection H as ->.
  - intros A B n1 a n2 o H1 H2 reason F.
    apply failed_in_app in F as [F|F]; [|now apply H2].
    specialize (H1 reason F). discriminate.
Qed.

Lemma aborts_issue_request method url headers params :
  aborts_on_failure (issue_request method url headers params).
Proof.
  apply emits_issue_request.
  - intros body reason (rq & [H|[]]). discriminate.
  - intros reason reason' (rq & [H|[]]). now injection H as _ ->.
Qed.

Ltac aborts := compositional (@fail_fast) ltac:(apply aborts_issue_request).

Lemma aborts_get_totals self item_id item inst :
  aborts_on_failure (get_totals self item_id item inst).
Proof. unfold aborts_on_failure, get_totals. aborts. Qed.

Lemma aborts_get_timeline self item_id item granularity inst :
  aborts_on_failure (get_timeline self item_id item granularity inst).
Proof. unfold aborts_on_failure, get_timeline. aborts. Qed.

Lemma aborts_get_figshare_id self accounts_df :
  aborts_on_failure (get_figshare_id self accounts_df).
Proof. unfold aborts_on_failure, get_figshare_id. aborts. Qed.

Lemma aborts_retrieve_institution_users self ignore_admin :
  aborts_on_failure (retrieve_institution_users self ignore_admin).
Proof.
  unfold aborts_on_failure, retrieve_institution_users.
  compositional (@fail_fast)
    ltac:(first [ apply aborts_issue_request
                | apply aborts_get_figshare_id ]).
Qed.

Lemma aborts_get_institution_totals self df by_method :
  aborts_on_failure (get_institution_totals self df by_method).
Proof.
  unfold aborts_on_failure, get_institution_totals, get_user_totals.
  compositional (@fail_fast)
    ltac:(first [ apply aborts_issue_request
                | apply aborts_retrieve_institution_users
                | apply aborts_get_totals ]).
Qed.

(** The store is written by [get_figshare_id] only after its last request. *)
Lemma for_each_frames {A S} (xs : list A) (body : A -> S -> M S) :
  (forall x s w, frames (body x s w).2 = frames w) ->
  forall acc w, frames (for_each xs body acc w).2 = frames w.
Proof.
  intros Hbody. induction xs as [|x xs IH]; intros acc w; simpl.
  - reflexivity.
  - unfold bind. specialize (Hbody x acc w).
    destruct (body x acc w) as [[s|e] w1]; simpl in *.
    + now rewrite IH.
    + assumption.
Qed.

Lemma get_figshare_id_raise_frames self accounts_df w e :
  (get_figshare_id self accounts_df w).1 = Raise e ->
  frames (get_figshare_id self accounts_df w).2 = frames w.
Proof.
  remember (get_figshare_id self accounts_df w) as res eqn:E.
  unfold get_figshare_id, bind, lift, load in E.
  destruct (getattr _ _) as [base|e0]; [|now subst res].
  destruct (frames w !! accounts_df) as [df|]; [|now subst res].
  destruct (column df "id") as [ids|e0]; [|now subst res].
  match type of E with context [for_each ids ?b [] w] =>
    pose proof (for_each_frames ids b) as HF;
    assert (HB : forall x s w0, frames (b x s w0).2 = frames w0)
      by (intros x s w0; unfold issue_request, ret;
          destruct (respond _ _); [destruct (getitem _ _)|]; reflexivity);
    specialize (HF HB [] w);
    destruct (for_each ids b [] w) as [[author_id|e1] w1]
  end; subst res; simpl in *.
  - destruct (set_column df "author_id" author_id) as [df'|e2]; simpl;
      [discriminate|].
    intros _. exact HF.
  - intros _. exact HF.
Qed.

(** C4: in each operation that issues several requests ([get_totals],
    [get_timeline], [get_figshare_id], [get_institution_totals]), a request
    that fails makes the whole call raise that failure, so that no totals,
    timeline or table is returned; and [get_figshare_id], which assigns its
    column on the caller's table, leaves every table as it was when it
    raises. *)
Theorem failed_request_aborts_operation :
  forall self item_id item granularity inst accounts_df df by_method,
    aborts_on_failure (get_totals self item_id item inst) /\
    aborts_on_failure (get_timeline self item_id item granularity inst) /\
    aborts_on_failure (get_figshare_id self accounts_df) /\
    aborts_on_failure (get_institution_totals self df by_method) /\
    (forall w e,
        (get_figshare_id self accounts_df w).1 = Raise e ->
        frames (get_figshare_id self accounts_df w).2 = frames w).
Proof.
  intros. repeat split.
  - apply aborts_get_totals.
  - apply aborts_get_timeline.
  - apply aborts_get_figshare_id.
  - apply aborts_get_institution_totals.
  - intros w e. apply get_figshare_id_raise_frames.
Qed.

Lemma tracks_get_user_totals self author_id :
  emits (get_user_totals self author_id)
        (tracks (user_totals_requests self author_id)).
Proof.
  unfold get_user_totals, get_totals. simpl negb. cbv iota.
  unfold user_totals_requests.
  apply tracks_for_each with
    (expected := fun c =>
       [get_request
          (join (stats_baseurl self) [join "total" [c; "author"; py_str author_id]])
          (basic_headers self)]).
  intros counter total_dict. unfold stats_endpoint.
  apply emits_bind_lift_ok.
  change [get_request ?u ?h] with ([get_request u h] ++ ([] ++ [])).
  apply tracks_bind; [apply tracks_issue_request|].
  intros result. apply tracks_bind; [|intros x]; now apply tracks_silent.
Qed.

(** ** The six-row slice *)

Lemma count_if_app p l1 l2 :
  count_if p (l1 ++ l2) = count_if p l1 + count_if p l2.
Proof. unfold count_if. now rewrite List.filter_app, length_app. Qed.

Lemma count_if_none p l :
  Forall (fun a => p a = false) l -> count_if p l = 0.
Proof.
  unfold count_if. induction 1 as [|a l Ha _ IH]; simpl; [reflexivity|].
  now rewrite Ha.
Qed.

Lemma first_pos_app_none p l1 l2 :
  Forall (fun a => p a = false) l1 ->
  first_pos p (l1 ++ l2) = length l1 + first_pos p l2.
Proof.
  induction 1 as [|a l Ha _ IH]; simpl; [reflexivity|]. now rewrite Ha, IH.
Qed.

Lemma RangeIndex_split n :
  6 <= n ->
  exists rest,
    RangeIndex n = [0; 1; 2; 3; 4; 5]%Z ++ rest /\
    Forall (fun a => (5 < a)%Z) rest /\ length rest = n - 6.
Proof.
  intros H. exists (map Z.of_nat (seq 6 (n - 6))). unfold RangeIndex.
  replace n with (6 + (n - 6)) at 1 by lia.
  rewrite seq_app, map_app. repeat split.
  - apply List.Forall_map, List.Forall_forall. intros x Hx.
    apply in_seq in Hx. lia.
  - now rewrite length_map, length_seq.
Qed.

Lemma first_pos_app_found (p : Z -> bool) l1 l2 :
  existsb p l1 = true -> first_pos p (l1 ++ l2) = first_pos p l1.
Proof.
  induction l1 as [|a l1 IH]; simpl; [discriminate|].
  destruct (p a); simpl; [reflexivity|]. intros H. now rewrite IH.
Qed.

Lemma first_pos_lt (p : Z -> bool) l : existsb p l = true -> first_pos p l < length l.
Proof.
  induction l as [|a l IH]; simpl; [discriminate|].
  destruct (p a); simpl; [lia|]. intros H. apply IH in H. lia.
Qed.

Lemma existsb_rev_eq {A} (p : A -> bool) l : existsb p (rev l) = existsb p l.
Proof.
  induction l as [|a l IH]; simpl; [reflexivity|].
  rewrite existsb_app, IH. simpl. rewrite orb_false_r. apply orb_comm.
Qed.

Lemma last_pos_app (p : Z -> bool) l1 l2 :
  existsb p l1 = true -> Forall (fun a => p a = false) l2 ->
  last_pos p (l1 ++ l2) = last_pos p l1.
Proof.
  intros H1 H2. unfold last_pos.
  assert (Hr : Forall (fun a => p a = false) (rev l2)).
  { apply List.Forall_forall. intros a Ha. apply in_rev in Ha.
    rewrite List.Forall_forall in H2. now apply H2. }
  rewrite rev_app_distr, (first_pos_app_none _ _ _ Hr), length_rev, length_app.
  rewrite <- existsb_rev_eq in H1. apply first_pos_lt in H1.
  rewrite length_rev in H1. lia.
Qed.

(** Labels after a block that holds [label] do not move its slice bound
    when none of them is [label]. *)
Lemma get_slice_bound_app idx rest label sd :
  existsb (Z.eqb label) idx = true ->
  Forall (fun a => Z.eqb label a = false) rest ->
  get_slice_bound (idx ++ rest) label sd = get_slice_bound idx label sd.
Proof.
  intros H1 H2. unfold get_slice_bound.
  rewrite existsb_app, H1, count_if_app, (count_if_none _ _ H2), Nat.add_0_r.
  now rewrite first_pos_app_found, last_pos_app.
Qed.

Lemma get_slice_bound_range n label sd :
  6 <= n -> label = 0%Z \/ label = 5%Z ->
  get_slice_bound (RangeIndex n) label sd =
    Ok (match sd with Left => Z.to_nat label | Right => S (Z.to_nat label) end).
Proof.
  intros Hn Hl. destruct (RangeIndex_split n Hn) as (rest & -> & Hrest & _).
  rewrite get_slice_bound_app.
  - destruct Hl as [-> | ->]; now destruct sd.
  - now destruct Hl as [-> | ->].
  - eapply List.Forall_impl; [|exact Hrest]. intros a Ha. simpl in Ha. lia.
Qed.

Lemma loc_slice_range df n name cells :
  index df = RangeIndex n -> 6 <= n ->
  column df name = Ok cells ->
  loc_slice 0 5 name df = Ok (firstn 6 cells).
Proof.
  intros Hi Hn Hc. unfold loc_slice. rewrite Hc, Hi.
  rewrite !get_slice_bound_range by auto. reflexivity.
Qed.

(** ** The loop of [get_institution_totals] *)

Lemma dict_keys_set {V} (d : dict V) k v k' :
  In k' (dict_keys (dict_set d k v)) <-> k' = k \/ In k' (dict_keys d).
Proof.
  unfold dict_keys. induction d as [|[k0 v0] d IH]; simpl.
  - intuition.
  - destruct (String.eqb k0 k) eqn:E; simpl.
    + apply String.eqb_eq in E. subst k0. intuition.
    + rewrite IH. intuition.
Qed.

Lemma totals_loop_keys self ids :
  forall acc w d w',
    for_each ids (totals_body self) acc w = (Ok d, w') ->
    forall k,
      In k (dict_keys d) <->
      In k (dict_keys acc) \/ exists a, In a ids /\ k = py_str a.
Proof.
  induction ids as [|a ids IH]; simpl; intros acc w d w' H k.
  - injection H as <- _. split; [auto|]. intros [H|(a & [] & _)]. exact H.
  - apply bind_inv_ok in H as (acc1 & w1 & H1 & H).
    unfold totals_body in H1.
    apply bind_inv_ok in H1 as (totals & w0 & _ & H1). injection H1 as <- _.
    rewrite (IH _ _ _ _ H k), dict_keys_set. split.
    + intros [[->|Hk]|(b & Hb & ->)]; eauto.
    + intros [Hk|(b & [<-|Hb] & ->)]; eauto.
Qed.

Lemma tracks_totals_loop self ids acc :
  emits (for_each ids (totals_body self) acc)
        (tracks (flat_map (user_totals_requests self) ids)).
Proof.
  apply tracks_for_each. intros a s. unfold totals_body.
  rewrite <- (app_nil_r (user_totals_requests self a)).
  apply tracks_bind; [apply tracks_get_user_totals|].
  intros totals. now apply tracks_silent.
Qed.

Lemma get_institution_totals_supplied self r by_method w df ids :
  frames w !! r = Some df ->
  loc_slice 0 5 "author_id" df = Ok ids ->
  get_institution_totals self (Some r) by_method w =
  bind (for_each ids (totals_body self) [])
       (fun total_dict => lift (from_dict_index total_dict)) w.
Proof.
  intros Hf Hs. unfold get_institution_totals, bind, ret, load, lift.
  cbv beta iota. rewrite Hf. cbv beta iota. rewrite Hs. reflexivity.
Qed.

(** ** The URLs that are requested *)

Lemma append_assoc (a b c : string) : (a +:+ b) +:+ c = a +:+ b +:+ c.
Proof.
  induction a as [|x a IH]; [reflexivity|].
  change (String x ((a +:+ b) +:+ c) = String x (a +:+ b +:+ c)). now f_equal.
Qed.

Lemma append_nonempty (a b : string) : b <> "" -> a +:+ b <> "".
Proof.
  destruct a as [|x a]; [auto|].
  change (String x a +:+ b) with (String x (a +:+ b)). discriminate.
Qed.

Lemma ends_with_sep_app (a b : string) :
  b <> "" -> ends_with_sep (a +:+ b) = ends_with_sep b.
Proof.
  intros Hb. induction a as [|x a IH]; [reflexivity|].
  change (String x a +:+ b) with (String x (a +:+ b)). simpl.
  destruct (a +:+ b) eqn:E; [|exact IH].
  now apply append_nonempty in E.
Qed.

Lemma eqb_empty_false (s : string) : s <> "" -> String.eqb s "" = false.
Proof. intros H. now apply String.eqb_neq. Qed.

Lemma join_step_plain path b :
  path <> "" -> ends_with_sep path = false -> starts_with_sep b = false ->
  join_step path b = path +:+ "/" +:+ b.
Proof.
  intros Hp He Hb. unfold join_step.
  now rewrite Hb, (eqb_empty_false _ Hp), He.
Qed.

Lemma join_step_absolute path b :
  starts_with_sep b = true -> join_step path b = b.
Proof. intros Hb. unfold join_step. now rewrite Hb. Qed.

Lemma plain_segment_truthy s : plain_segment s -> truthy s = true.
Proof.
  intros (Hne & _). unfold truthy. now rewrite (eqb_empty_false _ Hne).
Qed.

Lemma stats_endpoint_plain api_token basic_token institution institute link :
  starts_with_sep link = false ->
  stats_endpoint (__init__ api_token basic_token institution institute)
    link false = Ok ("https://stats.figshare.com/" +:+ link).
Proof.
  intros Hl. unfold stats_endpoint, join. simpl.
  now rewrite join_step_plain.
Qed.

(** X1: the URL that [stats_endpoint] builds on a client made by [__init__].
    A link that does not start with a separator is appended to the
    statistics base URL, after the institute when the institution flag is set
    and the institute is a plain segment; a link that starts with a separator
    replaces the base URL altogether. *)
Theorem stats_endpoint_url :
  forall api_token basic_token institution institute link,
    let self := __init__ api_token basic_token institution institute in
    (starts_with_sep link = false ->
     stats_endpoint self link false =
       Ok ("https://stats.figshare.com/" +:+ link)) /\
    (starts_with_sep link = false -> plain_segment institute ->
     stats_endpoint self link true =
       Ok ("https://stats.figshare.com/" +:+ institute +:+ "/" +:+ link)) /\
    (starts_with_sep link = true ->
     stats_endpoint self link false = Ok link /\
     (institute <> "" -> stats_endpoint self link true = Ok link)).
Proof.
  intros api_token basic_token institution institute link self.
  split; [|split].
  - apply stats_endpoint_plain.
  - intros Hl Hi. pose proof (plain_segment_truthy _ Hi) as Ht.
    destruct Hi as (Hne & Hs & He).
    unfold stats_endpoint, join. simpl. rewrite Ht. simpl.
    rewrite (join_step_plain "https://stats.figshare.com" institute)
      by (auto; discriminate).
    assert (E : ends_with_sep
                  ("https://stats.figshare.com" +:+ "/" +:+ institute) = false).
    { rewrite ends_with_sep_app by discriminate.
      change ("/" +:+ institute) with (String "/" institute). simpl.
      destruct institute; [contradiction|exact He]. }
    rewrite join_step_plain by (auto; apply append_nonempty; discriminate).
    now rewrite append_assoc.
  - intros Hl. split.
    + unfold stats_endpoint, join. simpl. now rewrite join_step_absolute.
    + intros Hne. unfold stats_endpoint, join. simpl.
      unfold truthy. rewrite (eqb_empty_false _ Hne). simpl.
      now rewrite join_step_absolute.
Qed.

Lemma str_int_no_sep z : starts_with_sep (str_int z) = false.
Proof.
  unfold str_int, Z.to_int. destruct z as [|p|p]; simpl; try reflexivity.
  pose proof (DecimalPos.Unsigned.to_uint_nonnil p) as H.
  unfold NilZero.string_of_uint. now destruct (Pos.to_uint p).
Qed.

Lemma totals_link counter item id :
  In counter counters -> supported item -> starts_with_sep id = false ->
  join "total" [counter; item; id] =
    "total/" +:+ counter +:+ "/" +:+ item +:+ "/" +:+ id.
Proof.
  intros Hc Hi Hs. unfold counters in Hc. unfold supported, item_kinds in Hi.
  simpl in Hc, Hi.
  destruct Hc as [<-|[<-|[<-|[]]]];
    destruct Hi as [<-|[<-|[<-|[<-|[<-|[]]]]]];
    unfold join; simpl; rewrite join_step_plain by (auto; discriminate);
    reflexivity.
Qed.

Lemma totals_url_plain api_token basic_token institution institute
    item_id item counter :
  In counter counters -> supported item ->
  starts_with_sep (py_str item_id) = false ->
  totals_url (__init__ api_token basic_token institution institute)
    item_id item false counter =
    Ok ("https://stats.figshare.com/total/" +:+ counter +:+ "/" +:+ item
          +:+ "/" +:+ py_str item_id).
Proof.
  intros Hc Hi Hs. unfold totals_url. rewrite totals_link by assumption.
  now apply stats_endpoint_plain.
Qed.

(** X2: on a client made by [__init__], for a supported item kind and an
    identifier whose string form does not start with a separator,
    [get_totals] without the institution flag requests
    [https://stats.figshare.com/total/<counter>/<item>/<id>] for views,
    downloads and shares in this order, with the basic headers: an initial
    segment of these three requests in any run, all three when it returns. *)
Theorem get_totals_urls :
  forall api_token basic_token institution institute item_id item,
    let self := __init__ api_token basic_token institution institute in
    supported item ->
    starts_with_sep (py_str item_id) = false ->
    emits (get_totals self item_id item false)
      (tracks
         (map (fun counter =>
                 get_request
                   ("https://stats.figshare.com/total/" +:+ counter +:+ "/"
                      +:+ item +:+ "/" +:+ py_str item_id)
                   (basic_headers self))
              counters)).
Proof.
  intros api_token basic_token institution institute item_id item self Hi Hs.
  rewrite get_totals_supported by assumption.
  replace (map _ counters) with
    (counter_requests (totals_url self item_id item false) (basic_headers self)).
  { apply tracks_counter_loop. }
  unfold counter_requests, counters, self. cbn [flat_map map app].
  rewrite !totals_url_plain by (auto; unfold counters; simpl; auto).
  reflexivity.
Qed.

Lemma plain_path_step path b :
  plain_segment b ->
  path +:+ "/" +:+ b <> "" /\ ends_with_sep (path +:+ "/" +:+ b) = false.
Proof.
  intros (Hne & _ & He). split.
  - apply append_nonempty. discriminate.
  - rewrite ends_with_sep_app by discriminate.
    change ("/" +:+ b) with (String "/" b). simpl.
    destruct b; [contradiction|exact He].
Qed.

Lemma counters_plain counter : In counter counters -> plain_segment counter.
Proof.
  intros [<-|[<-|[<-|[]]]]; repeat split; discriminate.
Qed.

Lemma timeline_link granularity counter item id :
  In counter counters -> plain_segment granularity -> plain_segment item ->
  starts_with_sep id = false ->
  join "timeline" [granularity; counter; item; id] =
    "timeline/" +:+ granularity +:+ "/" +:+ counter +:+ "/" +:+ item
      +:+ "/" +:+ id.
Proof.
  intros Hc Hg Hi Hs. apply counters_plain in Hc.
  unfold join. cbn [fold_left].
  destruct (plain_path_step "timeline" granularity Hg) as (N1 & E1).
  destruct (plain_path_step ("timeline" +:+ "/" +:+ granularity) counter Hc)
    as (N2 & E2).
  destruct (plain_path_step
              (("timeline" +:+ "/" +:+ granularity) +:+ "/" +:+ counter)
              item Hi) as (N3 & E3).
  rewrite (join_step_plain "timeline" granularity)
    by (try discriminate; try reflexivity; apply Hg).
  rewrite (join_step_plain _ counter) by (auto; apply Hc).
  rewrite (join_step_plain _ item) by (auto; apply Hi).
  rewrite (join_step_plain _ id) by auto.
  now rewrite !append_assoc.
Qed.

(** X3: [get_timeline] builds its URLs from whatever it is given.  On a
    client made by [__init__], when the granularity and the item kind are
    plain segments and the string form of the identifier does not start with
    a separator, the requests without the institution flag are those for
    [https://stats.figshare.com/timeline/<granularity>/<counter>/<item>/<id>],
    for views, downloads and shares in this order, with the basic headers. *)
Theorem get_timeline_urls :
  forall api_token basic_token institution institute item_id item granularity,
    let self := __init__ api_token basic_token institution institute in
    plain_segment granularity ->
    plain_segment item ->
    starts_with_sep (py_str item_id) = false ->
    emits (get_timeline self item_id item granularity false)
      (tracks
         (map (fun counter =>
                 get_request
                   ("https://stats.figshare.com/timeline/" +:+ granularity
                      +:+ "/" +:+ counter +:+ "/" +:+ item +:+ "/"
                      +:+ py_str item_id)
                   (basic_headers self))
              counters)).
Proof.
  intros api_token basic_token institution institute item_id item granularity
    self Hg Hi Hs.
  replace (map _ counters) with
    (counter_requests (timeline_url self item_id item granularity false)
       (basic_headers self)).
  { apply (tracks_counter_loop
             (timeline_url self item_id item granularity false)). }
  assert (U : forall c, In c counters ->
    timeline_url self item_id item granularity false c =
      Ok ("https://stats.figshare.com/timeline/" +:+ granularity +:+ "/"
            +:+ c +:+ "/" +:+ item +:+ "/" +:+ py_str item_id)).
  { intros c Hc. unfold timeline_url. rewrite timeline_link by assumption.
    now apply stats_endpoint_plain. }
  unfold counter_requests, counters. cbn [flat_map map app].
  rewrite !U by (unfold counters; simpl; auto).
  reflexivity.
Qed.

(** X4: an identifier whose string form starts with a separator takes the
    place of the whole URL: [get_totals] for a supported item kind then sends
    its three requests to that string itself, whatever the base URL of the
    client. *)
Theorem get_totals_absolute_id :
  forall self item_id item,
    supported item ->
    starts_with_sep (py_str item_id) = true ->
    emits (get_totals self item_id item false)
      (tracks
         (map (fun _ => get_request (py_str item_id) (basic_headers self))
              counters)).
Proof.
  intros self item_id item Hi Hs.
  rewrite get_totals_supported by assumption.
  replace (map _ counters) with
    (counter_requests (totals_url self item_id item false) (basic_headers self)).
  { apply tracks_counter_loop. }
  unfold counter_requests, counters, totals_url, stats_endpoint, join.
  cbn [flat_map map app fold_left].
  now rewrite !(join_step_absolute _ (py_str item_id)) by assumption.
Qed.

(** ** Exceptions a caller can meet *)

Lemma raises_only_bind {A B} C (m : M A) (k : A -> M B) :
  emits m (raises_only C) -> (forall a, emits (k a) (raises_only C)) ->
  emits (bind m k) (raises_only C).
Proof.
  intros Hm Hk.
  apply emits_bind with (P := raises_only C) (Q := fun _ => raises_only C);
    [exact Hm | exact Hk | |].
  - intros n e H e' E. injection E as <-. now apply H.
  - intros n1 a n2 o _ H. exact H.
Qed.

Lemma raises_only_for_each {A S} C (xs : list A) (body : A -> S -> M S) :
  (forall x s, emits (body x s) (raises_only C)) ->
  forall acc, emits (for_each xs body acc) (raises_only C).
Proof.
  intros Hbody. induction xs as [|x xs IH]; intros acc; simpl.
  - apply emits_ret. discriminate.
  - apply raises_only_bind; [apply Hbody | apply IH].
Qed.

Lemma emits_raise_only_raise {A} (C : exn -> Prop) e :
  C e -> emits (@raise A e) (raises_only C).
Proof.
  intros H w. exists []. simpl. rewrite app_nil_r. split; [reflexivity|].
  intros e' E. injection E as <-. exact H.
Qed.

Lemma raises_only_issue_request C method url headers params :
  (forall reason, C (RequestFailure reason)) ->
  emits (issue_request method url headers params) (raises_only C).
Proof.
  intros H. apply emits_issue_request.
  - discriminate.
  - intros reason e E. injection E as <-. apply H.
Qed.

Lemma raises_only_getitem C obj key :
  C (KeyError key) -> C TypeError ->
  emits (lift (getitem obj key)) (raises_only C).
Proof.
  intros Hk Ht. apply emits_lift. intros e E.
  destruct obj; simpl in E; try (injection E as <-; exact Ht).
  destruct (dict_get d key); [discriminate|]. injection E as <-. exact Hk.
Qed.

Lemma raises_only_counter_body C url_of headers field counter acc :
  (forall e, url_of counter = Raise e -> C e) ->
  C (KeyError field) -> C TypeError ->
  (forall reason, C (RequestFailure reason)) ->
  emits (counter_body url_of headers field counter acc) (raises_only C).
Proof.
  intros Hu Hk Ht Hr. unfold counter_body.
  apply raises_only_bind; [apply emits_lift; exact (Hu)|].
  intros url. apply raises_only_bind; [now apply raises_only_issue_request|].
  intros result. apply raises_only_bind; [now apply raises_only_getitem|].
  intros x. apply emits_ret. discriminate.
Qed.

Lemma stats_endpoint_raises self link inst e :
  stats_endpoint self link inst = Raise e ->
  inst = true /\ e = AttributeError "stats_baseurl_institute".
Proof.
  unfold stats_endpoint.
  destruct inst; [destruct (stats_baseurl_institute self)|]; simpl;
    try discriminate.
  intros E. injection E as <-. auto.
Qed.

(** X5: what the statistics calls can raise.  [get_totals] raises nothing
    but [ValueError] for the item kind, [AttributeError] for the missing
    institute URL, [KeyError] or [TypeError] from reading [totals] off a
    response, and the failure of a request; [get_timeline] the same without
    [ValueError], reading [timeline]; [get_user_totals] never raises
    [ValueError] nor [AttributeError], whatever the client. *)
Theorem stats_calls_raise_only :
  forall self item_id item granularity inst,
    emits (get_totals self item_id item inst)
      (raises_only (fun e => e = ValueError "Incorrect item type" \/
                             stats_error "totals" e)) /\
    emits (get_timeline self item_id item granularity inst)
      (raises_only (stats_error "timeline")) /\
    emits (get_user_totals self item_id)
      (raises_only (fun e => e = KeyError "totals" \/ e = TypeError \/
                             exists reason, e = RequestFailure reason)).
Proof.
  intros self item_id item granularity inst. split; [|split].
  - unfold get_totals.
    destruct (negb (existsb (String.eqb item) item_kinds)).
    + apply emits_raise_only_raise. now left.
    + apply raises_only_for_each. intros counter acc.
      apply (raises_only_counter_body _
               (totals_url self item_id item inst)).
      * intros e E. apply stats_endpoint_raises in E as (_ & ->).
        right. now left.
      * right. right. now left.
      * right. right. right. now left.
      * intros reason. right. right. right. right. now exists reason.
  - unfold get_timeline. apply raises_only_for_each. intros counter acc.
    apply (raises_only_counter_body _
             (timeline_url self item_id item granularity inst)).
    + intros e E. apply stats_endpoint_raises in E as (_ & ->). now left.
    + right. now left.
    + right. right. now left.
    + intros reason. right. right. right. now exists reason.
  - unfold get_user_totals, get_totals. simpl negb. cbv iota.
    apply raises_only_for_each. intros counter acc.
    apply (raises_only_counter_body _
             (totals_url self item_id "author" false)).
    + intros e E. unfold totals_url in E.
      apply stats_endpoint_raises in E as (E & _). discriminate E.
    + now left.
    + right. now left.
    + intros reason. right. right. now exists reason.
Qed.

Lemma field_checked_counter_body url_of headers field counter acc :
  emits (counter_body url_of headers field counter acc) (field_checked field).
Proof.
  intros w. unfold counter_body, bind, lift, issue_request, ret.
  destruct (url_of counter) as [u|e0].
  - destruct (respond (log w) (mkRequest "GET" u headers None))
      as [body|reason] eqn:R.
    + destruct (getitem body field) as [x|e1] eqn:G;
        eexists; (split; [reflexivity|]);
        intros ex body' e [<-|[]] B G'; simpl in B; injection B as <-;
        simpl; congruence.
    + eexists. split; [reflexivity|].
      intros ex body' e [<-|[]] B. discriminate B.
  - exists []. simpl. rewrite app_nil_r. split; [reflexivity|].
    intros ex body' e [].
Qed.

Lemma field_checked_counter_loop url_of headers field acc :
  emits (for_each counters (counter_body url_of headers field) acc)
        (field_checked field).
Proof.
  apply emits_for_each.
  - intros s ex body e [].
  - intros x s. apply field_checked_counter_body.
  - intros n1 s n2 o H1 H2 ex body e Hin B G.
    apply in_app_or in Hin as [Hin|Hin].
    + specialize (H1 ex body e Hin B G). discriminate H1.
    + now apply (H2 ex body e).
Qed.

(** X6: a response without the expected field ends the call.  When a
    response body of [get_totals] has no [totals] entry the call raises
    [KeyError], when the body is not a JSON object it raises [TypeError];
    [get_timeline] does the same for [timeline].  No result is returned from
    the responses that did carry the field. *)
Theorem missing_field_aborts :
  forall self item_id item granularity inst,
    emits (get_totals self item_id item inst) (field_checked "totals") /\
    emits (get_timeline self item_id item granularity inst)
      (field_checked "timeline") /\
    (forall d key, dict_get d key = None ->
                   getitem (VDict d) key = Raise (KeyError key)) /\
    (forall obj key, (forall d, obj <> VDict d) ->
                     getitem obj key = Raise TypeError).
Proof.
  intros self item_id item granularity inst. repeat split.
  - unfold get_totals.
    destruct (negb (existsb (String.eqb item) item_kinds)).
    + intros w. exists []. simpl. rewrite app_nil_r. split; [reflexivity|].
      intros ex body e [].
    + apply (field_checked_counter_loop (totals_url self item_id item inst)).
  - apply (field_checked_counter_loop
             (timeline_url self item_id item granularity inst)).
  - intros d key H. simpl. now rewrite H.
  - intros obj key H. destruct obj; try reflexivity. now destruct (H d).
Qed.

(** ** What the calls leave alone *)

Lemma preserves_bind {A B X} (proj : World -> X) (m : M A) (k : A -> M B) :
  preserves proj m -> (forall a, preserves proj (k a)) ->
  preserves proj (bind m k).
Proof.
  intros Hm Hk w. unfold bind. specialize (Hm w).
  destruct (m w) as [[a|e] w1]; simpl in *.
  - now rewrite Hk.
  - exact Hm.
Qed.

Lemma preserves_for_each {A S X} (proj : World -> X) (xs : list A)
    (body : A -> S -> M S) :
  (forall x s, preserves proj (body x s)) ->
  forall acc, preserves proj (for_each xs body acc).
Proof.
  intros Hbody. induction xs as [|x xs IH]; intros acc; simpl.
  - intros w. reflexivity.
  - apply preserves_bind; [apply Hbody | apply IH].
Qed.

Lemma preserves_issue_request {X} (proj : World -> X) method url headers params :
  (forall w new, proj (log_append w new) = proj w) ->
  preserves proj (issue_request method url headers params).
Proof.
  intros H w. unfold issue_request.
  destruct (respond (log w) _); simpl; apply (H w [_]).
Qed.

Lemma preserves_load {X} (proj : World -> X) r e : preserves proj (load r e).
Proof. intros w. unfold load. now destruct (frames w !! r). Qed.

Lemma get_totals_preserves {X} (proj : World -> X) self item_id item inst :
  (forall w new, proj (log_append w new) = proj w) ->
  preserves proj (get_totals self item_id item inst).
Proof.
  intros H. unfold get_totals.
  destruct (negb (existsb (String.eqb item) item_kinds)); [now intros w|].
  apply preserves_for_each. intros counter acc.
  apply preserves_bind; [now intros w|]. intros url.
  apply preserves_bind; [now apply preserves_issue_request|]. intros result.
  apply preserves_bind; now intros w.
Qed.

(** X7: the statistics calls only talk to the network.  [get_totals],
    [get_timeline] and [get_user_totals] print nothing and leave every table
    as it is, and so does [get_institution_totals] when a table is supplied:
    the caller's table is read, never written. *)
Theorem stats_calls_are_silent :
  forall self item_id item granularity inst r by_method w,
    let unchanged (w' : World) :=
      stdout w' = stdout w /\ frames w' = frames w in
    unchanged (get_totals self item_id item inst w).2 /\
    unchanged (get_timeline self item_id item granularity inst w).2 /\
    unchanged (get_user_totals self item_id w).2 /\
    unchanged (get_institution_totals self (Some r) by_method w).2.
Proof.
  intros self item_id item granularity inst r by_method w unchanged.
  assert (T : forall X (proj : World -> X),
             (forall w new, proj (log_append w new) = proj w) ->
             preserves proj (get_timeline self item_id item granularity inst)).
  { intros X proj H. unfold get_timeline.
    apply preserves_for_each. intros counter acc.
    apply preserves_bind; [now intros w0|]. intros url.
    apply preserves_bind; [now apply preserves_issue_request|]. intros result.
    apply preserves_bind; now intros w0. }
  assert (I : forall X (proj : World -> X),
             (forall w new, proj (log_append w new) = proj w) ->
             preserves proj (get_institution_totals self (Some r) by_method)).
  { intros X proj H. unfold get_institution_totals, get_user_totals.
    apply preserves_bind; [now intros w0|]. intros [r0|].
    - apply preserves_bind.
      + apply preserves_bind; [apply preserves_load|]. now intros frame w0.
      + intros ids. apply preserves_bind; [|now intros d w0].
        apply preserves_for_each. intros a acc.
        apply preserves_bind; [now apply get_totals_preserves|].
        now intros t w0.
    - apply preserves_bind; [now intros w0|]. intros ids.
      apply preserves_bind; [|now intros d w0].
      apply preserves_for_each. intros a acc.
      apply preserves_bind; [now apply get_totals_preserves|].
      now intros t w0. }
  unfold unchanged, get_user_totals. repeat split.
  - now apply (get_totals_preserves stdout).
  - now apply (get_totals_preserves frames).
  - now apply (T _ stdout).
  - now apply (T _ frames).
  - now apply (get_totals_preserves stdout).
  - now apply (get_totals_preserves frames).
  - now apply (I _ stdout).
  - now apply (I _ frames).
Qed.

(** ** The per-row lookup of [get_figshare_id] *)

Lemma log_append_nil w : log_append w [] = w.
Proof. destruct w. unfold log_append. simpl. now rewrite app_nil_r. Qed.

Lemma log_append_app w n1 n2 :
  log_append (log_append w n1) n2 = log_append w (n1 ++ n2).
Proof. unfold log_append. simpl. now rewrite app_assoc. Qed.

Lemma flat_map_singleton {A B} (f : A -> B) (l : list A) :
  flat_map (fun x => [f x]) l = map f l.
Proof. induction l as [|x l IH]; simpl; [reflexivity|]. now rewrite IH. Qed.

Lemma lookup_body_inv self endpoint institute_id acc w acc' w' :
  lookup_body self endpoint institute_id acc w = (Ok acc', w') ->
  exists ex x,
    ex_request ex =
      get_request (endpoint +:+ "/" +:+ py_str institute_id) (api_headers self) /\
    carries "id" ex x /\
    acc' = acc ++ [x] /\
    w' = log_append w [ex].
Proof.
  unfold lookup_body, bind, lift, issue_request, ret.
  destruct (respond (log w) _) as [body|reason] eqn:R; [|discriminate].
  destruct (getitem body "id") as [x|e] eqn:G; [|discriminate].
  intros H. injection H as <- <-.
  eexists (mkExchange _ (Body body)), x.
  repeat split. now exists body.
Qed.

Lemma lookup_loop_inv self endpoint ids :
  forall acc w acc' w',
    for_each ids (lookup_body self endpoint) acc w = (Ok acc', w') ->
    exists new authors,
      acc' = acc ++ authors /\
      w' = log_append w new /\
      map ex_request new =
        map (fun i => get_request (endpoint +:+ "/" +:+ py_str i)
                        (api_headers self)) ids /\
      Forall2 (carries "id") new authors.
Proof.
  induction ids as [|i ids IH]; simpl; intros acc w acc' w' H.
  - injection H as <- <-. exists [], [].
    now rewrite app_nil_r, log_append_nil.
  - apply bind_inv_ok in H as (acc1 & w1 & H1 & H).
    apply lookup_body_inv in H1 as (ex & x & Rq & Cx & -> & ->).
    apply IH in H as (new & authors & -> & -> & Rqs & Cs).
    exists (ex :: new), (x :: authors). repeat split.
    + now rewrite <- app_assoc.
    + now rewrite log_append_app.
    + simpl. now rewrite Rq, Rqs.
    + now constructor.
Qed.

Lemma tracks_lookup_loop self endpoint ids acc :
  emits (for_each ids (lookup_body self endpoint) acc)
        (tracks (map (fun i => get_request (endpoint +:+ "/" +:+ py_str i)
                                 (api_headers self)) ids)).
Proof.
  rewrite <- flat_map_singleton. apply tracks_for_each.
  intros i s. unfold lookup_body.
  change [get_request ?u ?h] with ([get_request u h] ++ ([] ++ [])).
  apply tracks_bind; [apply tracks_issue_request|].
  intros response. apply tracks_bind; [|intros x]; now apply tracks_silent.
Qed.

Lemma get_figshare_id_unfold self accounts_df w base df ids :
  main_baseurl_institute self = Some base ->
  frames w !! accounts_df = Some df ->
  column df "id" = Ok ids ->
  get_figshare_id self accounts_df w =
    bind (for_each ids (lookup_body self (join base ["users"])) [])
         (fun author_id =>
            df' <- lift (set_column df "author_id" author_id) ;;
            store accounts_df df' ;;;
            ret accounts_df) w.
Proof.
  intros Hb Hf Hc. unfold get_figshare_id. rewrite Hb.
  unfold bind at 1, lift at 1, getattr. unfold bind at 1, load.
  rewrite Hf. unfold bind at 1, lift at 1. rewrite Hc. reflexivity.
Qed.

Lemma dict_get_set_eq {V} (d : dict V) k v : dict_get (dict_set d k v) k = Some v.
Proof.
  induction d as [|[k0 v0] d IH]; simpl.
  - now rewrite String.eqb_refl.
  - destruct (String.eqb k0 k) eqn:E; simpl; now rewrite E.
Qed.

Lemma dict_get_set_ne {V} (d : dict V) k v k' :
  k' <> k -> dict_get (dict_set d k v) k' = dict_get d k'.
Proof.
  intros Hne. induction d as [|[k0 v0] d IH]; simpl.
  - destruct (String.eqb k k') eqn:E; [|reflexivity].
    apply String.eqb_eq in E. congruence.
  - destruct (String.eqb k0 k) eqn:E; simpl.
    + apply String.eqb_eq in E. subst k0.
      destruct (String.eqb k k') eqn:E'; [|reflexivity].
      apply String.eqb_eq in E'. congruence.
    + now rewrite IH.
Qed.

(** *** The type that a column takes *)

Lemma int64_fits_float z :
  (int64_min <= z <= uint64_max)%Z -> too_large_for_float z = false.
Proof.
  intros H. unfold too_large_for_float. apply Z.leb_gt.
  assert (B : (2 ^ 64 < 2 ^ 1024 - 2 ^ 970)%Z) by (vm_compute; reflexivity).
  remember (2 ^ 1024 - 2 ^ 970)%Z as big.
  unfold int64_min, uint64_max in H. lia.
Qed.

(** Without an integer that is too large the pass never fails. *)
Lemma scan_objects_ok cells :
  forallb fits_float cells = true ->
  forall seen, exists r, scan_objects cells seen = Ok r.
Proof.
  induction cells as [|v cells IH]; intros H seen; simpl in *.
  - eauto.
  - apply andb_true_iff in H as (Hv & H).
    destruct v as [|b|z|f|s|l|d]; simpl in Hv; eauto.
    apply negb_true_iff in Hv. rewrite Hv.
    destruct (null_ seen); [eauto|].
    match goal with |- context [if ?c then _ else _] => destruct c end; eauto.
Qed.

Lemma maybe_convert_objects_ok cells :
  forallb fits_float cells = true ->
  exists cells', maybe_convert_objects cells = Ok cells'.
Proof.
  intros H. unfold maybe_convert_objects.
  destruct (scan_objects_ok cells H (mkSeen false false false false false false))
    as ([seen|] & ->); [|eauto].
  destruct (bool_ seen); [eauto|].
  destruct (float_ seen || (null_ seen && int_ seen)); eauto.
Qed.

(** The column has one cell per cell of the list. *)
Lemma maybe_convert_objects_length cells cells' :
  maybe_convert_objects cells = Ok cells' -> length cells' = length cells.
Proof.
  unfold maybe_convert_objects.
  destruct (scan_objects cells _) as [[seen|]|e]; [| |discriminate].
  - destruct (bool_ seen); [now intros [= <-]|].
    destruct (float_ seen || (null_ seen && int_ seen)); intros [= <-];
      [apply length_map | reflexivity].
  - now intros [= <-].
Qed.

(** The pass over 64-bit integers and missing cells. *)
Lemma scan_objects_ints cells :
  forallb int64_or_none cells = true ->
  forall seen,
    bool_ seen = false -> float_ seen = false -> uint_ seen = false ->
    exists seen',
      scan_objects cells seen = Ok (Some seen') /\
      bool_ seen' = false /\ float_ seen' = false /\
      null_ seen' = null_ seen || existsb is_none cells /\
      int_ seen' = int_ seen || existsb is_int64 cells.
Proof.
  induction cells as [|v cells IH]; intros H seen Hb Hf Hu; simpl in *.
  - exists seen. now rewrite !orb_false_r.
  - apply andb_true_iff in H as (Hv & H).
    destruct v as [|b|z|f|s|l|d]; try discriminate Hv.
    + destruct (IH H (mkSeen true (bool_ seen) (int_ seen) (float_ seen)
                        (sint_ seen) (uint_ seen)) Hb Hf Hu)
        as (seen' & -> & B & F & N & I).
      exists seen'. simpl in N, I. repeat split; auto.
      rewrite N. now rewrite orb_true_r.
    + unfold int64_or_none in Hv. simpl in Hv. rewrite orb_false_r in Hv.
      apply andb_true_iff in Hv as (Hlo & Hhi).
      apply Z.leb_le in Hlo, Hhi.
      rewrite int64_fits_float
        by (unfold int64_min, int64_max, uint64_max in *; lia).
      assert (Hr : is_int64 (VInt z) = true).
      { simpl. apply andb_true_iff. split; now apply Z.leb_le. }
      rewrite Hr. change (is_none (VInt z)) with false. cbn [orb].
      destruct (null_ seen) eqn:Hn.
      * destruct (IH H (mkSeen true (bool_ seen) true (float_ seen)
                          (sint_ seen) (uint_ seen)) Hb Hf Hu)
          as (seen' & -> & B & F & N & I).
        exists seen'. simpl in N, I. repeat split; auto.
        rewrite I. now rewrite orb_true_r.
      * rewrite Hu.
        replace (int64_max <? z)%Z with false by (symmetry; apply Z.ltb_ge; lia).
        replace (uint64_max <? z)%Z with false
          by (symmetry; apply Z.ltb_ge;
              unfold int64_max, uint64_max in *; lia).
        replace (z <? int64_min)%Z with false by (symmetry; apply Z.ltb_ge; lia).
        simpl.
        destruct (IH H (mkSeen false (bool_ seen) true (float_ seen)
                          (sint_ seen || ((int64_min <=? z) && (z <? 0))%Z)
                          false) Hb Hf eq_refl)
          as (seen' & -> & B & F & N & I).
        exists seen'. simpl in N, I. repeat split; auto.
        rewrite I. now rewrite orb_true_r.
Qed.

(** Integers alone stay as they are; integers and missing cells become
    floats. *)
Lemma maybe_convert_objects_ints cells :
  forallb int64_or_none cells = true ->
  maybe_convert_objects cells =
    Ok (if existsb is_none cells && existsb is_int64 cells
        then map as_float cells else cells).
Proof.
  intros H. unfold maybe_convert_objects.
  destruct (scan_objects_ints cells H
              (mkSeen false false false false false false) eq_refl eq_refl
              eq_refl)
    as (seen' & -> & B & F & N & I).
  simpl in N, I. rewrite B, F, N, I. simpl.
  now destruct (existsb is_none cells && existsb is_int64 cells).
Qed.

Lemma forallb_int64_weaken cells :
  forallb is_int64 cells = true ->
  forallb int64_or_none cells = true /\ existsb is_none cells = false.
Proof.
  induction cells as [|v cells IH]; simpl; [auto|].
  intros H. apply andb_true_iff in H as (Hv & H).
  destruct (IH H) as (-> & ->). unfold int64_or_none. rewrite Hv.
  now destruct v.
Qed.

Lemma maybe_convert_objects_int64 cells :
  forallb is_int64 cells = true -> maybe_convert_objects cells = Ok cells.
Proof.
  intros H. destruct (forallb_int64_weaken cells H) as (H1 & H2).
  now rewrite maybe_convert_objects_ints, H2.
Qed.

Lemma set_column_inv {L} (df df' : DataFrame L) name cells :
  set_column df name cells = Ok df' ->
  exists cells',
    maybe_convert_objects cells = Ok cells' /\
    index df' = index df /\
    column df' name = Ok cells' /\
    (forall name', name' <> name -> column df' name' = column df name').
Proof.
  unfold set_column. destruct (maybe_convert_objects cells) as [cells'|e];
    [|discriminate].
  intros [= <-]. exists cells'. repeat split.
  - unfold column. simpl. now rewrite dict_get_set_eq.
  - intros name' Hn. unfold column. simpl. now rewrite dict_get_set_ne.
Qed.

Lemma int64_cells_fit cells :
  forallb is_int64 cells = true -> forallb fits_float cells = true.
Proof.
  induction cells as [|v cells IH]; simpl; [auto|].
  intros H. apply andb_true_iff in H as (Hv & H). rewrite (IH H), andb_true_r.
  destruct v as [|b|z|f|s|l|d]; try reflexivity. simpl in *.
  apply andb_true_iff in Hv as (Hlo & Hhi). apply Z.leb_le in Hlo, Hhi.
  rewrite int64_fits_float; [reflexivity|].
  unfold int64_min, int64_max, uint64_max in *. lia.
Qed.

(** With identifiers in every response the loop returns, and what it has
    collected are those identifiers. *)
Lemma lookup_loop_ints self endpoint ids :
  answers_with_int "id" ->
  forall acc w,
    forallb is_int64 acc = true ->
    exists acc' w',
      for_each ids (lookup_body self endpoint) acc w = (Ok acc', w') /\
      forallb is_int64 acc' = true.
Proof.
  intros HR. induction ids as [|i ids IH]; intros acc w Hacc; simpl.
  - now exists acc, w.
  - unfold bind at 1, lookup_body at 1, bind at 1, issue_request.
    destruct (HR (log w)
                (mkRequest "GET" (endpoint +:+ "/" +:+ py_str i)
                   (api_headers self) None)) as (body & x & R & G & Hx).
    rewrite R. unfold bind, lift. rewrite G. simpl. apply IH.
    rewrite forallb_app, Hacc. simpl. now rewrite Hx.
Qed.

(** X8: what [get_figshare_id] does when it returns.  It hands back the
    table it was given; it has sent one GET per row, in row order, to
    [<institution base>/users/<id>] with the API headers; on that same table
    there is now a column [author_id] with one cell per row, made of the
    [id] fields of the responses in row order: the identifiers themselves
    when they all are 64-bit integers, and their floats, with NaN for a
    missing one, when integers and [None] are mixed; the row labels and
    every other column are as before; nothing is printed and no other table
    changes.  It does return whenever the client has the institution base,
    the table has an [id] column and every response carries an integer
    [id]. *)
Theorem get_figshare_id_success :
  forall self accounts_df w base df ids,
    main_baseurl_institute self = Some base ->
    frames w !! accounts_df = Some df ->
    column df "id" = Ok ids ->
    (forall r w',
        get_figshare_id self accounts_df w = (Ok r, w') ->
        exists new authors df' cells,
          r = accounts_df /\
          log w' = log w ++ new /\
          map ex_request new = map (user_request self base) ids /\
          Forall2 (carries "id") new authors /\
          length authors = length ids /\
          stdout w' = stdout w /\
          frames w' = <[accounts_df := df']> (frames w) /\
          index df' = index df /\
          column df' "author_id" = Ok cells /\
          length cells = length ids /\
          (forallb is_int64 authors = true -> cells = authors) /\
          (forallb int64_or_none authors = true ->
           existsb is_none authors = true ->
           existsb is_int64 authors = true ->
           cells = map as_float authors) /\
          (forall name, name <> "author_id" ->
                        column df' name = column df name)) /\
    (answers_with_int "id" ->
     exists w' cells,
       get_figshare_id self accounts_df w = (Ok accounts_df, w') /\
       (exists df', frames w' !! accounts_df = Some df' /\
                    column df' "author_id" = Ok cells) /\
       forallb is_int64 cells = true /\ length cells = length ids).
Proof.
  intros self accounts_df w base df ids Hb Hf Hc. split.
  - intros r w' H. rewrite (get_figshare_id_unfold _ _ _ _ _ _ Hb Hf Hc) in H.
    apply bind_inv_ok in H as (authors & w1 & H1 & H).
    apply lookup_loop_inv in H1 as (new & authors' & -> & -> & Rq & Cs).
    apply bind_inv_ok in H as (df' & w2 & H2 & H).
    unfold lift in H2. injection H2 as H2 <-.
    unfold bind, store, ret in H. simpl in H. injection H as <- <-.
    simpl in H2.
    apply set_column_inv in H2 as (cells & Hm & Hi & Hcol & Hother).
    assert (La : length authors' = length ids).
    { apply Forall2_length in Cs. rewrite <- Cs.
      rewrite <- (length_map ex_request new), Rq. apply length_map. }
    exists new, authors', df', cells.
    repeat split; try assumption.
    + apply maybe_convert_objects_length in Hm. congruence.
    + intros Hints. rewrite maybe_convert_objects_int64 in Hm by assumption.
      congruence.
    + intros Hmix Hn Hi64.
      rewrite maybe_convert_objects_ints, Hn, Hi64 in Hm by assumption.
      simpl in Hm. congruence.
  - intros HR. rewrite (get_figshare_id_unfold _ _ _ _ _ _ Hb Hf Hc).
    destruct (lookup_loop_ints self (join base ["users"]) ids HR [] w eq_refl)
      as (authors & w1 & Hl & Hints).
    pose proof Hl as Hl'.
    apply lookup_loop_inv in Hl' as (new & authors' & E & -> & Rq & Cs).
    simpl in E. subst authors'.
    unfold bind at 1. rewrite Hl.
    unfold bind at 1, lift at 1, set_column.
    rewrite (maybe_convert_objects_int64 authors Hints).
    unfold bind, store, ret. simpl.
    eexists. exists authors. split; [reflexivity|]. simpl. repeat split.
    + eexists. split.
      * apply list_lookup_insert_eq. now apply lookup_lt_Some in Hf.
      * unfold column. simpl. now rewrite dict_get_set_eq.
    + exact Hints.
    + apply Forall2_length in Cs. rewrite <- Cs.
      rewrite <- (length_map ex_request new), Rq. apply length_map.
Qed.

(** X9: where [get_figshare_id] stops early.  Without the institution base
    on the client it raises [AttributeError] before it looks at the table;
    on a table without an [id] column it raises [KeyError]; in both cases
    no request is issued and nothing changes.  In any run the requests are an
    initial segment of the per-row requests, in row order. *)
Theorem get_figshare_id_early_errors :
  forall self accounts_df w,
    (main_baseurl_institute self = None ->
     get_figshare_id self accounts_df w =
       (Raise (AttributeError "main_baseurl_institute"), w)) /\
    (forall base df,
        main_baseurl_institute self = Some base ->
        frames w !! accounts_df = Some df ->
        dict_get (columns df) "id" = None ->
        get_figshare_id self accounts_df w = (Raise (KeyError "id"), w)) /\
    (forall base df ids,
        main_baseurl_institute self = Some base ->
        frames w !! accounts_df = Some df ->
        column df "id" = Ok ids ->
        exists new,
          log (get_figshare_id self accounts_df w).2 = log w ++ new /\
          tracks (map (user_request self base) ids) new
            (get_figshare_id self accounts_df w).1).
Proof.
  intros self accounts_df w. split; [|split].
  - intros Hb. unfold get_figshare_id. now rewrite Hb.
  - intros base df Hb Hf Hc. unfold get_figshare_id. rewrite Hb.
    unfold bind at 1, lift at 1, getattr. unfold bind at 1, load.
    rewrite Hf. unfold bind at 1, lift at 1, column. now rewrite Hc.
  - intros base df ids Hb Hf Hc.
    rewrite (get_figshare_id_unfold _ _ _ _ _ _ Hb Hf Hc).
    rewrite <- (app_nil_r (map (user_request self base) ids)).
    apply tracks_bind; [apply tracks_lookup_loop|].
    intros authors. rewrite <- (app_nil_r []).
    apply tracks_bind; [|intros x]; now apply tracks_silent.
Qed.

(** ** The table of [retrieve_institution_users] *)

Lemma get_figshare_id_inv self accounts_df w r w' :
  get_figshare_id self accounts_df w = (Ok r, w') ->
  exists base df ids authors new df',
    main_baseurl_institute self = Some base /\
    frames w !! accounts_df = Some df /\
    column df "id" = Ok ids /\
    r = accounts_df /\
    set_column df "author_id" authors = Ok df' /\
    frames w' = <[accounts_df := df']> (frames w) /\
    stdout w' = stdout w /\
    log w' = log w ++ new /\
    map ex_request new = map (user_request self base) ids /\
    Forall2 (carries "id") new authors.
Proof.
  intros H.
  destruct (main_baseurl_institute self) as [base|] eqn:Hb;
    [|unfold get_figshare_id in H; rewrite Hb in H; discriminate H].
  destruct (frames w !! accounts_df) as [df|] eqn:Hf;
    [|unfold get_figshare_id in H; rewrite Hb in H;
      unfold bind at 1, lift at 1, getattr in H; unfold bind at 1, load in H;
      rewrite Hf in H; discriminate H].
  destruct (column df "id") as [ids|e] eqn:Hc;
    [|unfold get_figshare_id in H; rewrite Hb in H;
      unfold bind at 1, lift at 1, getattr in H; unfold bind at 1, load in H;
      rewrite Hf in H; unfold bind at 1, lift at 1 in H; rewrite Hc in H;
      discriminate H].
  rewrite (get_figshare_id_unfold _ _ _ _ _ _ Hb Hf Hc) in H.
  apply bind_inv_ok in H as (authors & w1 & H1 & H).
  apply lookup_loop_inv in H1 as (new & authors' & -> & -> & Rq & Cs).
  apply bind_inv_ok in H as (df' & w2 & H2 & H).
  unfold lift in H2. injection H2 as H2 <-.
  unfold bind, store, ret in H. simpl in H. injection H as <- <-.
  now exists base, df, ids, authors', new, df'.
Qed.

Lemma insert_at_end {A} (l : list A) (x y : A) :
  <[length l := y]> (l ++ [x]) = l ++ [y].
Proof. induction l as [|a l IH]; simpl; [reflexivity|]. now rewrite IH. Qed.

Lemma lookup_at_end {A} (l : list A) (x : A) : (l ++ [x]) !! length l = Some x.
Proof. induction l as [|a l IH]; simpl; [reflexivity|exact IH]. Qed.

Lemma dict_get_filter_out {V} (d : dict V) name :
  dict_get (List.filter (fun kv => negb (String.eqb (fst kv) name)) d) name = None.
Proof.
  induction d as [|[k v] d IH]; simpl; [reflexivity|].
  destruct (String.eqb k name) eqn:E; simpl; [exact IH|]. now rewrite E.
Qed.

Lemma dict_get_map_values {V W} (f : string * V -> W) (d : dict V) k :
  dict_get (map (fun kv => (fst kv, f kv)) d) k = None <-> dict_get d k = None.
Proof.
  induction d as [|[k0 v] d IH]; simpl; [tauto|].
  destruct (String.eqb k0 k); [split; discriminate | exact IH].
Qed.

Lemma drop_columns_gone {L} name (df df' : DataFrame L) :
  drop_columns name df = Ok df' -> dict_get (columns df') name = None.
Proof.
  unfold drop_columns. destruct (dict_get (columns df) name); [|discriminate].
  intros H. injection H as <-. apply dict_get_filter_out.
Qed.

Lemma drop_admin_and_test_keeps_names df df' name :
  drop_admin_and_test df = Ok df' ->
  dict_get (columns df) name = None -> dict_get (columns df') name = None.
Proof.
  unfold drop_admin_and_test.
  destruct (column df "email") as [emails|]; [|discriminate].
  destruct (forallb is_str emails); [|discriminate].
  intros H. injection H as <-. simpl. intros Hn.
  now apply (dict_get_map_values (fun kv => select _ (snd kv))).
Qed.

Lemma retrieve_institution_users_inv self ignore_admin w r w' :
  retrieve_institution_users self ignore_admin w = (Ok r, w') ->
  exists df1 df2 authors df3,
    dict_get (columns df1) "institution_id" = None /\
    (if ignore_admin then drop_admin_and_test df1 = Ok df2 else df2 = df1) /\
    r = length (frames w) /\
    set_column df2 "author_id" authors = Ok df3 /\
    frames w' = frames w ++ [df3] /\
    stdout w' =
      stdout w ++
      (if ignore_admin then ["Excluding administrative and test accounts"]
       else []).
Proof.
  intros H. unfold retrieve_institution_users in H.
  apply bind_inv_ok in H as (base & w0 & H0 & H).
  unfold lift in H0. injection H0 as _ <-.
  apply bind_inv_ok in H as (accounts & w1 & H1 & H).
  assert (W1 : stdout w1 = stdout w /\ frames w1 = frames w).
  { unfold issue_request in H1. destruct (respond _ _); [|discriminate].
    injection H1 as _ <-. now split. }
  destruct W1 as (S1 & F1).
  apply bind_inv_ok in H as (df0 & w2 & H2 & H).
  unfold lift in H2. injection H2 as H2 <-.
  apply bind_inv_ok in H as (df1 & w3 & H3 & H).
  unfold lift in H3. injection H3 as H3 <-.
  apply drop_columns_gone in H3.
  apply bind_inv_ok in H as (df2 & w4 & H4 & H).
  assert (W4 : (if ignore_admin then drop_admin_and_test df1 = Ok df2
                else df2 = df1) /\
               frames w4 = frames w /\
               stdout w4 = stdout w ++
                 (if ignore_admin
                  then ["Excluding administrative and test accounts"]
                  else [])).
  { destruct ignore_admin.
    - unfold bind, print, lift in H4. simpl in H4. injection H4 as H4 <-.
      simpl. now rewrite S1, F1.
    - unfold ret in H4. injection H4 as <- <-.
      now rewrite app_nil_r, S1, F1. }
  destruct W4 as (D4 & F4 & S4).
  apply bind_inv_ok in H as (r0 & w5 & H5 & H).
  unfold alloc in H5. injection H5 as <- <-.
  apply get_figshare_id_inv in H
    as (base' & df & ids & authors & new & df3 & _ & Hf & _ & -> & C & F & S & _).
  simpl in Hf, F, S. rewrite F4 in *.
  rewrite lookup_at_end in Hf. injection Hf as <-.
  rewrite insert_at_end in F.
  exists df1, df2, authors, df3. repeat split; try assumption. now rewrite S.
Qed.

(** X10: the table that [retrieve_institution_users] returns is a new one.
    When the call returns, its result is a table that did not exist before,
    added after the tables already there, none of which has changed; that
    table has no [institution_id] column and it has an [author_id] column.
    The line about excluded accounts is printed exactly when [ignore_admin]
    is set, and nothing else is. *)
Theorem retrieve_institution_users_new_table :
  forall self ignore_admin w r w',
    retrieve_institution_users self ignore_admin w = (Ok r, w') ->
    r = length (frames w) /\
    (exists accounts_df authors,
        frames w' = frames w ++ [accounts_df] /\
        dict_get (columns accounts_df) "institution_id" = None /\
        column accounts_df "author_id" = Ok authors) /\
    stdout w' =
      stdout w ++
      (if ignore_admin then ["Excluding administrative and test accounts"]
       else []).
Proof.
  intros self ignore_admin w r w' H.
  apply retrieve_institution_users_inv in H
    as (df1 & df2 & authors & df3 & N1 & D & -> & C & F & S).
  assert (N2 : dict_get (columns df2) "institution_id" = None).
  { destruct ignore_admin; [|now subst].
    now apply (drop_admin_and_test_keeps_names df1). }
  apply set_column_inv in C as (cells & _ & _ & Hcol & Hother).
  repeat split; [|exact S].
  exists df3, cells. repeat split.
  - exact F.
  - specialize (Hother "institution_id" ltac:(discriminate)).
    unfold column in Hother. rewrite N2 in Hother.
    destruct (dict_get (columns df3) "institution_id"); [discriminate|reflexivity].
  - exact Hcol.
Qed.

Lemma adds_after_preserves {A B} (m : M A) (k : A -> M B) :
  preserves frames m -> (forall a, adds_at_most_one_table (k a)) ->
  adds_at_most_one_table (bind m k).
Proof.
  intros Hm Hk w. unfold bind. specialize (Hm w).
  destruct (m w) as [[a|e] w1]; simpl in *.
  - rewrite <- Hm. apply Hk.
  - now left.
Qed.

Lemma adds_then_preserves {A B} (m : M A) (k : A -> M B) :
  adds_at_most_one_table m -> (forall a, preserves frames (k a)) ->
  adds_at_most_one_table (bind m k).
Proof.
  intros Hm Hk w. unfold bind. specialize (Hm w).
  destruct (m w) as [[a|e] w1]; simpl in *.
  - rewrite (Hk a w1). exact Hm.
  - exact Hm.
Qed.

Lemma preserves_adds {A} (m : M A) :
  preserves frames m -> adds_at_most_one_table m.
Proof. intros H w. left. apply H. Qed.

Lemma alloc_lookup_adds self df :
  adds_at_most_one_table (r <- alloc df ;; get_figshare_id self r).
Proof.
  intros w.
  set (w5 := mkWorld (log w) (stdout w) (frames w ++ [df])).
  change ((r <- alloc df ;; get_figshare_id self r) w) with
    (get_figshare_id self (length (frames w)) w5).
  destruct (get_figshare_id self (length (frames w)) w5) as [[r|e] w'] eqn:H.
  - apply get_figshare_id_inv in H
      as (base & df0 & ids & authors & new & df3 & _ & Hf & _ & _ & _ & F & _).
    simpl in Hf, F. rewrite lookup_at_end in Hf. injection Hf as <-.
    rewrite insert_at_end in F. right. eexists. exact F.
  - right. exists df.
    pose proof (get_figshare_id_raise_frames self (length (frames w)) w5 e) as G.
    rewrite H in G. exact (G eq_refl).
Qed.

Lemma retrieve_institution_users_adds self ignore_admin :
  adds_at_most_one_table (retrieve_institution_users self ignore_admin).
Proof.
  unfold retrieve_institution_users.
  apply adds_after_preserves; [now intros w|]. intros base.
  apply adds_after_preserves;
    [apply preserves_issue_request; now intros|]. intros accounts.
  apply adds_after_preserves; [now intros w|]. intros df0.
  apply adds_after_preserves; [now intros w|]. intros df1.
  apply adds_after_preserves.
  { destruct ignore_admin; [|now intros w].
    apply preserves_bind; [now intros w|]. now intros u w. }
  intros df2. apply alloc_lookup_adds.
Qed.

Lemma totals_loop_preserves {X} (proj : World -> X) self ids acc :
  (forall w new, proj (log_append w new) = proj w) ->
  preserves proj
    (for_each ids
       (fun author_id total_dict =>
          totals <- get_user_totals self author_id ;;
          ret (dict_set total_dict (py_str author_id) totals)) acc).
Proof.
  intros H. apply preserves_for_each. intros a s.
  apply preserves_bind; [now apply get_totals_preserves|]. now intros t w.
Qed.

(** X11: tables the caller already holds are never touched by
    [retrieve_institution_users] nor by [get_institution_totals] called
    without a table: in any run, failed or not, the tables that existed are
    still there unchanged, followed by at most one new table. *)
Theorem existing_tables_untouched :
  forall self ignore_admin by_method,
    adds_at_most_one_table (retrieve_institution_users self ignore_admin) /\
    adds_at_most_one_table (get_institution_totals self None by_method).
Proof.
  intros self ignore_admin by_method. split.
  - apply retrieve_institution_users_adds.
  - unfold get_institution_totals.
    apply adds_then_preserves.
    + apply adds_then_preserves.
      * destruct (String.eqb by_method "author").
        -- apply adds_then_preserves; [|now intros r w].
           apply retrieve_institution_users_adds.
        -- apply preserves_adds. now intros w.
      * intros df. apply preserves_bind; [|now intros u w].
        destruct (String.eqb by_method "article"); now intros w.
    + intros [r|].
      * apply preserves_bind.
        -- apply preserves_bind; [apply preserves_load|]. now intros f w.
        -- intros ids. apply preserves_bind; [|now intros d w].
           now apply totals_loop_preserves.
      * apply preserves_bind; [now intros w|]. intros ids.
        apply preserves_bind; [|now intros d w].
        now apply totals_loop_preserves.
Qed.

Lemma dict_get_filter_other {V} (d : dict V) name name' :
  name' <> name ->
  dict_get (List.filter (fun kv => negb (String.eqb (fst kv) name)) d) name' =
  dict_get d name'.
Proof.
  intros Hne. induction d as [|[k v] d IH]; simpl; [reflexivity|].
  destruct (String.eqb k name) eqn:E; simpl.
  - apply String.eqb_eq in E. subst k.
    destruct (String.eqb name name') eqn:E'; [|exact IH].
    apply String.eqb_eq in E'. congruence.
  - now rewrite IH.
Qed.

(** X12: a listing that cannot be turned into the accounts table stops
    [retrieve_institution_users] after its one request.  When the table built
    from the response has no [institution_id] column the call raises the
    [KeyError] of [DataFrame.drop], whose argument is the message
    ['institution_id'] not found in axis (with the brackets), and nothing is
    printed, even with [ignore_admin]; when it has that column but no
    [email] column and [ignore_admin] is set, the line is printed and
    [KeyError] is raised for the key [email].  In both cases no user is
    looked up and no table is created. *)
Theorem retrieve_institution_users_bad_listing :
  forall self ignore_admin w base accounts df,
    main_baseurl_institute self = Some base ->
    respond (log w) (accounts_request self base) = Body accounts ->
    pd_DataFrame accounts = Ok df ->
    let listed :=
      log_append w [mkExchange (accounts_request self base) (Body accounts)] in
    (dict_get (columns df) "institution_id" = None ->
     retrieve_institution_users self ignore_admin w =
       (Raise (KeyError "['institution_id'] not found in axis"), listed)) /\
    (dict_get (columns df) "institution_id" <> None ->
     dict_get (columns df) "email" = None ->
     retrieve_institution_users self true w =
       (Raise (KeyError "email"),
        mkWorld (log listed)
          (stdout w ++ ["Excluding administrative and test accounts"])
          (frames w))).
Proof.
  intros self ignore_admin w base accounts df Hb Hr Hp listed.
  split.
  - intros Hn. unfold retrieve_institution_users. rewrite Hb.
    unfold bind at 1, lift at 1, getattr. unfold bind at 1, issue_request.
    change (respond (log w) _) with (respond (log w) (accounts_request self base)).
    rewrite Hr. unfold bind at 1, lift at 1. rewrite Hp.
    unfold bind at 1, lift at 1, drop_columns. rewrite Hn. reflexivity.
  - intros Hi He. unfold retrieve_institution_users. rewrite Hb.
    unfold bind at 1, lift at 1, getattr. unfold bind at 1, issue_request.
    change (respond (log w) _) with (respond (log w) (accounts_request self base)).
    rewrite Hr. unfold bind at 1, lift at 1. rewrite Hp.
    unfold bind at 1, lift at 1, drop_columns.
    destruct (dict_get (columns df) "institution_id"); [|contradiction].
    unfold bind at 1. unfold bind at 1, print. unfold lift at 1.
    unfold drop_admin_and_test, column. simpl columns.
    rewrite dict_get_filter_other by discriminate. rewrite He. reflexivity.
Qed.

(** ** Dropping the administrative and test accounts *)

Lemma select_subset {A} (mask : list bool) (l : list A) x :
  In x (select mask l) -> In x l.
Proof.
  revert mask. induction l as [|a l IH]; intros [|b mask]; simpl; try tauto.
  destruct b; simpl; intros H; [destruct H as [H|H]|]; eauto.
Qed.

Lemma existsb_not_in (l : list Z) a :
  ~ In a l -> existsb (Z.eqb a) l = false.
Proof.
  intros H. destruct (existsb (Z.eqb a) l) eqn:E; [|reflexivity].
  apply existsb_exists in E as (x & Hx & Heq).
  apply Z.eqb_eq in Heq. now subst.
Qed.

Lemma existsb_select_nodup (idx : list Z) :
  List.NoDup idx ->
  forall mask, length mask = length idx ->
  map (fun l => existsb (Z.eqb l) (select mask idx)) idx = mask.
Proof.
  induction 1 as [|a idx Ha Hnd IH]; intros [|b mask] Hlen;
    try discriminate; [reflexivity|].
  simpl in Hlen. injection Hlen as Hlen. simpl. f_equal.
  - destruct b; simpl.
    + now rewrite Z.eqb_refl.
    + apply existsb_not_in. intros Hin. now apply select_subset in Hin.
  - transitivity (map (fun l => existsb (Z.eqb l) (select mask idx)) idx);
      [|now apply IH].
    apply map_ext_in. intros l Hl.
    destruct b; simpl; [|reflexivity].
    destruct (Z.eqb l a) eqn:E; [|reflexivity].
    apply Z.eqb_eq in E. now subst.
Qed.

Lemma keep_mask (idx : list Z) (emails : list value) :
  List.NoDup idx -> length emails = length idx ->
  map (fun l =>
         negb (existsb (Z.eqb l)
                 (select (map is_admin_email emails) idx ++
                  select (map is_test_email emails) idx))) idx =
  map kept_account emails.
Proof.
  intros Hnd Hlen.
  pose proof (existsb_select_nodup idx Hnd (map is_admin_email emails)) as H1.
  pose proof (existsb_select_nodup idx Hnd (map is_test_email emails)) as H2.
  rewrite length_map in H1, H2. specialize (H1 Hlen). specialize (H2 Hlen).
  revert H1 H2.
  generalize (select (map is_admin_email emails) idx).
  generalize (select (map is_test_email emails) idx).
  intros s2 s1. clear Hnd. revert emails Hlen.
  induction idx as [|a idx IH]; intros [|v emails] Hlen; try discriminate;
    [reflexivity|].
  simpl. intros H1 H2. injection H1 as A1 H1. injection H2 as A2 H2.
  injection Hlen as Hlen. f_equal.
  - unfold kept_account. now rewrite existsb_app, A1, A2.
  - now apply IH.
Qed.

Lemma select_map_filter {A} (p : A -> bool) (l : list A) :
  select (map p l) l = List.filter p l.
Proof.
  induction l as [|a l IH]; simpl; [reflexivity|]. rewrite IH.
  now destruct (p a).
Qed.

Lemma dict_get_map_snd {V W} (h : V -> W) (d : dict V) k :
  dict_get (map (fun kv => (fst kv, h (snd kv))) d) k =
  option_map h (dict_get d k).
Proof.
  induction d as [|[k0 v] d IH]; simpl; [reflexivity|].
  now destruct (String.eqb k0 k).
Qed.

(** X13: what [ignore_admin] removes.  On a table whose row labels are
    distinct and whose [email] cells are strings, one per row, the rows that
    stay are exactly those whose email is neither the administrative address
    nor a match of the test pattern: every column keeps the cells of those
    rows, in order, the [email] column holds the emails that passed, and the
    rows are relabelled [0 .. k-1]. *)
Theorem drop_admin_and_test_keeps :
  forall df emails,
    column df "email" = Ok emails ->
    forallb is_str emails = true ->
    List.NoDup (index df) ->
    length emails = length (index df) ->
    exists df',
      drop_admin_and_test df = Ok df' /\
      index df' = RangeIndex (length (List.filter kept_account emails)) /\
      column df' "email" = Ok (List.filter kept_account emails) /\
      (forall name cells,
          column df name = Ok cells ->
          column df' name = Ok (select (map kept_account emails) cells)).
Proof.
  intros df emails Hc Hs Hnd Hlen.
  unfold drop_admin_and_test. rewrite Hc, Hs.
  change (fun v : value =>
            match v with
            | VStr s => String.eqb s admin_address
            | _ => false
            end) with is_admin_email.
  change (fun v : value =>
            match v with
            | VStr s => re_search test_account_pattern s
            | _ => false
            end) with is_test_email.
  rewrite (keep_mask _ _ Hnd Hlen).
  eexists. split; [reflexivity|].
  assert (C : forall name cells,
             column df name = Ok cells ->
             column
               (mkDataFrame
                  (RangeIndex
                     (length (select (map kept_account emails) (index df))))
                  (map (fun kv => (fst kv,
                                   select (map kept_account emails) (snd kv)))
                       (columns df)))
               name = Ok (select (map kept_account emails) cells)).
  { intros name cells H. unfold column in *. simpl.
    rewrite (dict_get_map_snd (select (map kept_account emails))).
    destruct (dict_get (columns df) name); [|discriminate].
    injection H as <-. reflexivity. }
  repeat split.
  - simpl. f_equal. rewrite <- select_map_filter.
    clear - Hlen. revert emails Hlen.
    induction (index df) as [|a idx IH]; intros [|v emails] Hlen;
      try discriminate; [reflexivity|].
    injection Hlen as Hlen. simpl.
    destruct (kept_account v); simpl; now rewrite (IH emails Hlen).
  - rewrite <- select_map_filter. now apply C.
  - exact C.
Qed.

Lemma append_cons (c : ascii) (s r : string) :
  String c s +:+ r = String c (s +:+ r).
Proof. reflexivity. Qed.

Lemma append_empty (r : string) : "" +:+ r = r.
Proof. reflexivity. Qed.

Lemma re_search_here p s : match_here p s = true -> re_search p s = true.
Proof. intros H. destruct s; simpl; now rewrite H. Qed.

Lemma re_search_skip p pre s :
  re_search p s = true -> re_search p (pre +:+ s) = true.
Proof.
  intros H. induction pre as [|c pre IH]; [exact H|].
  rewrite append_cons. simpl. rewrite IH. apply orb_true_r.
Qed.

(** X14: the test pattern is a regular expression, searched anywhere in the
    email.  An email is taken for a test account as soon as it contains
    [-test@email], any character but a newline, [arizona], any character but
    a newline, and [edu]: the two dots of the pattern are not literal, and
    what comes before or after does not matter. *)
Theorem test_pattern_dots_match_any :
  forall (before after : string) (c1 c2 : ascii),
    c1 <> "010"%char -> c2 <> "010"%char ->
    is_test_email
      (VStr (before +:+ "-test@email" +:+ String c1 ("arizona" +:+
               String c2 ("edu" +:+ after)))) = true.
Proof.
  intros before after c1 c2 H1 H2. unfold is_test_email.
  apply re_search_skip, re_search_here.
  apply Ascii.eqb_neq in H1, H2.
  let p := eval vm_compute in test_account_pattern in
  change test_account_pattern with p.
  rewrite !append_cons, !append_empty. simpl. now rewrite H1, H2.
Qed.

(** ** More about [get_institution_totals] *)

(** X15: calling [get_institution_totals] without a table and by author is
    the same as listing the accounts with [retrieve_institution_users],
    administrative and test accounts included, and calling it on the table
    that comes back: same outcome, same requests, same prints, same tables. *)
Theorem get_institution_totals_lists_then_totals :
  forall self by_method w,
    get_institution_totals self None "author" w =
    (r <- retrieve_institution_users self false ;;
     get_institution_totals self (Some r) by_method) w.
Proof.
  intros self by_method w. unfold get_institution_totals.
  change (String.eqb "author" "author") with true.
  change (String.eqb "author" "article") with false.
  cbv iota. unfold bind, ret.
  destruct (retrieve_institution_users self false w) as [[r|e] w1];
    reflexivity.
Qed.

(** X16: where [get_institution_totals] stops before any request.  Without
    a table and with a [by_method] that is neither [author] nor [article] it
    raises [AttributeError] and prints nothing; with a table that has no
    [author_id] column it raises [KeyError] for that column.  The world is
    left as it was in both cases. *)
Theorem get_institution_totals_early_errors :
  forall self by_method w,
    (by_method <> "author" -> by_method <> "article" ->
     get_institution_totals self None by_method w =
       (Raise (AttributeError "loc"), w)) /\
    (forall r df,
        frames w !! r = Some df ->
        dict_get (columns df) "author_id" = None ->
        get_institution_totals self (Some r) by_method w =
          (Raise (KeyError "author_id"), w)).
Proof.
  intros self by_method w. split.
  - intros H1 H2. unfold get_institution_totals.
    apply String.eqb_neq in H1, H2. now rewrite H1, H2.
  - intros r df Hf Hc. unfold get_institution_totals, bind, ret, load, lift.
    cbv beta iota. rewrite Hf. cbv beta iota.
    unfold loc_slice, column. now rewrite Hc.
Qed.

(** ** The label slice on a sorted index *)

Lemma sorted_tail a idx :
  is_monotonic_increasing (a :: idx) = true ->
  is_monotonic_increasing idx = true /\ Forall (fun b => (a <= b)%Z) idx.
Proof.
  revert a. induction idx as [|b idx IH]; intros a H.
  - split; [reflexivity|constructor].
  - simpl in H. apply andb_true_iff in H as (Hab & H).
    apply Z.leb_le in Hab. split; [exact H|].
    destruct (IH b H) as (_ & Hb). constructor; [exact Hab|].
    eapply List.Forall_impl; [|exact Hb]. intros c Hc. simpl in Hc. lia.
Qed.

Lemma count_if_cons p a l :
  count_if p (a :: l) = (if p a then 1 else 0) + count_if p l.
Proof. unfold count_if. simpl. now destruct (p a). Qed.

Lemma count_if_all p l :
  Forall (fun a => p a = true) l -> count_if p l = length l.
Proof.
  induction 1 as [|a l Ha _ IH]; [reflexivity|].
  rewrite count_if_cons, Ha, IH. reflexivity.
Qed.

Lemma count_if_le p l : count_if p l <= length l.
Proof.
  induction l as [|a l IH]; [reflexivity|].
  rewrite count_if_cons. simpl. destruct (p a); lia.
Qed.

Lemma count_eq_lt_le (l : Z) idx :
  count_if (fun a => (a <=? l)%Z) idx =
  count_if (fun a => (a <? l)%Z) idx + count_if (Z.eqb l) idx.
Proof.
  induction idx as [|a idx IH]; [reflexivity|].
  rewrite !count_if_cons, IH.
  destruct (Z.leb_spec a l), (Z.ltb_spec a l), (Z.eqb_spec l a); lia.
Qed.

Lemma count_total (l : Z) idx :
  count_if (fun a => (a <=? l)%Z) idx + count_if (fun a => (l <? a)%Z) idx =
  length idx.
Proof.
  induction idx as [|a idx IH]; [reflexivity|].
  rewrite !count_if_cons. simpl.
  destruct (Z.leb_spec a l), (Z.ltb_spec l a); lia.
Qed.

Lemma count_eq_pos (l : Z) idx :
  existsb (Z.eqb l) idx = true -> 1 <= count_if (Z.eqb l) idx.
Proof.
  induction idx as [|a idx IH]; simpl; [discriminate|].
  rewrite count_if_cons. destruct (Z.eqb l a); simpl; [lia|].
  intros H. apply IH in H. lia.
Qed.

Lemma first_pos_sorted (l : Z) idx :
  is_monotonic_increasing idx = true ->
  existsb (Z.eqb l) idx = true ->
  first_pos (Z.eqb l) idx = count_if (fun a => (a <? l)%Z) idx.
Proof.
  induction idx as [|a idx IH]; intros Hs He; [discriminate|].
  destruct (sorted_tail a idx Hs) as (Hs' & Hge).
  rewrite count_if_cons. simpl in *.
  destruct (Z.eqb_spec l a) as [->|Hne]; simpl.
  - rewrite count_if_none.
    + now rewrite Z.ltb_irrefl.
    + eapply List.Forall_impl; [|exact Hge]. intros b Hb. simpl in Hb.
      apply Z.ltb_ge. exact Hb.
  - rewrite (IH Hs' He).
    apply existsb_exists in He as (x & Hx & Heq). apply Z.eqb_eq in Heq.
    subst x. rewrite List.Forall_forall in Hge. apply Hge in Hx.
    destruct (Z.ltb_spec a l); [reflexivity|lia].
Qed.

Lemma first_pos_rev_sorted (l : Z) idx :
  is_monotonic_increasing idx = true ->
  existsb (Z.eqb l) idx = true ->
  first_pos (Z.eqb l) (rev idx) = count_if (fun a => (l <? a)%Z) idx.
Proof.
  induction idx as [|a idx IH]; intros Hs He; [discriminate|].
  destruct (sorted_tail a idx Hs) as (Hs' & Hge).
  rewrite count_if_cons. simpl rev.
  destruct (existsb (Z.eqb l) idx) eqn:Et.
  - rewrite first_pos_app_found by (now rewrite existsb_rev_eq).
    rewrite (IH Hs' eq_refl).
    apply existsb_exists in Et as (x & Hx & Heq). apply Z.eqb_eq in Heq.
    subst x. rewrite List.Forall_forall in Hge. apply Hge in Hx.
    destruct (Z.ltb_spec l a); [lia|reflexivity].
  - simpl in He. rewrite Et, orb_false_r in He. apply Z.eqb_eq in He. subst a.
    assert (Hnone : Forall (fun b => Z.eqb l b = false) idx).
    { apply List.Forall_forall. intros b Hb.
      destruct (Z.eqb l b) eqn:E; [|reflexivity].
      assert (existsb (Z.eqb l) idx = true)
        by (apply existsb_exists; now exists b).
      congruence. }
    rewrite first_pos_app_none.
    + simpl. rewrite Z.eqb_refl, Z.ltb_irrefl, length_rev.
      rewrite count_if_all; [lia|].
      apply List.Forall_forall. intros b Hb.
      rewrite List.Forall_forall in Hge, Hnone.
      specialize (Hge b Hb). specialize (Hnone b Hb).
      apply Z.eqb_neq in Hnone. apply Z.ltb_lt. lia.
    + apply List.Forall_forall. intros b Hb. apply in_rev in Hb.
      rewrite List.Forall_forall in Hnone. now apply Hnone.
Qed.

(** On a sorted index the slice starts after the labels below the start and
    ends after the labels up to the stop. *)
Lemma get_slice_bound_sorted idx (l : Z) :
  is_monotonic_increasing idx = true ->
  get_slice_bound idx l Left = Ok (count_if (fun a => (a <? l)%Z) idx) /\
  get_slice_bound idx l Right = Ok (count_if (fun a => (a <=? l)%Z) idx).
Proof.
  intros Hs. unfold get_slice_bound, last_pos. rewrite Hs.
  pose proof (count_eq_lt_le l idx) as Hle.
  pose proof (count_total l idx) as Htot.
  destruct (existsb (Z.eqb l) idx) eqn:He.
  - rewrite (first_pos_sorted l idx Hs He), (first_pos_rev_sorted l idx Hs He).
    pose proof (count_eq_pos l idx He) as Hpos.
    replace (Nat.eqb
               (S (length idx - 1 - count_if (fun a => (l <? a)%Z) idx) -
                count_if (fun a => (a <? l)%Z) idx)
               (count_if (Z.eqb l) idx))
      with true by (symmetry; apply Nat.eqb_eq; lia).
    split; [reflexivity|]. f_equal. lia.
  - split; [reflexivity|]. f_equal.
    rewrite Hle, (count_if_none (Z.eqb l)); [lia|].
    apply List.Forall_forall. intros b Hb.
    destruct (Z.eqb l b) eqn:E; [|reflexivity].
    assert (existsb (Z.eqb l) idx = true)
      by (apply existsb_exists; now exists b).
    congruence.
Qed.

Lemma select_all_false {A} (mask : list bool) (cells : list A) :
  Forall (fun b => b = false) mask -> select mask cells = [].
Proof.
  intros H. revert cells. induction H as [|b mask Hb _ IH]; intros [|c cells];
    try reflexivity.
  simpl. rewrite Hb. apply IH.
Qed.

Lemma py_slice_sorted idx {A} (cells : list A) :
  is_monotonic_increasing idx = true ->
  length cells = length idx ->
  py_slice (count_if (fun a => (a <? 0)%Z) idx)
           (count_if (fun a => (a <=? 5)%Z) idx) cells =
  select (map in_slice idx) cells.
Proof.
  revert cells. induction idx as [|a idx IH]; intros [|c cells] Hs Hlen;
    try discriminate; [reflexivity|].
  destruct (sorted_tail a idx Hs) as (Hs' & Hge).
  injection Hlen as Hlen. specialize (IH cells Hs' Hlen).
  rewrite !count_if_cons. unfold py_slice in *. simpl map. unfold in_slice at 1.
  destruct (Z.ltb_spec a 0).
  - replace (a <=? 5)%Z with true by (symmetry; apply Z.leb_le; lia).
    replace (0 <=? a)%Z with false by (symmetry; apply Z.leb_gt; lia).
    simpl. exact IH.
  - assert (Z0 : count_if (fun b => (b <? 0)%Z) idx = 0).
    { apply count_if_none. eapply List.Forall_impl; [|exact Hge].
      intros b Hb. simpl in Hb. apply Z.ltb_ge. lia. }
    rewrite Z0 in *. replace (0 <=? a)%Z with true
      by (symmetry; apply Z.leb_le; lia).
    destruct (Z.leb_spec a 5); simpl.
    + f_equal. rewrite Nat.sub_0_r in IH. exact IH.
    + rewrite count_if_none.
      * simpl. symmetry. apply select_all_false.
        apply Forall_map. apply List.Forall_forall. intros b Hb.
        rewrite List.Forall_forall in Hge. specialize (Hge b Hb).
        unfold in_slice. replace (b <=? 5)%Z with false
          by (symmetry; apply Z.leb_gt; lia).
        apply andb_false_r.
      * eapply List.Forall_impl; [|exact Hge].
        intros b Hb. simpl in Hb. apply Z.leb_gt. lia.
Qed.

Lemma loc_slice_sorted df name cells :
  is_monotonic_increasing (index df) = true ->
  column df name = Ok cells ->
  length cells = length (index df) ->
  loc_slice 0 5 name df = Ok (select (map in_slice (index df)) cells).
Proof.
  intros Hs Hc Hlen. unfold loc_slice. rewrite Hc.
  destruct (get_slice_bound_sorted (index df) 0 Hs) as (-> & _).
  destruct (get_slice_bound_sorted (index df) 5 Hs) as (_ & ->).
  now rewrite py_slice_sorted.
Qed.

(** *** When the totals table can be built *)

Lemma dict_set_forallb {V} (P : V -> bool) (d : dict V) k v :
  forallb (fun c => P (snd c)) d = true -> P v = true ->
  forallb (fun c => P (snd c)) (dict_set d k v) = true.
Proof.
  intros Hd Hv. induction d as [|[k0 v0] d IH]; simpl in *.
  - now rewrite Hv.
  - apply andb_true_iff in Hd as (H0 & Hd).
    destruct (String.eqb k0 k); simpl.
    + now rewrite Hv, Hd.
    + now rewrite H0, IH.
Qed.

Lemma dict_set_Forall {V} (P : V -> Prop) (d : dict V) k v :
  Forall (fun c => P (snd c)) d -> P v ->
  Forall (fun c => P (snd c)) (dict_set d k v).
Proof.
  intros Hd Hv. induction Hd as [|[k0 v0] d H0 Hd IH]; simpl.
  - now repeat constructor.
  - destruct (String.eqb k0 k); constructor; assumption.
Qed.

Lemma counter_loop_ints url_of headers field cs :
  (forall c, In c cs -> exists u, url_of c = Ok u) ->
  answers_with_int field ->
  forall acc w,
    forallb (fun c => is_int64 (snd c)) acc = true ->
    exists d w',
      for_each cs (counter_body url_of headers field) acc w = (Ok d, w') /\
      forallb (fun c => is_int64 (snd c)) d = true.
Proof.
  intros HU HR. induction cs as [|c cs IH]; intros acc w Hacc; simpl.
  - now exists acc, w.
  - destruct (HU c) as (u & U); [now left|].
    destruct (HR (log w) (get_request u headers)) as (body & x & R & G & Hx).
    erewrite bind_ok by (eapply counter_body_ok; eauto).
    apply IH.
    + intros c' Hc'. apply HU. now right.
    + now apply dict_set_forallb.
Qed.

Lemma get_user_totals_ints self author_id w :
  answers_with_int "totals" ->
  exists d w',
    get_user_totals self author_id w = (Ok d, w') /\
    forallb (fun c => is_int64 (snd c)) d = true.
Proof.
  intros HR. unfold get_user_totals.
  rewrite get_totals_supported by (right; left; reflexivity).
  apply counter_loop_ints; [|exact HR|reflexivity].
  intros c _. eexists. reflexivity.
Qed.

Lemma totals_loop_ints self ids :
  answers_with_int "totals" ->
  forall acc w,
    rows_of_ints acc ->
    exists d w',
      for_each ids (totals_body self) acc w = (Ok d, w') /\ rows_of_ints d.
Proof.
  intros HR. induction ids as [|a ids IH]; intros acc w Hacc; simpl.
  - now exists acc, w.
  - destruct (get_user_totals_ints self a w HR) as (t & w1 & Ht & Hi).
    unfold bind at 1, totals_body at 1, bind at 1. rewrite Ht.
    unfold ret at 1. apply IH.
    now apply (dict_set_Forall
                 (fun r => forallb (fun c => is_int64 (snd c)) r = true)).
Qed.

Lemma all_ok_map {A B} (f : A -> outcome B) (l : list A) :
  (forall x, In x l -> exists y, f x = Ok y) ->
  exists r, all_ok (map f l) = Ok r.
Proof.
  induction l as [|x l IH]; intros H; simpl.
  - eauto.
  - destruct (H x) as (y & ->); [now left|].
    destruct IH as (r & ->); [intros x' Hx'; apply H; now right|]. eauto.
Qed.

Lemma all_ok_inv {A B} (f : A -> outcome B) (l : list A) r :
  all_ok (map f l) = Ok r -> Forall2 (fun x y => f x = Ok y) l r.
Proof.
  revert r. induction l as [|x l IH]; intros r; simpl.
  - intros [= <-]. constructor.
  - destruct (f x) as [y|e] eqn:E; [|discriminate].
    destruct (all_ok (map f l)) as [r'|e]; [|discriminate].
    intros [= <-]. constructor; [exact E | now apply IH].
Qed.

Lemma is_int64_fits v : is_int64 v = true -> fits_float v = true.
Proof.
  intros H. pose proof (int64_cells_fit [v]) as F. simpl in F.
  rewrite H in F. specialize (F eq_refl). now rewrite andb_true_r in F.
Qed.

Lemma dict_get_forallb {V} (P : V -> bool) (d : dict V) k v :
  forallb (fun c => P (snd c)) d = true -> dict_get d k = Some v -> P v = true.
Proof.
  induction d as [|[k0 v0] d IH]; simpl; [discriminate|].
  intros H. apply andb_true_iff in H as (H0 & H).
  destruct (String.eqb k0 k); [now intros [= <-] | now apply IH].
Qed.

Lemma from_dict_index_ok d :
  rows_of_ints d -> exists t, from_dict_index d = Ok t.
Proof.
  intros Hd. unfold from_dict_index.
  match goal with |- context [all_ok (map ?f ?l)] =>
    destruct (all_ok_map f l) as (cols & ->); [|eauto]
  end.
  intros c _.
  match goal with |- context [maybe_convert_objects ?cells] =>
    destruct (maybe_convert_objects_ok cells) as (cells' & ->); [|eauto]
  end.
  apply forallb_forall. intros v Hv. apply in_map_iff in Hv as (r & <- & Hr).
  apply in_map_iff in Hr as ([k r'] & <- & Hr). simpl.
  unfold rows_of_ints in Hd. rewrite List.Forall_forall in Hd.
  specialize (Hd _ Hr). simpl in Hd.
  destruct (dict_get r' c) as [v|] eqn:G; [|reflexivity].
  apply is_int64_fits.
  exact (dict_get_forallb is_int64 r' c v Hd G).
Qed.

Lemma from_dict_index_index d t :
  from_dict_index d = Ok t -> index t = dict_keys d.
Proof.
  unfold from_dict_index. destruct (all_ok _) as [cols|e]; [|discriminate].
  now intros [= <-].
Qed.

(** The rows that the slice selects are the rows that are asked for. *)
Lemma get_institution_totals_queries self r by_method w df queried :
  frames w !! r = Some df ->
  loc_slice 0 5 "author_id" df = Ok queried ->
  let run := get_institution_totals self (Some r) by_method w in
  exists new,
    log run.2 = log w ++ new /\
    tracks (flat_map (user_totals_requests self) queried) new run.1 /\
    (forall total_df,
        run.1 = Ok total_df ->
        forall key,
          In key (index total_df) <->
          exists author_id, In author_id queried /\ key = py_str author_id) /\
    (answers_with_int "totals" -> exists total_df, run.1 = Ok total_df).
Proof.
  intros Hf Hs run. subst run.
  rewrite (get_institution_totals_supplied self r by_method w df queried Hf Hs).
  destruct (tracks_totals_loop self queried [] w) as (new & L & Hp & Hok).
  exists new. unfold bind.
  destruct (for_each queried (totals_body self) [] w) as [[d|e] w1] eqn:E;
    simpl in *.
  - unfold lift. simpl. split; [exact L|]. split; [|split].
    + split; [exact Hp|]. intros t _. now apply (Hok d).
    + intros total_df H. apply from_dict_index_index in H. rewrite H.
      intros key.
      rewrite (totals_loop_keys self queried [] w d w1 E key). simpl. tauto.
    + intros HR.
      destruct (totals_loop_ints self queried HR [] w) as (d' & w' & E' & Hd);
        [constructor|].
      rewrite E in E'. injection E' as <- _.
      now apply from_dict_index_ok.
  - split; [exact L|]. split; [|split].
    + split; [exact Hp|]. discriminate.
    + discriminate.
    + intros HR.
      destruct (totals_loop_ints self queried HR [] w) as (d' & w' & E' & Hd);
        [constructor|].
      rewrite E in E'. discriminate E'.
Qed.

(** C2 (as the code has it): for a table of at least six rows that carries
    the default index [0 .. n-1], [get_institution_totals] asks totals for the
    first six rows only, whatever the size of the table: the requests issued
    are an initial segment of the totals requests of the first six author
    ids, in row order, and all of them when the call returns; the table
    returned is then keyed by the string forms of those six author ids.
    The call does return a table whenever every response carries an integer
    [totals] field, and with one author id per row the rows asked for are
    six and the requests eighteen. *)
Theorem get_institution_totals_first_six :
  forall self r by_method w df n author_ids,
    frames w !! r = Some df ->
    index df = RangeIndex n ->
    6 <= n ->
    column df "author_id" = Ok author_ids ->
    let first_six := firstn 6 author_ids in
    let run := get_institution_totals self (Some r) by_method w in
    (exists new,
      log run.2 = log w ++ new /\
      map ex_request new `prefix_of`
        flat_map (user_totals_requests self) first_six /\
      (forall total_df,
          run.1 = Ok total_df ->
          map ex_request new = flat_map (user_totals_requests self) first_six /\
          (forall key,
              In key (index total_df) <->
              exists author_id, In author_id first_six /\ key = py_str author_id))) /\
    (answers_with_int "totals" ->
     exists total_df new,
       run.1 = Ok total_df /\
       log run.2 = log w ++ new /\
       map ex_request new = flat_map (user_totals_requests self) first_six) /\
    (length author_ids = n ->
     length first_six = 6 /\
     length (flat_map (user_totals_requests self) first_six) = 18).
Proof.
  intros self r by_method w df n author_ids Hf Hi Hn Hc first_six run.
  assert (Hs : loc_slice 0 5 "author_id" df = Ok first_six)
    by (eapply loc_slice_range; eauto).
  destruct (get_institution_totals_queries self r by_method w df first_six
              Hf Hs) as (new & L & (Hp & Hall) & Hk & Hlive).
  fold run in L, Hp, Hall, Hk, Hlive.
  split; [|split].
  - exists new. split; [exact L|]. split; [exact Hp|].
    intros total_df H. split; [now apply (Hall total_df) | now apply Hk].
  - intros HR. destruct (Hlive HR) as (total_df & H).
    exists total_df, new. split; [exact H|]. split; [exact L|].
    now apply (Hall total_df).
  - intros Hlen.
    assert (L6 : length first_six = 6).
    { subst first_six. rewrite length_firstn. lia. }
    split; [exact L6|].
    rewrite flat_map_concat_map, length_concat, map_map.
    unfold user_totals_requests. simpl.
    clear -L6. induction first_six as [|a l IH] in L6 |- *; simpl in *; [lia|].
    destruct l as [|b [|c [|d [|e [|f [|g l]]]]]]; simpl in *; lia.
Qed.

(** X17: which rows [get_institution_totals] asks totals for, on any table
    whose row labels are sorted in increasing order (repeats allowed) and
    whose [author_id] column has one cell per row: exactly the rows whose
    label lies between 0 and 5, both included, in row order.  The requests
    are an initial segment of the totals requests of those rows, all of them
    when the call returns, and the table returned is keyed by the string
    forms of their author ids. *)
Theorem get_institution_totals_label_slice :
  forall self r by_method w df author_ids,
    frames w !! r = Some df ->
    is_monotonic_increasing (index df) = true ->
    column df "author_id" = Ok author_ids ->
    length author_ids = length (index df) ->
    let queried := select (map in_slice (index df)) author_ids in
    let run := get_institution_totals self (Some r) by_method w in
    exists new,
      log run.2 = log w ++ new /\
      tracks (flat_map (user_totals_requests self) queried) new run.1 /\
      (forall total_df,
          run.1 = Ok total_df ->
          forall key,
            In key (index total_df) <->
            exists author_id, In author_id queried /\ key = py_str author_id).
Proof.
  intros self r by_method w df author_ids Hf Hs Hc Hlen queried run.
  destruct (get_institution_totals_queries self r by_method w df queried Hf)
    as (new & L & T & K & _); [now apply loc_slice_sorted|].
  exists new. split; [exact L|]. split; [exact T | exact K].
Qed.

Lemma seq_sorted a n : is_monotonic_increasing (map Z.of_nat (seq a n)) = true.
Proof.
  revert a. induction n as [|n IH]; intros a; [reflexivity|].
  simpl seq. simpl map. destruct n as [|n]; [reflexivity|].
  specialize (IH (S a)). simpl seq in *. simpl map in *.
  change (is_monotonic_increasing
            (Z.of_nat a :: Z.of_nat (S a) :: map Z.of_nat (seq (S (S a)) n)))
    with ((Z.of_nat a <=? Z.of_nat (S a))%Z &&
          is_monotonic_increasing
            (Z.of_nat (S a) :: map Z.of_nat (seq (S (S a)) n))).
  rewrite IH, andb_true_r. apply Z.leb_le. lia.
Qed.

Lemma select_all_true {A} (mask : list bool) (cells : list A) :
  Forall (fun b => b = true) mask -> length cells = length mask ->
  select mask cells = cells.
Proof.
  intros H. revert cells. induction H as [|b mask Hb _ IH]; intros [|c cells] Hl;
    try discriminate; [reflexivity|].
  injection Hl as Hl. simpl. rewrite Hb. f_equal. now apply IH.
Qed.

(** X18: a table with the default row labels and fewer than six rows is
    queried in full: the requests of [get_institution_totals] are the totals
    requests of every row, in row order (an initial segment of them in a run
    that fails), and the table returned is keyed by the string forms of all
    the author ids.  The call does return such a table, after the totals
    requests of every row, whenever every response carries an integer
    [totals] field. *)
Theorem get_institution_totals_short_table :
  forall self r by_method w df n author_ids,
    frames w !! r = Some df ->
    index df = RangeIndex n ->
    n < 6 ->
    column df "author_id" = Ok author_ids ->
    length author_ids = n ->
    let run := get_institution_totals self (Some r) by_method w in
    (exists new,
      log run.2 = log w ++ new /\
      tracks (flat_map (user_totals_requests self) author_ids) new run.1 /\
      (forall total_df,
          run.1 = Ok total_df ->
          forall key,
            In key (index total_df) <->
            exists author_id,
              In author_id author_ids /\ key = py_str author_id)) /\
    (answers_with_int "totals" ->
     exists total_df new,
       run.1 = Ok total_df /\
       log run.2 = log w ++ new /\
       map ex_request new = flat_map (user_totals_requests self) author_ids /\
       length new = 3 * n).
Proof.
  intros self r by_method w df n author_ids Hf Hi Hn Hc Hlen run.
  assert (Hq : select (map in_slice (index df)) author_ids = author_ids).
  { rewrite Hi. apply select_all_true.
    - apply Forall_map. unfold RangeIndex. apply Forall_map.
      apply List.Forall_forall. intros i Hin. apply in_seq in Hin.
      unfold in_slice. simpl.
      apply andb_true_iff. split; apply Z.leb_le; lia.
    - unfold RangeIndex. now rewrite !length_map, length_seq. }
  assert (Hloc : loc_slice 0 5 "author_id" df = Ok author_ids).
  { rewrite (loc_slice_sorted df "author_id" author_ids).
    - now rewrite Hq.
    - rewrite Hi. apply seq_sorted.
    - exact Hc.
    - rewrite Hi. unfold RangeIndex. now rewrite length_map, length_seq. }
  destruct (get_institution_totals_queries self r by_method w df author_ids
              Hf Hloc) as (new & L & T & K & Hlive).
  fold run in L, T, K, Hlive.
  split.
  - exists new. split; [exact L|]. split; [exact T | exact K].
  - intros HR. destruct (Hlive HR) as (total_df & H).
    assert (Hall := proj2 T total_df H).
    exists total_df, new. split; [exact H|]. split; [exact L|].
    split; [exact Hall|].
    rewrite <- (length_map ex_request new), Hall, <- Hlen.
    clear. induction author_ids as [|a l IH]; simpl; [reflexivity|].
    rewrite IH. lia.
Qed.

(** X19: no row label between 0 and 5 means no data and no error.  On a
    table with sorted row labels none of which lies in the slice, an empty
    table included, [get_institution_totals] issues no request and returns a
    table without rows and without columns; the world is left as it was. *)
Theorem get_institution_totals_nothing_in_slice :
  forall self r by_method w df author_ids,
    frames w !! r = Some df ->
    is_monotonic_increasing (index df) = true ->
    column df "author_id" = Ok author_ids ->
    length author_ids = length (index df) ->
    Forall (fun l => in_slice l = false) (index df) ->
    get_institution_totals self (Some r) by_method w =
      (Ok (mkDataFrame [] []), w).
Proof.
  intros self r by_method w df author_ids Hf Hs Hc Hlen Hout.
  rewrite (get_institution_totals_supplied self r by_method w df [] Hf).
  - reflexivity.
  - rewrite (loc_slice_sorted df "author_id" author_ids Hs Hc Hlen).
    f_equal. apply select_all_false. now apply Forall_map.
Qed.

(** ** The table that [get_institution_totals] returns *)

Lemma dict_keys_set_old {V} (d : dict V) k v :
  In k (dict_keys d) -> dict_keys (dict_set d k v) = dict_keys d.
Proof.
  unfold dict_keys. induction d as [|[k0 v0] d IH]; simpl; [tauto|].
  destruct (String.eqb k0 k) eqn:E; simpl; [reflexivity|].
  intros [H|H]; [apply String.eqb_neq in E; congruence|]. now rewrite IH.
Qed.

Lemma dict_keys_set_new {V} (d : dict V) k v :
  ~ In k (dict_keys d) -> dict_keys (dict_set d k v) = dict_keys d ++ [k].
Proof.
  unfold dict_keys. induction d as [|[k0 v0] d IH]; simpl; [reflexivity|].
  intros H. destruct (String.eqb k0 k) eqn:E; simpl.
  - apply String.eqb_eq in E. tauto.
  - rewrite IH; tauto.
Qed.

Lemma dict_set_nodup {V} (d : dict V) k v :
  List.NoDup (dict_keys d) -> List.NoDup (dict_keys (dict_set d k v)).
Proof.
  intros H. destruct (in_dec string_dec k (dict_keys d)) as [Hin|Hin].
  - now rewrite dict_keys_set_old.
  - rewrite dict_keys_set_new by assumption.
    apply List.NoDup_app; [exact H | repeat constructor; intros [] |].
    intros a Ha [<-|[]]. contradiction.
Qed.

Lemma dict_set_rows (d : dict (dict value)) k v :
  rows_of_counters d -> dict_keys v = counters ->
  rows_of_counters (dict_set d k v).
Proof.
  unfold rows_of_counters. intros H Hv.
  induction H as [|[k0 v0] d H0 Hd IH]; simpl.
  - repeat constructor. exact Hv.
  - destruct (String.eqb k0 k); constructor; assumption.
Qed.

Lemma get_user_totals_keys self author_id w d w' :
  get_user_totals self author_id w = (Ok d, w') -> dict_keys d = counters.
Proof.
  unfold get_user_totals. intros H.
  rewrite get_totals_supported in H by (right; left; reflexivity).
  apply counter_loop_inv in H as (new & _ & T).
  destruct T as (u1 & u2 & u3 & e1 & e2 & e3 & x1 & x2 & x3 & T).
  destruct T as (_ & _ & _ & _ & _ & _ & _ & _ & ->). reflexivity.
Qed.

Lemma totals_loop_rows self ids :
  forall acc w d w',
    for_each ids (totals_body self) acc w = (Ok d, w') ->
    List.NoDup (dict_keys acc) -> rows_of_counters acc ->
    List.NoDup (dict_keys d) /\ rows_of_counters d.
Proof.
  induction ids as [|a ids IH]; simpl; intros acc w d w' H Hn Hr.
  - injection H as <- _. now split.
  - apply bind_inv_ok in H as (acc1 & w1 & H1 & H).
    unfold totals_body in H1.
    apply bind_inv_ok in H1 as (totals & w0 & Ht & H1). injection H1 as <- _.
    apply get_user_totals_keys in Ht.
    apply (IH _ _ _ _ H).
    + now apply dict_set_nodup.
    + now apply dict_set_rows.
Qed.

Lemma totals_loop_order self ids :
  forall acc w d w',
    for_each ids (totals_body self) acc w = (Ok d, w') ->
    List.NoDup (dict_keys acc ++ map py_str ids) ->
    dict_keys d = dict_keys acc ++ map py_str ids.
Proof.
  induction ids as [|a ids IH]; simpl; intros acc w d w' H Hn.
  - injection H as <- _. now rewrite app_nil_r.
  - apply bind_inv_ok in H as (acc1 & w1 & H1 & H).
    unfold totals_body in H1.
    apply bind_inv_ok in H1 as (totals & w0 & _ & H1). injection H1 as <- _.
    assert (Hnew : ~ In (py_str a) (dict_keys acc)).
    { intros Hin. apply NoDup_remove_2 in Hn. apply Hn.
      apply in_or_app. now left. }
    rewrite (IH _ _ _ _ H); rewrite dict_keys_set_new by assumption;
      rewrite <- app_assoc; [reflexivity|exact Hn].
Qed.

Lemma union_keys_counters rows :
  Forall (fun r => dict_keys r = counters) rows ->
  union_keys rows counters = counters.
Proof.
  induction 1 as [|r rows Hr _ IH]; [reflexivity|].
  simpl. rewrite Hr. exact IH.
Qed.

Lemma from_dict_index_shape (d : dict (dict value)) t :
  rows_of_counters d ->
  from_dict_index d = Ok t ->
  index t = dict_keys d /\
  (d = [] -> columns t = []) /\
  (d <> [] -> map fst (columns t) = counters) /\
  Forall (fun kv => length (snd kv) = length (index t)) (columns t).
Proof.
  intros Hr. unfold from_dict_index.
  destruct (all_ok _) as [cols|e] eqn:E; [|discriminate].
  intros [= <-]. simpl. apply all_ok_inv in E.
  assert (Hn : map fst cols = union_keys (map snd d) []).
  { clear -E. induction E as [|c y l r Hy _ IH]; [reflexivity|].
    simpl. rewrite IH. f_equal.
    destruct (maybe_convert_objects _); [|discriminate].
    now injection Hy as <-. }
  split; [reflexivity|]. split; [|split].
  - intros ->. simpl in Hn. now destruct cols.
  - intros Hne. rewrite Hn.
    destruct d as [|[k r] d]; [contradiction|].
    inversion Hr as [|x l Hk Hrest]; subst. simpl in Hk. simpl.
    rewrite Hk. apply union_keys_counters.
    unfold rows_of_counters in Hrest. now apply Forall_map.
  - clear -E. induction E as [|c y l r Hy _ IH]; constructor; [|exact IH].
    destruct (maybe_convert_objects _) as [cells|] eqn:M; [|discriminate].
    injection Hy as <-. simpl.
    apply maybe_convert_objects_length in M. rewrite M.
    unfold dict_keys. now rewrite !length_map.
Qed.

Lemma get_institution_totals_inv self df by_method w t w' :
  get_institution_totals self df by_method w = (Ok t, w') ->
  exists ids d w0 w1,
    for_each ids (totals_body self) [] w0 = (Ok d, w1) /\
    from_dict_index d = Ok t.
Proof.
  intros H. unfold get_institution_totals in H.
  apply bind_inv_ok in H as (df' & w0 & _ & H).
  apply bind_inv_ok in H as (ids & w1 & _ & H).
  apply bind_inv_ok in H as (d & w2 & H & R).
  unfold lift in R. injection R as R _. now exists ids, d, w1, w2.
Qed.

(** X20: the table that [get_institution_totals] returns is well formed,
    whatever table it was given.  Its row labels are pairwise distinct, even
    when author ids repeat among the rows queried; when it has rows, its
    columns are views, downloads and shares, in this order; every column has
    one cell per row; and a table without rows has no columns. *)
Theorem get_institution_totals_result_shape :
  forall self df by_method w total_df w',
    get_institution_totals self df by_method w = (Ok total_df, w') ->
    List.NoDup (index total_df) /\
    (index total_df = [] -> columns total_df = []) /\
    (index total_df <> [] -> map fst (columns total_df) = counters) /\
    Forall (fun kv => length (snd kv) = length (index total_df))
      (columns total_df).
Proof.
  intros self df by_method w t w' H.
  apply get_institution_totals_inv in H as (ids & d & w0 & w1 & H & Ht).
  destruct (totals_loop_rows self ids [] w0 d w1 H) as (Hn & Hr);
    [constructor | constructor |].
  destruct (from_dict_index_shape d t Hr Ht) as (Hi & He & Hc & Hl).
  rewrite Hi in *. repeat split; try assumption.
  - intros E. apply He. destruct d; [reflexivity|discriminate].
  - intros E. apply Hc. intros ->. now apply E.
Qed.

Lemma str_int_inj z z' : str_int z = str_int z' -> z = z'.
Proof.
  unfold str_int. intros H. apply DecimalZ.to_int_inj.
  assert (N : forall z, Z.to_int z <> Decimal.Pos Decimal.Nil /\
                        Z.to_int z <> Decimal.Neg Decimal.Nil).
  { intros [|p|p]; simpl; split; try discriminate;
      intros E; injection E as E;
      now apply DecimalPos.Unsigned.to_uint_nonnil in E. }
  destruct (N z) as (P1 & N1), (N z') as (P2 & N2).
  pose proof (NilZero.isi _ P1 N1) as I1.
  pose proof (NilZero.isi _ P2 N2) as I2.
  rewrite H in I1. rewrite I1 in I2. now injection I2.
Qed.

(** X21: one row per author, in the order of the table.  On a table with
    sorted row labels and one [author_id] cell per row, when the string
    forms of the author ids queried are pairwise distinct the table returned
    has exactly one row for each of them, in row order, labelled by that
    string form.  Distinct integers always have distinct string forms. *)
Theorem get_institution_totals_row_order :
  forall self r by_method w df author_ids total_df w',
    frames w !! r = Some df ->
    is_monotonic_increasing (index df) = true ->
    column df "author_id" = Ok author_ids ->
    length author_ids = length (index df) ->
    let queried := select (map in_slice (index df)) author_ids in
    List.NoDup (map py_str queried) ->
    get_institution_totals self (Some r) by_method w = (Ok total_df, w') ->
    index total_df = map py_str queried /\
    (forall z z', py_str (VInt z) = py_str (VInt z') -> z = z').
Proof.
  intros self r by_method w df author_ids t w' Hf Hs Hc Hlen queried Hn H.
  split; [|intros z z'; apply str_int_inj].
  rewrite (get_institution_totals_supplied self r by_method w df queried Hf)
    in H by (now apply loc_slice_sorted).
  apply bind_inv_ok in H as (d & w1 & H & R).
  unfold lift in R. injection R as R _.
  rewrite (from_dict_index_index d t R).
  now apply (totals_loop_order self queried [] w d w1 H).
Qed.

(** ** Which headers go with which request *)

#[local] Instance only_compositional (R : Request -> Prop) :
  Compositional (@only R).
Proof.
  split.
  - intros A o. constructor.
  - intros A B n e H. exact H.
  - intros A B n1 a n2 o H1 H2. unfold only in *. apply Forall_app. now split.
Qed.

Lemma only_issue_request (R : Request -> Prop) method url headers params :
  R (mkRequest method url headers params) ->
  emits (issue_request method url headers params) (only R).
Proof.
  intros H. apply emits_issue_request; intros; repeat constructor; exact H.
Qed.

Lemma only_weaken {A} (R R' : Request -> Prop) (m : M A) :
  (forall rq, R rq -> R' rq) -> emits m (only R) -> emits m (only R').
Proof.
  intros HR H w. destruct (H w) as (new & L & Hn). exists new.
  split; [exact L|]. unfold only in *.
  eapply List.Forall_impl; [|exact Hn]. intros ex. apply HR.
Qed.

Lemma only_get_totals self item_id item inst :
  emits (get_totals self item_id item inst) (only (stats_request self)).
Proof.
  unfold get_totals.
  compositional (@only (stats_request self))
    ltac:(apply only_issue_request; now split).
Qed.

Lemma only_get_figshare_id self accounts_df :
  emits (get_figshare_id self accounts_df) (only (api_request self)).
Proof.
  unfold get_figshare_id.
  compositional (@only (api_request self))
    ltac:(apply only_issue_request; now split).
Qed.

Lemma only_retrieve_institution_users self ignore_admin :
  emits (retrieve_institution_users self ignore_admin)
        (only (api_request self)).
Proof.
  unfold retrieve_institution_users.
  compositional (@only (api_request self))
    ltac:(first [ apply only_issue_request; now split
                | apply only_get_figshare_id ]).
Qed.

(** X22: which credentials travel with which request.  Every request of
    [get_totals] and [get_timeline] is a GET with the basic headers of the
    client; every request of [get_figshare_id] and
    [retrieve_institution_users] is a GET with its API headers; the requests
    of [get_institution_totals] are of one kind or the other.  On a client
    made by [__init__] both header sets announce JSON, and each carries an
    [Authorization] entry exactly when its token is not empty: [Basic <token>]
    in the basic headers, [token <token>] in the API headers. *)
Theorem requests_carry_their_headers :
  forall self item_id item granularity inst accounts_df ignore_admin df
         by_method api_token basic_token institution institute,
    emits (get_totals self item_id item inst) (only (stats_request self)) /\
    emits (get_timeline self item_id item granularity inst)
      (only (stats_request self)) /\
    emits (get_figshare_id self accounts_df) (only (api_request self)) /\
    emits (retrieve_institution_users self ignore_admin)
      (only (api_request self)) /\
    emits (get_institution_totals self df by_method)
      (only (fun rq => stats_request self rq \/ api_request self rq)) /\
    (let client := __init__ api_token basic_token institution institute in
     dict_get (basic_headers client) "Content-Type" = Some "application/json" /\
     dict_get (api_headers client) "Content-Type" = Some "application/json" /\
     dict_get (basic_headers client) "Authorization" =
       (if String.eqb basic_token "" then None
        else Some ("Basic " +:+ basic_token)) /\
     dict_get (api_headers client) "Authorization" =
       (if String.eqb api_token "" then None
        else Some ("token " +:+ api_token))).
Proof.
  intros self item_id item granularity inst accounts_df ignore_admin df
    by_method api_token basic_token institution institute.
  split; [apply only_get_totals|].
  split.
  { unfold get_timeline.
    compositional (@only (stats_request self))
      ltac:(apply only_issue_request; now split). }
  split; [apply only_get_figshare_id|].
  split; [apply only_retrieve_institution_users|].
  split.
  { unfold get_institution_totals, get_user_totals.
    compositional (@only (fun rq => stats_request self rq \/ api_request self rq))
      ltac:(first
              [ apply (only_weaken (stats_request self));
                [now left | apply only_get_totals]
              | apply (only_weaken (api_request self));
                [now right | apply only_retrieve_institution_users]
              | apply only_issue_request; left; now split
              | apply only_issue_request; right; now split ]). }
  simpl. unfold truthy.
  destruct (String.eqb basic_token ""), (String.eqb api_token "");
    repeat split.
Qed.

(** ** The accounts listing *)

Lemma only_lookups_get_figshare_id self base accounts_df :
  main_baseurl_institute self = Some base ->
  emits (get_figshare_id self accounts_df) (only (user_lookup self base)).
Proof.
  intros Hbase. unfold get_figshare_id. rewrite Hbase. simpl getattr.
  apply emits_bind_lift_ok. cbv zeta.
  compositional (@only (user_lookup self base))
    ltac:(apply only_issue_request; eexists; reflexivity).
Qed.

Lemma retrieve_institution_users_emits self ignore_admin base :
  main_baseurl_institute self = Some base ->
  emits (retrieve_institution_users self ignore_admin)
        (fun new _ =>
           exists first rest,
             new = first :: rest /\
             ex_request first = accounts_request self base /\
             Forall (fun ex => user_lookup self base (ex_request ex)) rest).
Proof.
  intros Hbase. unfold retrieve_institution_users. rewrite Hbase. simpl getattr.
  apply emits_bind_lift_ok.
  eapply emits_bind with
    (P := fun new _ =>
            exists first, new = [first] /\
                          ex_request first = accounts_request self base)
    (Q := fun _ => @only (user_lookup self base) ref).
  - apply emits_issue_request; intros; eexists; split; reflexivity.
  - intros accounts.
    pose proof (fun r => only_lookups_get_figshare_id self base r Hbase) as G.
    set (g := get_figshare_id self) in *. clearbody g.
    compositional (@only (user_lookup self base)) ltac:(apply G).
  - intros n e (first & -> & H). exists first, []. repeat split; auto.
  - intros n1 a n2 o (first & -> & H) H2. exists first, n2. repeat split; auto.
Qed.

Lemma length_select_le {A} (mask : list bool) (cells : list A) :
  length (select mask cells) <= length cells.
Proof.
  revert cells. induction mask as [|b mask IH]; intros [|c cells]; simpl;
    try lia.
  specialize (IH cells). destruct b; simpl; lia.
Qed.

Lemma drop_admin_and_test_rows df df' :
  drop_admin_and_test df = Ok df' ->
  length (index df') <= length (index df).
Proof.
  unfold drop_admin_and_test.
  destruct (column df "email") as [emails|]; [|discriminate].
  destruct (forallb is_str emails); [|discriminate].
  intros [= <-]. simpl. unfold RangeIndex.
  rewrite length_map, length_seq. apply length_select_le.
Qed.

Lemma drop_columns_index {L} name (df df' : DataFrame L) :
  drop_columns name df = Ok df' -> index df' = index df.
Proof.
  unfold drop_columns. destruct (dict_get (columns df) name); [|discriminate].
  now intros [= <-].
Qed.

(** A call that returns: the listing, the table made of it, one lookup per
    row of that table. *)
Lemma retrieve_institution_users_run self ignore_admin w base r w' :
  main_baseurl_institute self = Some base ->
  retrieve_institution_users self ignore_admin w = (Ok r, w') ->
  exists accounts df0 df1 df2 df3 ids authors new,
    respond (log w) (accounts_request self base) = Body accounts /\
    pd_DataFrame accounts = Ok df0 /\
    drop_columns "institution_id" df0 = Ok df1 /\
    (if ignore_admin then drop_admin_and_test df1 = Ok df2 else df2 = df1) /\
    column df2 "id" = Ok ids /\
    set_column df2 "author_id" authors = Ok df3 /\
    r = length (frames w) /\
    frames w' = frames w ++ [df3] /\
    log w' =
      log w ++ mkExchange (accounts_request self base) (Body accounts) :: new /\
    map ex_request new = map (user_request self base) ids /\
    Forall2 (carries "id") new authors.
Proof.
  intros Hbase H. unfold retrieve_institution_users in H. rewrite Hbase in H.
  simpl getattr in H. unfold bind at 1, lift at 1 in H.
  apply bind_inv_ok in H as (accounts & w1 & H1 & H).
  assert (W1 : respond (log w) (accounts_request self base) = Body accounts /\
               w1 = log_append w
                      [mkExchange (accounts_request self base) (Body accounts)]).
  { unfold issue_request in H1.
    change (mkRequest "GET" (join base ["accounts"]) (api_headers self)
              (Some [("page", 1%Z); ("page_size", 1000%Z)]))
      with (accounts_request self base) in H1.
    destruct (respond (log w) (accounts_request self base)) as [body|reason];
      [|discriminate].
    injection H1 as <- <-. now split. }
  destruct W1 as (R1 & ->).
  apply bind_inv_ok in H as (df0 & w2 & H2 & H).
  unfold lift in H2. injection H2 as H2 <-.
  apply bind_inv_ok in H as (df1 & w3 & H3 & H).
  unfold lift in H3. injection H3 as H3 <-.
  apply bind_inv_ok in H as (df2 & w4 & H4 & H).
  assert (W4 : (if ignore_admin then drop_admin_and_test df1 = Ok df2
                else df2 = df1) /\
               frames w4 = frames w /\
               log w4 =
                 log w ++
                 [mkExchange (accounts_request self base) (Body accounts)]).
  { destruct ignore_admin.
    - unfold bind, print, lift in H4. simpl in H4. injection H4 as H4 <-.
      now split.
    - unfold ret in H4. injection H4 as <- <-. now split. }
  destruct W4 as (D4 & F4 & L4).
  apply bind_inv_ok in H as (r0 & w5 & H5 & H).
  unfold alloc in H5. injection H5 as <- <-.
  apply get_figshare_id_inv in H
    as (base' & df & ids & authors & new & df3 & Hb' & Hf & Hc & -> & C & F & _
        & L & Rq & Cs).
  rewrite Hbase in Hb'. injection Hb' as <-.
  simpl in Hf, F, L. rewrite F4 in *.
  rewrite lookup_at_end in Hf. injection Hf as <-.
  rewrite insert_at_end in F. rewrite L4, <- app_assoc in L.
  exists accounts, df0, df1, df2, df3, ids, authors, new.
  repeat split; assumption.
Qed.

Lemma append_cancel (p a b : string) : p +:+ a = p +:+ b -> a = b.
Proof.
  induction p as [|c p IH]; [auto|].
  change (String c (p +:+ a) = String c (p +:+ b) -> a = b).
  intros [= H]. now apply IH.
Qed.

(** C8: on a client constructed with the institution flag, every call of
    [retrieve_institution_users] issues the accounts listing exactly once:
    its first request is a GET of
    [https://api.figshare.com/v2/account/institution/accounts] with
    [page=1] and [page_size=1000], and every request after it is the lookup
    of one user, a GET of [.../institution/users/<id>] without query
    parameters, so that the listing is never requested again and no other
    page is ever asked for.  When the call returns, its table is made from
    the body of that one response: it has at most the rows of the table that
    pandas builds from the body, and exactly those rows when [ignore_admin]
    is off, and the later requests are the lookups of its rows, one per row
    and in row order.  Accounts that the first page does not list are
    therefore not in the table. *)
Theorem retrieve_institution_users_single_page :
  forall api_token basic_token institution institute ignore_admin w,
    institution = true ->
    let self := __init__ api_token basic_token institution institute in
    let listing := "https://api.figshare.com/v2/account/institution/accounts" in
    let lookup institute_id :=
      mkRequest "GET"
        ("https://api.figshare.com/v2/account/institution/users/" +:+
         py_str institute_id)
        (api_headers self) None in
    let run := retrieve_institution_users self ignore_admin w in
    exists first rest,
      log run.2 = log w ++ first :: rest /\
      ex_request first =
        mkRequest "GET" listing (api_headers self)
          (Some [("page", 1%Z); ("page_size", 1000%Z)]) /\
      Forall (fun ex =>
                (exists institute_id, ex_request ex = lookup institute_id) /\
                req_url (ex_request ex) <> listing)
             rest /\
      (forall r w',
          run = (Ok r, w') ->
          exists accounts listed accounts_df ids,
            ex_response first = Body accounts /\
            pd_DataFrame accounts = Ok listed /\
            frames w' !! r = Some accounts_df /\
            length (index accounts_df) <= length (index listed) /\
            (ignore_admin = false -> index accounts_df = index listed) /\
            column accounts_df "id" = Ok ids /\
            map ex_request rest = map lookup ids).
Proof.
  intros api_token basic_token institution institute ignore_admin w ->
    self listing lookup run.
  set (base := "https://api.figshare.com/v2/account/institution").
  assert (Hbase : main_baseurl_institute self = Some base) by reflexivity.
  assert (Hlookup : forall i, user_request self base i = lookup i).
  { intros i. reflexivity. }
  destruct (retrieve_institution_users_emits self ignore_admin base Hbase w)
    as (new & L & first & rest & -> & Hfirst & Hrest).
  fold run in L. exists first, rest.
  split; [exact L|]. split; [exact Hfirst|]. split.
  - eapply List.Forall_impl; [|exact Hrest].
    intros ex (i & Hi). rewrite Hlookup in Hi. split; [now exists i|].
    rewrite Hi. unfold lookup, listing. simpl req_url.
    change "https://api.figshare.com/v2/account/institution/accounts"
      with ("https://api.figshare.com/v2/account/institution/" +:+ "accounts").
    change ("https://api.figshare.com/v2/account/institution/users/" +:+
            py_str i)
      with ("https://api.figshare.com/v2/account/institution/" +:+
            String "u" ("sers/" +:+ py_str i)).
    intros E. apply append_cancel in E. discriminate E.
  - intros r w' H.
    destruct (retrieve_institution_users_run self ignore_admin w base r w'
                Hbase H)
      as (accounts & df0 & df1 & df2 & df3 & ids & authors & new & R & P & D1
          & D2 & Hc & C & -> & F & L' & Rq & _).
    rewrite H in L. simpl in L. rewrite L' in L.
    apply app_inv_head in L. injection L as <- <-.
    apply set_column_inv in C as (cells & _ & Hi & _ & Hother).
    apply drop_columns_index in D1.
    exists accounts, df0, df3, ids.
    split; [reflexivity|]. split; [exact P|].
    split; [rewrite F; apply lookup_at_end|].
    split; [|split; [|split]].
    + rewrite Hi, <- D1. destruct ignore_admin; [|now subst].
      now apply drop_admin_and_test_rows.
    + intros ->. subst df2. now rewrite Hi.
    + rewrite Hother by discriminate. exact Hc.
    + rewrite Rq. apply map_ext. exact Hlookup.
Qed.

(** ** Exceptions of the account calls *)

Lemma raises_only_weaken {A} (C C' : exn -> Prop) (m : M A) :
  (forall e, C e -> C' e) -> emits m (raises_only C) ->
  emits m (raises_only C').
Proof.
  intros HC H w. destruct (H w) as (new & L & Hn). exists new.
  split; [exact L|]. intros e E. apply HC. now apply Hn.
Qed.

Lemma raises_only_ok {A} C (m : M A) :
  (forall w, exists a, (m w).1 = Ok a) -> (forall w, log (m w).2 = log w) ->
  emits m (raises_only C).
Proof.
  intros Hok Hlog w. exists []. rewrite Hlog, app_nil_r.
  split; [reflexivity|]. intros e E. destruct (Hok w) as (a & Ha). congruence.
Qed.

Lemma scan_objects_raises cells :
  forall seen e, scan_objects cells seen = Raise e -> e = PandasError.
Proof.
  induction cells as [|v cells IH]; intros seen e; simpl; [discriminate|].
  destruct v as [|b|z|f|s|l|d]; try discriminate; try apply IH.
  destruct (too_large_for_float z); [now intros [= <-]|].
  destruct (null_ seen); [apply IH|].
  match goal with |- context [if ?c then _ else _] => destruct c end;
    [discriminate | apply IH].
Qed.

Lemma set_column_raises {L} (df : DataFrame L) name cells e :
  set_column df name cells = Raise e -> e = PandasError.
Proof.
  unfold set_column, maybe_convert_objects.
  destruct (scan_objects cells _) as [[seen|]|e0] eqn:E.
  - destruct (bool_ seen); [discriminate|].
    destruct (float_ seen || (null_ seen && int_ seen)); discriminate.
  - discriminate.
  - intros [= <-]. now apply scan_objects_raises in E.
Qed.

Lemma raises_only_get_figshare_id self accounts_df :
  emits (get_figshare_id self accounts_df) (raises_only lookup_error).
Proof.
  unfold get_figshare_id.
  apply raises_only_bind.
  { apply emits_lift. intros e E.
    destruct (main_baseurl_institute self); [discriminate|].
    injection E as <-. now left. }
  intros base. apply raises_only_bind.
  { intros w. exists []. rewrite app_nil_r. unfold load.
    destruct (frames w !! accounts_df); (split; [reflexivity|]);
      intros e E; [discriminate|]. injection E as <-. right. right. now left. }
  intros df. apply raises_only_bind.
  { apply emits_lift. intros e E. unfold column in E.
    destruct (dict_get (columns df) "id"); [discriminate|].
    injection E as <-. right. now left. }
  intros ids. apply raises_only_bind.
  { apply raises_only_for_each. intros i acc.
    apply raises_only_bind.
    - apply raises_only_issue_request. intros reason.
      right. right. right. left. now exists reason.
    - intros response. apply raises_only_bind.
      + apply raises_only_getitem; [right; now left | right; right; now left].
      + intros x. apply emits_ret. discriminate. }
  intros authors. apply raises_only_bind.
  { apply emits_lift. intros e E. apply set_column_raises in E.
    right. right. right. now right. }
  intros df'. apply raises_only_bind.
  - apply raises_only_ok; intros w; [now exists tt | reflexivity].
  - intros u. apply emits_ret. discriminate.
Qed.

(** X23: what the account calls can raise.  [get_figshare_id] raises nothing
    but [AttributeError] for the missing institution base, [KeyError] for a
    missing [id] (column or response field), [TypeError] from subscripting a
    response that is no JSON object (or an argument that is no table and
    cannot be subscripted either, such as [None]), the failure of a request,
    and the failure of pandas on an identifier too large for a float;
    [retrieve_institution_users] adds the [KeyError] of [DataFrame.drop] for
    a missing [institution_id] column, whose argument is the message
    ['institution_id'] not found in axis, [KeyError] for a missing [email]
    column, the failure of the test pattern on emails that are not strings,
    and whatever the table constructor raises. *)
Theorem account_calls_raise_only :
  forall self accounts_df ignore_admin,
    emits (get_figshare_id self accounts_df) (raises_only lookup_error) /\
    emits (retrieve_institution_users self ignore_admin)
      (raises_only listing_error).
Proof.
  intros self accounts_df ignore_admin.
  split; [apply raises_only_get_figshare_id|].
  unfold retrieve_institution_users.
  apply raises_only_bind.
  { apply emits_lift. intros e E.
    destruct (main_baseurl_institute self); [discriminate|].
    injection E as <-. left. now left. }
  intros base. apply raises_only_bind.
  { apply raises_only_issue_request. intros reason.
    left. right. right. right. left. now exists reason. }
  intros accounts. apply raises_only_bind.
  { apply emits_lift. intros e E. right. right. right. right.
    now exists accounts. }
  intros df0. apply raises_only_bind.
  { apply emits_lift. intros e E. unfold drop_columns in E.
    destruct (dict_get (columns df0) "institution_id"); [discriminate|].
    injection E as <-. right. now left. }
  intros df1. apply raises_only_bind.
  { destruct ignore_admin; [|apply emits_ret; discriminate].
    apply raises_only_bind.
    - apply raises_only_ok; intros w; [now exists tt | reflexivity].
    - intros u. apply emits_lift. intros e E. unfold drop_admin_and_test in E.
      unfold column in E.
      destruct (dict_get (columns df1) "email") as [emails|].
      + destruct (forallb is_str emails); [discriminate|].
        injection E as <-. right. right. right. now left.
      + injection E as <-. right. right. now left. }
  intros df2. apply raises_only_bind.
  { apply raises_only_ok; intros w; [now eexists | reflexivity]. }
  intros r. apply (raises_only_weaken lookup_error); [now left|].
  apply raises_only_get_figshare_id.
Qed.

(** ** No administrative or test account is left *)

Lemma in_select_combine {A} (p : A -> bool) (vs : list A) (idx : list Z) v l :
  In (v, l) (combine vs idx) -> p v = true ->
  In l (select (map p vs) idx).
Proof.
  revert idx. induction vs as [|v0 vs IH]; intros [|l0 idx]; simpl; try tauto.
  intros [E|Hin] Hp.
  - injection E as -> ->. rewrite Hp. now left.
  - destruct (p v0); [right|]; now apply IH.
Qed.

Lemma select_keeps_kept (D : list Z) (vs : list value) (idx : list Z) :
  (forall v l, In (v, l) (combine vs idx) -> kept_account v = false -> In l D) ->
  Forall (fun v => kept_account v = true)
    (select (map (fun l => negb (existsb (Z.eqb l) D)) idx) vs).
Proof.
  revert idx. induction vs as [|v vs IH]; intros [|l idx] H; simpl;
    try constructor.
  destruct (existsb (Z.eqb l) D) eqn:E; simpl.
  - apply IH. intros v' l' Hin. apply H. now right.
  - constructor.
    + destruct (kept_account v) eqn:K; [reflexivity|].
      assert (In l D) by (apply (H v l); [now left|exact K]).
      assert (existsb (Z.eqb l) D = true).
      { apply existsb_exists. exists l. split; [assumption|apply Z.eqb_refl]. }
      congruence.
    + apply IH. intros v' l' Hin. apply H. now right.
Qed.

Lemma drop_admin_and_test_emails df df' emails' :
  drop_admin_and_test df = Ok df' ->
  column df' "email" = Ok emails' ->
  Forall (fun v => kept_account v = true) emails'.
Proof.
  unfold drop_admin_and_test, column.
  destruct (dict_get (columns df) "email") as [emails|] eqn:Hc; [|discriminate].
  destruct (forallb is_str emails); [|discriminate].
  intros H. injection H as <-. simpl.
  rewrite (dict_get_map_snd (select _)), Hc. simpl.
  intros H. injection H as <-.
  apply select_keeps_kept. intros v l Hin K.
  unfold kept_account in K. apply negb_false_iff, orb_true_iff in K.
  apply in_or_app. destruct K as [K|K]; [left|right].
  - exact (in_select_combine is_admin_email emails (index df) v l Hin K).
  - exact (in_select_combine is_test_email emails (index df) v l Hin K).
Qed.

(** X24: with [ignore_admin] set, the table that
    [retrieve_institution_users] returns holds no administrative and no test
    account: it has an [email] column, and no email in it is the
    administrative address or matches the test pattern. *)
Theorem retrieve_institution_users_excludes :
  forall self w r w',
    retrieve_institution_users self true w = (Ok r, w') ->
    exists accounts_df emails,
      frames w' !! r = Some accounts_df /\
      column accounts_df "email" = Ok emails /\
      Forall (fun v => is_admin_email v = false /\ is_test_email v = false)
        emails.
Proof.
  intros self w r w' H.
  apply retrieve_institution_users_inv in H
    as (df1 & df2 & authors & df3 & _ & D & -> & C & F & _).
  apply set_column_inv in C as (cells & _ & _ & _ & Hother).
  assert (E : exists emails, column df2 "email" = Ok emails).
  { unfold drop_admin_and_test in D. unfold column in *.
    destruct (dict_get (columns df1) "email") as [emails|] eqn:Hc;
      [|discriminate].
    destruct (forallb is_str emails); [|discriminate].
    injection D as <-. simpl.
    rewrite (dict_get_map_snd (select _)), Hc. simpl. eauto. }
  destruct E as (emails & E).
  exists df3, emails. repeat split.
  - rewrite F. apply lookup_at_end.
  - rewrite Hother by discriminate. exact E.
  - eapply List.Forall_impl;
      [|exact (drop_admin_and_test_emails df1 df2 emails D E)].
    intros v K. simpl in K. unfold kept_account in K.
    apply negb_true_iff, orb_false_iff in K. exact K.
Qed.
End Client.

(** ** The model at work *)

Example join_absolute_segment :
  join "a" ["b"; "/c"; "d/"; "e"] = "/c/d/e".
Proof. reflexivity. Qed.

Example loc_slice_is_label_based :
  loc_slice 0 5 "author_id" (seven_accounts [10; 11; 12; 13; 14; 15; 16]%Z) = Ok [] /\
  loc_slice 0 5 "author_id" (seven_accounts [0; 0; 1; 2; 3; 4; 5]%Z) =
    Ok seven_author_ids /\
  loc_slice 0 5 "author_id" (seven_accounts [0; 1; 0; 2; 3; 4; 5]%Z) =
    Raise (KeyError "Cannot get left slice bound for non-unique label: 0").
Proof. repeat split. Qed.

Example retrieve_institution_users_drops_test_accounts :
  let run :=
    retrieve_institution_users mock_institution repr_opaque frame_of_records
      institution_client true empty_world in
  run.1 = Ok 0 /\
  frames run.2 =
    [mkDataFrame [0%Z]
       [("id", [VInt 11]); ("email", [VStr "ana@email.arizona.edu"]);
        ("author_id", [VInt 501])]] /\
  stdout run.2 = ["Excluding administrative and test accounts"].
Proof. repeat split. Qed.

Example get_institution_totals_by_author :
  (get_institution_totals mock_institution repr_opaque frame_of_records
     institution_client None "author" empty_world).1 =
  Ok (mkDataFrame ["501"; "502"]
        [("views", [VInt 42; VInt 42]); ("downloads", [VInt 42; VInt 42]);
         ("shares", [VInt 42; VInt 42])]).
Proof. reflexivity. Qed.

Example retrieve_institution_users_needs_institution :
  retrieve_institution_users mock_institution repr_opaque frame_of_records
    default_client false empty_world =
    (Raise (AttributeError "main_baseurl_institute"), empty_world).
Proof. reflexivity. Qed.

(** C1: the code forwards the institution flag to [stats_endpoint].  On a
    client with institute [abc], [get_totals] for article 99 with the flag
    set requests the institution-scoped URLs, and the plain ones without
    it: the flag does change the endpoint that is hit. *)
Theorem get_totals_follows_institution_flag :
  let urls inst :=
    map (fun ex => req_url (ex_request ex))
      (log (get_totals mock_totals_42 repr_opaque institute_client (VInt 99)
              "article" inst empty_world).2) in
  urls true =
    ["https://stats.figshare.com/abc/total/views/article/99";
     "https://stats.figshare.com/abc/total/downloads/article/99";
     "https://stats.figshare.com/abc/total/shares/article/99"] /\
  urls false =
    ["https://stats.figshare.com/total/views/article/99";
     "https://stats.figshare.com/total/downloads/article/99";
     "https://stats.figshare.com/total/shares/article/99"].
Proof. split; reflexivity. Qed.

(** ** Instances of the theorems *)

Lemma get_totals_rejects_unsupported_item_witness :
  ~ supported "dataset" /\
  get_totals mock_totals_42 repr_opaque default_client (VInt 99) "dataset"
    false empty_world =
    (Raise (ValueError "Incorrect item type"), empty_world).
Proof.
  assert (H : ~ supported "dataset").
  { intros H. unfold supported, item_kinds in H. simpl in H.
    intuition discriminate. }
  split; [exact H|].
  apply get_totals_rejects_unsupported_item. exact H.
Defined.

Lemma stats_endpoint_needs_institute_witness :
  supported "article" /\
  get_totals mock_totals_42 repr_opaque default_client (VInt 99) "article"
    true empty_world =
    (Raise (AttributeError "stats_baseurl_institute"), empty_world).
Proof.
  assert (H : supported "article") by (left; reflexivity).
  split; [exact H|].
  exact (proj1 (proj2 (stats_endpoint_needs_institute mock_totals_42
                         repr_opaque "" "" false "total" (VInt 99) "article"
                         "day" empty_world)) H).
Defined.

Lemma get_totals_three_requests_witness :
  supported "article" /\
  (get_totals mock_totals_42 repr_opaque default_client (VInt 99) "article"
     false empty_world).1 =
    Ok [("views", VInt 42); ("downloads", VInt 42); ("shares", VInt 42)].
Proof.
  assert (H : supported "article") by (left; reflexivity).
  split; [exact H|].
  apply (get_totals_three_requests mock_totals_42 repr_opaque default_client
           (VInt 99) "article" false empty_world H).
  intros h rq. reflexivity.
Defined.

Lemma get_timeline_no_validation_witness :
  ~ supported "bogus" /\
  exists d,
    (get_timeline mock_timeline repr_opaque default_client (VInt 99) "bogus"
       "day" false empty_world).1 = Ok d.
Proof.
  split.
  - intros H. unfold supported, item_kinds in H. simpl in H.
    intuition discriminate.
  - apply (get_timeline_no_validation mock_timeline repr_opaque default_client
             (VInt 99) "bogus" "day" false empty_world).
    + discriminate.
    + intros h rq. eexists. eexists. split; reflexivity.
Defined.

Lemma failed_request_aborts_operation_witness :
  failed_in
    (log (get_totals mock_second_fails repr_opaque default_client (VInt 99)
            "article" false empty_world).2) "503" /\
  (get_totals mock_second_fails repr_opaque default_client (VInt 99) "article"
     false empty_world).1 = Raise (RequestFailure "503").
Proof.
  assert (F : failed_in
    (log (get_totals mock_second_fails repr_opaque default_client (VInt 99)
            "article" false empty_world).2) "503").
  { eexists. right. left. reflexivity. }
  split; [exact F|].
  destruct (failed_request_aborts_operation mock_second_fails repr_opaque
              frame_of_records default_client (VInt 99) "article" "day" false
              0 None "author") as (H & _).
  destruct (H empty_world) as (new & L & Hf).
  apply Hf. simpl in L. rewrite <- L. exact F.
Defined.

Lemma get_institution_totals_first_six_witness :
  let w := world_with (seven_accounts (RangeIndex 7)) in
  let run :=
    get_institution_totals mock_totals_42 repr_opaque frame_of_records
      default_client (Some 0) "author" w in
  6 <= 7 /\
  answers_with_int mock_totals_42 "totals" /\
  exists total_df new,
    run.1 = Ok total_df /\
    log run.2 = log w ++ new /\
    map ex_request new =
      flat_map (user_totals_requests repr_opaque default_client)
        (firstn 6 seven_author_ids).
Proof.
  intros w run.
  assert (A : answers_with_int mock_totals_42 "totals").
  { intros h rq. eexists. eexists. repeat split; reflexivity. }
  split; [lia|]. split; [exact A|].
  exact (proj1 (proj2 (get_institution_totals_first_six mock_totals_42
                         repr_opaque frame_of_records default_client 0
                         "author" w (seven_accounts (RangeIndex 7)) 7
                         seven_author_ids eq_refl eq_refl ltac:(lia) eq_refl))
           A).
Defined.

Lemma retrieve_institution_users_single_page_witness :
  let run :=
    retrieve_institution_users mock_institution repr_opaque frame_of_records
      institution_client false empty_world in
  true = true /\
  map (fun ex => req_url (ex_request ex)) (log run.2) =
    ["https://api.figshare.com/v2/account/institution/accounts";
     "https://api.figshare.com/v2/account/institution/users/11";
     "https://api.figshare.com/v2/account/institution/users/12"] /\
  exists first rest,
    log run.2 = log empty_world ++ first :: rest /\
    ex_request first =
      mkRequest "GET"
        "https://api.figshare.com/v2/account/institution/accounts"
        (api_headers institution_client)
        (Some [("page", 1%Z); ("page_size", 1000%Z)]) /\
    Forall (fun ex =>
              req_url (ex_request ex) <>
                "https://api.figshare.com/v2/account/institution/accounts")
           rest.
Proof.
  intros run. split; [reflexivity|]. split; [reflexivity|].
  destruct (retrieve_institution_users_single_page mock_institution
              repr_opaque frame_of_records "key" "" true "" false empty_world
              eq_refl)
    as (first & rest & L & Hfirst & Hrest & _).
  exists first, rest. split; [exact L|]. split; [exact Hfirst|].
  eapply List.Forall_impl; [|exact Hrest]. intros ex (_ & H). exact H.
Defined.

(** ** Where the specification and the code part *)

(** C2: the slice [.loc[0:5]] goes by row labels.  On a table of seven rows
    labelled [-1 .. 5] the totals requested are those of rows two to seven,
    not those of the first six rows. *)
Lemma get_institution_totals_shifted_index :
  let w := world_with (seven_accounts [-1; 0; 1; 2; 3; 4; 5]%Z) in
  let run :=
    get_institution_totals mock_totals_42 repr_opaque frame_of_records
      default_client (Some 0) "author" w in
  6 <= length (index (seven_accounts [-1; 0; 1; 2; 3; 4; 5]%Z)) /\
  ~ exists new,
      log run.2 = log w ++ new /\
      map ex_request new `prefix_of`
        flat_map (user_totals_requests repr_opaque default_client)
          (firstn 6 seven_author_ids).
Proof.
  intros w run. split; [simpl; lia|].
  intros (new & L & k & Hk).
  vm_compute in L. subst new. vm_compute in Hk. discriminate Hk.
Qed.

(** C3: with no table and [by_method = "article"] the call does not return a
    table, empty or not. *)
Lemma get_institution_totals_article_no_result :
  ~ exists total_df w',
      get_institution_totals mock_totals_42 repr_opaque frame_of_records
        default_client None "article" empty_world = (Ok total_df, w').
Proof. intros (total_df & w' & H). vm_compute in H. discriminate H. Qed.

(** ** Instances of the further theorems *)

Lemma stats_endpoint_url_witness :
  starts_with_sep "total/views/article/99" = false /\
  plain_segment "abc" /\
  stats_endpoint institute_client "total/views/article/99" true =
    Ok "https://stats.figshare.com/abc/total/views/article/99".
Proof.
  assert (P : plain_segment "abc") by (repeat split; discriminate).
  split; [reflexivity|]. split; [exact P|].
  exact (proj1 (proj2 (stats_endpoint_url "" "" false "abc"
                         "total/views/article/99")) eq_refl P).
Defined.

Lemma get_totals_urls_witness :
  supported "article" /\
  emits (get_totals mock_totals_42 repr_opaque default_client
           (VInt 99) "article" false)
    (tracks
       [get_request "https://stats.figshare.com/total/views/article/99"
          (basic_headers default_client);
        get_request "https://stats.figshare.com/total/downloads/article/99"
          (basic_headers default_client);
        get_request "https://stats.figshare.com/total/shares/article/99"
          (basic_headers default_client)]).
Proof.
  assert (H : supported "article") by (left; reflexivity).
  split; [exact H|].
  exact (get_totals_urls mock_totals_42 repr_opaque "" "" false ""
           (VInt 99) "article" H eq_refl).
Defined.

Lemma get_timeline_urls_witness :
  plain_segment "month" /\ plain_segment "collection" /\
  emits (get_timeline mock_timeline repr_opaque default_client
           (VInt 7) "collection" "month" false)
    (tracks
       [get_request
          "https://stats.figshare.com/timeline/month/views/collection/7"
          (basic_headers default_client);
        get_request
          "https://stats.figshare.com/timeline/month/downloads/collection/7"
          (basic_headers default_client);
        get_request
          "https://stats.figshare.com/timeline/month/shares/collection/7"
          (basic_headers default_client)]).
Proof.
  assert (G : plain_segment "month") by (repeat split; discriminate).
  assert (I : plain_segment "collection") by (repeat split; discriminate).
  split; [exact G|]. split; [exact I|].
  exact (get_timeline_urls mock_timeline repr_opaque "" "" false ""
           (VInt 7) "collection" "month" G I eq_refl).
Defined.

Lemma get_totals_absolute_id_witness :
  supported "article" /\
  emits (get_totals mock_totals_42 repr_opaque default_client
           (VStr "/etc/passwd") "article" false)
    (tracks
       [get_request "/etc/passwd" (basic_headers default_client);
        get_request "/etc/passwd" (basic_headers default_client);
        get_request "/etc/passwd" (basic_headers default_client)]).
Proof.
  assert (H : supported "article") by (left; reflexivity).
  split; [exact H|].
  exact (get_totals_absolute_id mock_totals_42 repr_opaque default_client
           (VStr "/etc/passwd") "article" H eq_refl).
Defined.

Lemma missing_field_aborts_witness :
  dict_get [("timeline", VInt 1)] "totals" = None /\
  getitem (VDict [("timeline", VInt 1)]) "totals" = Raise (KeyError "totals").
Proof.
  split; [reflexivity|].
  apply (missing_field_aborts mock_totals_42 repr_opaque default_client
           (VInt 99) "article" "day" false).
  reflexivity.
Defined.

Lemma get_figshare_id_success_witness :
  let w := world_with three_accounts in
  main_baseurl_institute institution_client =
    Some "https://api.figshare.com/v2/account/institution" /\
  answers_with_int mock_ids "id" /\
  exists w' cells,
    get_figshare_id mock_ids repr_opaque institution_client 0 w = (Ok 0, w') /\
    (exists df', frames w' !! 0 = Some df' /\
                 column df' "author_id" = Ok cells) /\
    forallb is_int64 cells = true /\ length cells = 3.
Proof.
  intros w.
  assert (A : answers_with_int mock_ids "id").
  { intros h rq. eexists. eexists. repeat split; reflexivity. }
  split; [reflexivity|]. split; [exact A|].
  exact (proj2 (get_figshare_id_success mock_ids repr_opaque
                  institution_client 0 w
                  "https://api.figshare.com/v2/account/institution"
                  three_accounts [VInt 11; VInt 12; VInt 13]
                  eq_refl eq_refl eq_refl) A).
Defined.

Lemma get_figshare_id_early_errors_witness :
  main_baseurl_institute default_client = None /\
  get_figshare_id mock_ids repr_opaque default_client 0
    (world_with three_accounts) =
    (Raise (AttributeError "main_baseurl_institute"),
     world_with three_accounts).
Proof.
  split; [reflexivity|].
  apply (get_figshare_id_early_errors mock_ids repr_opaque default_client 0
           (world_with three_accounts)).
  reflexivity.
Defined.

Lemma retrieve_institution_users_new_table_witness :
  let run :=
    retrieve_institution_users mock_institution repr_opaque frame_of_records
      institution_client true empty_world in
  run.1 = Ok 0 /\
  stdout run.2 = ["Excluding administrative and test accounts"].
Proof.
  intros run. split; [reflexivity|].
  destruct (retrieve_institution_users_new_table mock_institution repr_opaque
              frame_of_records institution_client true empty_world 0 run.2
              eq_refl) as (_ & _ & S).
  exact S.
Defined.

Lemma retrieve_institution_users_bad_listing_witness :
  dict_get (columns (seven_accounts (RangeIndex 7))) "institution_id" = None /\
  (retrieve_institution_users mock_totals_42 repr_opaque frame_of_seven
     institution_client false empty_world).1 =
    Raise (KeyError "['institution_id'] not found in axis").
Proof.
  split; [reflexivity|].
  destruct (retrieve_institution_users_bad_listing mock_totals_42 repr_opaque
              frame_of_seven institution_client false empty_world
              "https://api.figshare.com/v2/account/institution"
              (VDict [("totals", VInt 42)]) (seven_accounts (RangeIndex 7))
              eq_refl eq_refl eq_refl) as (H & _).
  now rewrite (H eq_refl).
Defined.

Lemma drop_admin_and_test_keeps_witness :
  List.NoDup (index three_accounts) /\
  exists df',
    drop_admin_and_test three_accounts = Ok df' /\
    index df' = [0%Z] /\
    column df' "email" = Ok [VStr "ana@email.arizona.edu"].
Proof.
  assert (N : List.NoDup (index three_accounts)).
  { repeat constructor; simpl; intuition discriminate. }
  split; [exact N|].
  destruct (drop_admin_and_test_keeps three_accounts
              [VStr "ana@email.arizona.edu";
               VStr "data-management@email.arizona.edu";
               VStr "ana-test@email.arizona.edu"]
              eq_refl eq_refl N eq_refl) as (df' & D & I & E & _).
  exists df'. repeat split; assumption.
Defined.

Lemma test_pattern_dots_match_any_witness :
  "x"%char <> "010"%char /\
  is_test_email (VStr "bob-test@emailxarizonaxedu.example.org") = true.
Proof.
  assert (H : "x"%char <> "010"%char) by discriminate.
  split; [exact H|].
  exact (test_pattern_dots_match_any "bob" ".example.org" "x" "x" H H).
Defined.

Lemma get_institution_totals_early_errors_witness :
  "group" <> "author" /\ "group" <> "article" /\
  get_institution_totals mock_totals_42 repr_opaque frame_of_records
    default_client None "group" empty_world =
    (Raise (AttributeError "loc"), empty_world).
Proof.
  assert (H1 : "group" <> "author") by discriminate.
  assert (H2 : "group" <> "article") by discriminate.
  split; [exact H1|]. split; [exact H2|].
  exact (proj1 (get_institution_totals_early_errors mock_totals_42 repr_opaque
                  frame_of_records default_client "group" empty_world)
           H1 H2).
Defined.

Lemma get_institution_totals_label_slice_witness :
  let df := seven_accounts [-1; 0; 1; 2; 3; 4; 5]%Z in
  let w := world_with df in
  let run :=
    get_institution_totals mock_totals_42 repr_opaque frame_of_records
      default_client (Some 0) "author" w in
  is_monotonic_increasing (index df) = true /\
  exists new,
    log run.2 = log w ++ new /\
    tracks
      (flat_map (user_totals_requests repr_opaque default_client)
         [VInt 101; VInt 102; VInt 103; VInt 104; VInt 105; VInt 106])
      new run.1.
Proof.
  intros df w run. split; [reflexivity|].
  destruct (get_institution_totals_label_slice mock_totals_42 repr_opaque
              frame_of_records default_client 0 "author" w df
              seven_author_ids eq_refl eq_refl eq_refl eq_refl)
    as (new & L & T & _).
  exists new. split; [exact L | exact T].
Defined.

Lemma get_institution_totals_short_table_witness :
  let w := world_with three_accounts in
  let run :=
    get_institution_totals mock_totals_42 repr_opaque frame_of_records
      default_client (Some 0) "author" w in
  3 < 6 /\
  answers_with_int mock_totals_42 "totals" /\
  exists total_df new,
    run.1 = Ok total_df /\
    log run.2 = log w ++ new /\
    map ex_request new =
      flat_map (user_totals_requests repr_opaque default_client)
        [VInt 501; VInt 502; VInt 503] /\
    length new = 3 * 3.
Proof.
  intros w run.
  assert (A : answers_with_int mock_totals_42 "totals").
  { intros h rq. eexists. eexists. repeat split; reflexivity. }
  split; [lia|]. split; [exact A|].
  exact (proj2 (get_institution_totals_short_table mock_totals_42 repr_opaque
                  frame_of_records default_client 0 "author" w three_accounts
                  3 [VInt 501; VInt 502; VInt 503] eq_refl eq_refl
                  ltac:(lia) eq_refl eq_refl) A).
Defined.

Lemma get_institution_totals_nothing_in_slice_witness :
  let df := seven_accounts [10; 11; 12; 13; 14; 15; 16]%Z in
  Forall (fun l => in_slice l = false) (index df) /\
  get_institution_totals mock_totals_42 repr_opaque frame_of_records
    default_client (Some 0) "author" (world_with df) =
    (Ok (mkDataFrame [] []), world_with df).
Proof.
  intros df.
  assert (F : Forall (fun l => in_slice l = false) (index df))
    by (repeat constructor).
  split; [exact F|].
  exact (get_institution_totals_nothing_in_slice mock_totals_42 repr_opaque
           frame_of_records default_client 0 "author" (world_with df) df
           seven_author_ids eq_refl eq_refl eq_refl eq_refl F).
Defined.

Lemma get_institution_totals_result_shape_witness :
  let run :=
    get_institution_totals mock_totals_42 repr_opaque frame_of_records
      default_client (Some 0) "author" (world_with three_accounts) in
  match run.1 with
  | Ok total_df =>
      List.NoDup (index total_df) /\
      map fst (columns total_df) = ["views"; "downloads"; "shares"]
  | Raise _ => False
  end.
Proof.
  intros run.
  destruct (get_institution_totals mock_totals_42 repr_opaque frame_of_records
              default_client (Some 0) "author" (world_with three_accounts))
    as [[total_df|e] w'] eqn:H; subst run; simpl.
  - destruct (get_institution_totals_result_shape _ _ _ _ _ _ _ _ _ H)
      as (N & _ & C & _).
    split; [exact N|]. apply C.
    vm_compute in H. injection H as <- _. discriminate.
  - vm_compute in H. discriminate H.
Defined.

Lemma get_institution_totals_row_order_witness :
  let df := seven_accounts [-1; 0; 1; 2; 3; 4; 5]%Z in
  let run :=
    get_institution_totals mock_totals_42 repr_opaque frame_of_records
      default_client (Some 0) "author" (world_with df) in
  match run.1 with
  | Ok total_df => index total_df = ["101"; "102"; "103"; "104"; "105"; "106"]
  | Raise _ => False
  end.
Proof.
  intros df run.
  destruct (get_institution_totals mock_totals_42 repr_opaque frame_of_records
              default_client (Some 0) "author" (world_with df))
    as [[total_df|e] w'] eqn:H; subst run; simpl.
  - refine (proj1 (get_institution_totals_row_order mock_totals_42 repr_opaque
                     frame_of_records default_client 0 "author"
                     (world_with df) df seven_author_ids total_df w'
                     eq_refl eq_refl eq_refl eq_refl _ H)).
    repeat constructor; simpl; intuition discriminate.
  - vm_compute in H. discriminate H.
Defined.

Lemma retrieve_institution_users_excludes_witness :
  let run :=
    retrieve_institution_users mock_institution repr_opaque frame_of_records
      institution_client true empty_world in
  run.1 = Ok 0 /\
  exists accounts_df emails,
    frames run.2 !! 0 = Some accounts_df /\
    column accounts_df "email" = Ok emails /\
    Forall (fun v => is_admin_email v = false /\ is_test_email v = false)
      emails.
Proof.
  intros run. split; [reflexivity|].
  exact (retrieve_institution_users_excludes mock_institution repr_opaque
           frame_of_records institution_client empty_world 0 run.2 eq_refl).
Defined.
